(** * Ourbit connector: order / balance reconciliation

    A shallow embedding of [ourbit_exchange.py], [ourbit_utils.py],
    [ourbit_web_utils.py] and [ourbit_constants.py].

    - Python values that travel on the wire are the inductive [pyval].
    - A coroutine is a function in the state-and-exception monad [M] over
      the connector state [Exchange].  One task runs at a time: nothing
      else touches the state while a coroutine is suspended.  Every [await]
      is a suspension point at which the environment may deliver
      [asyncio.CancelledError].
    - What the connector does to its collaborators (tracker calls, REST
      requests, log records, sleeps) is recorded, in program order, in the
      [trace] of the state.
    - [Decimal] values and [float] timestamps are the rationals they
      denote; their arithmetic is exact.
    - Python's built-in conversions ([str], [repr], [int], [Decimal], the
      [f] format) and the gzip, UTF-8 and JSON codecs are interfaces
      ([PyBuiltins], [Codecs]).
    - The order tracker of hummingbot's core, which the connector calls
      but which is not part of the connector, is modelled from the
      specification ([TrackerModel]). *)

From Stdlib Require Import ZArith QArith Qcanon String Ascii List.
From Stdlib.Strings Require Import Byte.
From stdpp Require Import base option numbers list strings gmap fin_maps pretty.

Local Open Scope string_scope.
Local Open Scope list_scope.

(** ** Python values and exceptions *)

(** The values [json.loads] produces.  A [float] is modelled by the rational
    it denotes, a [str] by its UTF-8 bytes, a [dict] by its items in
    insertion order (a key is bound by its first item). *)
#[warnings="-register-all"]
Inductive pyval : Type :=
| PNone
| PBool (b : bool)
| PInt (z : Z)
| PFloat (x : Qc)
| PStr (s : string)
| PList (items : list pyval)
| PDict (entries : list (string * pyval)).

(** An instance of a subclass of [Exception]: its class name and [str(e)]. *)
Record Exception := mkException { exc_class : string; exc_str : string }.

(** What a [raise] carries.  [asyncio.CancelledError] derives from
    [BaseException], so [except Exception] does not catch it. *)
Inductive raised :=
| CancelledError
| Raised (e : Exception).

(** Result of an expression that cannot suspend. *)
Inductive res (A : Type) :=
| Ok (a : A)
| Err (e : Exception).
Arguments Ok {A} a.
Arguments Err {A} e.

Definition KeyError (k : string) : Exception := mkException "KeyError" ("'" ++ k ++ "'").
Definition TypeError (msg : string) : Exception := mkException "TypeError" msg.
Definition AttributeError (msg : string) : Exception := mkException "AttributeError" msg.

(** Hashable values as dictionary keys.  [True == 1 == 1.0] hash alike. *)
Inductive pykey :=
| KNone
| KInt (z : Z)
| KFloat (x : Qc)
| KStr (s : string).

Global Instance pykey_eq_dec : EqDecision pykey.
Proof. solve_decision. Defined.

Definition pykey_encode (k : pykey) : unit + Z + Qc + string :=
  match k with
  | KNone => inl (inl (inl tt))
  | KInt z => inl (inl (inr z))
  | KFloat x => inl (inr x)
  | KStr s => inr s
  end.

Definition pykey_decode (c : unit + Z + Qc + string) : pykey :=
  match c with
  | inl (inl (inl _)) => KNone
  | inl (inl (inr z)) => KInt z
  | inl (inr x) => KFloat x
  | inr s => KStr s
  end.

Global Program Instance pykey_countable : Countable pykey :=
  inj_countable' pykey_encode pykey_decode _.
Next Obligation. by intros []. Qed.

Definition to_key (v : pyval) : res pykey :=
  match v with
  | PNone => Ok KNone
  | PBool b => Ok (KInt (if b then 1 else 0))
  | PInt z => Ok (KInt z)
  | PFloat x => Ok (if Pos.eqb (Qden x) 1 then KInt (Qnum x) else KFloat x)
  | PStr s => Ok (KStr s)
  | PList _ => Err (TypeError "unhashable type: 'list'")
  | PDict _ => Err (TypeError "unhashable type: 'dict'")
  end.

(** [bool(v)] *)
Definition truthy (v : pyval) : bool :=
  match v with
  | PNone => false
  | PBool b => b
  | PInt z => negb (Z.eqb z 0)
  | PFloat x => negb (Z.eqb (Qnum x) 0)
  | PStr s => negb (String.eqb s "")
  | PList l => match l with [] => false | _ => true end
  | PDict d => match d with [] => false | _ => true end
  end.

Fixpoint assoc (k : string) (d : list (string * pyval)) : option pyval :=
  match d with
  | [] => None
  | (k', v) :: d' => if String.eqb k k' then Some v else assoc k d'
  end.

Definition type_name (v : pyval) : string :=
  match v with
  | PNone => "NoneType"
  | PBool _ => "bool"
  | PInt _ => "int"
  | PFloat _ => "float"
  | PStr _ => "str"
  | PList _ => "list"
  | PDict _ => "dict"
  end.

(** [v.get(k, default)] *)
Definition py_get (v : pyval) (k : string) (default : pyval) : res pyval :=
  match v with
  | PDict d => Ok (match assoc k d with Some x => x | None => default end)
  | _ => Err (AttributeError ("'" ++ type_name v ++ "' object has no attribute 'get'"))
  end.

(** [v[k]] for a string literal [k] *)
Definition py_getitem (v : pyval) (k : string) : res pyval :=
  match v with
  | PDict d => match assoc k d with Some x => Ok x | None => Err (KeyError k) end
  | PStr _ => Err (TypeError "string indices must be integers")
  | PList _ => Err (TypeError "list indices must be integers or slices, not str")
  | _ => Err (TypeError ("'" ++ type_name v ++ "' object is not subscriptable"))
  end.

Definition chars (s : string) : list pyval :=
  map (fun c => PStr (String c "")) (list_ascii_of_string s).

(** The items a [for] loop over [v] visits. *)
Definition py_iter (v : pyval) : res (list pyval) :=
  match v with
  | PList l => Ok l
  | PDict d => Ok (map (fun kv => PStr (fst kv)) d)
  | PStr s => Ok (chars s)
  | _ => Err (TypeError ("'" ++ type_name v ++ "' object is not iterable"))
  end.

(** [v == s] for a string literal [s] *)
Definition py_eq_str (v : pyval) (s : string) : bool :=
  match v with
  | PStr s' => String.eqb s' s
  | _ => false
  end.

(** [v in [s1, ..., sn]] for string literals *)
Definition py_in_strs (v : pyval) (l : list string) : bool :=
  existsb (py_eq_str v) l.

(** [needle in haystack] on [str] *)
Fixpoint str_contains (needle haystack : string) : bool :=
  String.prefix needle haystack ||
  match haystack with
  | EmptyString => false
  | String _ rest => str_contains needle rest
  end.

(** [s.replace(c, "")] for a one-character [c] *)
Fixpoint str_remove (c : ascii) (s : string) : string :=
  match s with
  | EmptyString => EmptyString
  | String a rest => if Ascii.eqb a c then str_remove c rest else String a (str_remove c rest)
  end.

(** Python built-ins the connector calls; their parsing and printing rules
    belong to the interpreter. *)
Class PyBuiltins := {
  py_str : pyval -> string;          (* str(v) *)
  py_repr : pyval -> string;         (* repr(v) *)
  py_int : pyval -> res Z;           (* int(v) *)
  py_decimal : string -> res Qc;     (* Decimal(s), finite values *)
  py_format_f : Qc -> string;        (* f"{d:f}" *)
}.

(** [int(ms) * 1e-3], as the rational it denotes *)
Definition ms_to_s (ms : Z) : Qc := Q2Qc (ms # 1000).

Definition Qc_leb (x y : Qc) : bool := Qle_bool x y.

(** ** hummingbot core data types used by the connector *)

Module OrderState.
(** Modelled from the spec: the enumeration [OrderState] of hummingbot's
    [in_flight_order] module, with the states of the data model. *)
Inductive t :=
| PENDING_CREATE
| OPEN
| PARTIALLY_FILLED
| FILLED
| PENDING_CANCEL
| CANCELED
| FAILED.

Definition eqb (a b : t) : bool :=
  match a, b with
  | PENDING_CREATE, PENDING_CREATE | OPEN, OPEN | PENDING_CANCEL, PENDING_CANCEL
  | CANCELED, CANCELED | PARTIALLY_FILLED, PARTIALLY_FILLED | FILLED, FILLED
  | FAILED, FAILED => true
  | _, _ => false
  end.
End OrderState.

Module TradeType.
(** Modelled from the spec: the [side] of an order ([TradeType] of
    hummingbot's [common] module). *)
Inductive t := BUY | SELL.
End TradeType.

Module OrderType.
(** The order types of [supported_order_types]. *)
Inductive t := MARKET | LIMIT | LIMIT_MAKER.

(** [order_type.name] *)
Definition name (o : t) : string :=
  match o with
  | MARKET => "MARKET"
  | LIMIT => "LIMIT"
  | LIMIT_MAKER => "LIMIT_MAKER"
  end.
End OrderType.

Module RESTMethod.
Inductive t := GET | POST | DELETE.
End RESTMethod.

(** The fields [ourbit_utils.DEFAULT_FEES] sets. *)
Record TradeFeeSchema := {
  maker_percent_fee_decimal : Qc;
  taker_percent_fee_decimal : Qc;
  buy_percent_fee_deducted_from_returns : bool;
}.

Record TokenAmount := { token : pyval; amount : Qc }.

(** The arguments [TradeFeeBase.new_spot_fee] is called with. *)
Record TradeFee := {
  fee_schema : TradeFeeSchema;
  fee_trade_type : TradeType.t;
  percent_token : option pyval;
  flat_fees : list TokenAmount;
}.

(** [OrderUpdate], with the keyword arguments the connector passes. *)
Record OrderUpdate := {
  ou_trading_pair : string;
  update_timestamp : Qc;
  new_state : OrderState.t;
  ou_client_order_id : string;
  ou_exchange_order_id : option string;
}.

(** [TradeUpdate], with the keyword arguments the connector passes. *)
Record TradeUpdate := {
  trade_id : string;
  tu_client_order_id : string;
  tu_exchange_order_id : string;
  tu_trading_pair : string;
  fee : TradeFee;
  fill_base_amount : Qc;
  fill_quote_amount : Qc;
  fill_price : Qc;
  fill_timestamp : Qc;
}.

(** Modelled from the spec: the [Order] of the data model
    ([InFlightOrder]), with the fields the connector reads and the state,
    timestamp, fill ledger and filled totals the invariants speak of.
    [trading_pair], [trade_type] and [client_order_id] never change after
    creation. *)
Record InFlightOrder := {
  client_order_id : string;
  exchange_order_id : option string;
  trading_pair : string;
  trade_type : TradeType.t;
  current_state : OrderState.t;
  last_update_timestamp : Qc;
  order_fills : list TradeUpdate;
  filled_base_amount : Qc;
  filled_quote_amount : Qc;
}.

(** ** ourbit_constants.py *)

Module CONSTANTS.
Definition DEFAULT_DOMAIN := "main".
Definition SIDE_BUY := "BUY".
Definition SIDE_SELL := "SELL".
Definition TIME_IN_FORCE_GTC := "GTC".

Definition REST_URLS (domain : string) : option string :=
  if String.eqb domain "main" then Some "https://api.ourbit.com" else None.

Definition ACCOUNTS_PATH_URL := "/api/v3/account".
Definition LAST_TRADED_PRICE_PATH := "/api/v3/ticker/24hr".
Definition MY_TRADES_PATH_URL := "/api/v3/myTrades".
Definition ORDER_PATH_URL := "/api/v3/order".
Definition CANCEL_ORDER_PATH_URL := "/api/v3/order".

Definition ORDER_STATE : list (string * OrderState.t) :=
  [ ("NEW", OrderState.OPEN);
    ("PARTIALLY_FILLED", OrderState.PARTIALLY_FILLED);
    ("FILLED", OrderState.FILLED);
    ("CANCELED", OrderState.CANCELED);
    ("PENDING_CANCEL", OrderState.PENDING_CANCEL);
    ("REJECTED", OrderState.FAILED);
    ("EXPIRED", OrderState.CANCELED) ].
End CONSTANTS.

Fixpoint table_lookup {A} (k : string) (d : list (string * A)) : option A :=
  match d with
  | [] => None
  | (k', v) :: d' => if String.eqb k k' then Some v else table_lookup k d'
  end.

(** [CONSTANTS.ORDER_STATE[v]] *)
Definition ORDER_STATE_getitem `{PyBuiltins} (v : pyval) : res OrderState.t :=
  match to_key v with
  | Err e => Err e
  | Ok (KStr s) =>
      match table_lookup s CONSTANTS.ORDER_STATE with
      | Some st => Ok st
      | None => Err (KeyError s)
      end
  | Ok _ => Err (mkException "KeyError" (py_repr v))
  end.

(** ** The connector state and its coroutines *)

Record Request := {
  url : string;
  method : RESTMethod.t;
  params : option (list (string * pyval));
  is_auth_required : bool;
  headers : list (string * string);
  throttler_limit_id : string;
}.

Inductive tracker_call :=
| Call__process_order_update (ou : OrderUpdate)      (* awaited coroutine *)
| Call_process_order_update (ou : OrderUpdate)
| Call_process_trade_update (tu : TradeUpdate)
| Call_process_order_not_found (cid : string).

(** What the connector does to its collaborators, in program order. *)
Inductive effect :=
| Tracker (c : tracker_call)
| Rest (r : Request)
| LogError (msg : string)
| Sleep (d : Qc).

(** Modelled from the spec: the order store of [ClientOrderTracker] with
    its "two logical views over the active order set": [all_fillable_orders]
    and [all_updatable_orders] are dictionaries over the same order
    objects, here the orders whose client id is in [fillable], respectively
    [updatable]. *)
Record ClientOrderTracker := {
  orders : gmap string InFlightOrder;
  fillable : gset string;
  updatable : gset string;
}.

Record Exchange := {
  _domain : string;
  _order_tracker : ClientOrderTracker;
  _account_available_balances : gmap pykey Qc;
  _account_balances : gmap pykey Qc;
  trade_fee_schema : TradeFeeSchema;
  (* the world around the connector *)
  rest_assistant : list effect -> Request -> res pyval;  (* the venue's reply, given what happened so far *)
  clock : Qc;                                            (* time.time() *)
  cancel_at : option nat;   (* [Some k]: the task is cancelled at its (k+1)-th suspension *)
  trace : list effect;
}.

Inductive outcome (A : Type) :=
| Returns (a : A)
| Raises (r : raised).
Arguments Returns {A} a.
Arguments Raises {A} r.

Definition M (A : Type) : Type := Exchange -> outcome A * Exchange.

Definition ret {A} (a : A) : M A := fun s => (Returns a, s).

Definition raise {A} (r : raised) : M A := fun s => (Raises r, s).

Definition bind {A B} (m : M A) (f : A -> M B) : M B :=
  fun s =>
    match m s with
    | (Returns a, s') => f a s'
    | (Raises r, s') => (Raises r, s')
    end.

Declare Scope exchange_scope.
Delimit Scope exchange_scope with exchange.
Bind Scope exchange_scope with M.
Notation "'let*' x := m 'in' k" := (bind m (fun x => k))
  (at level 10, x name, m at level 100, k at level 200) : exchange_scope.
Notation "m ;;; k" := (bind m (fun _ => k))
  (at level 100, k at level 200, right associativity) : exchange_scope.
Local Open Scope exchange_scope.

(** Evaluate an expression; its exception, if any, is raised. *)
Definition eval {A} (r : res A) : M A :=
  match r with
  | Ok a => ret a
  | Err e => raise (Raised e)
  end.

Definition get_state : M Exchange := fun s => (Returns s, s).

Definition set_cancel_at (c : option nat) (s : Exchange) : Exchange :=
  {| _domain := _domain s; _order_tracker := _order_tracker s;
     _account_available_balances := _account_available_balances s;
     _account_balances := _account_balances s; trade_fee_schema := trade_fee_schema s;
     rest_assistant := rest_assistant s; clock := clock s;
     cancel_at := c; trace := trace s |}.

Definition set_trace (t : list effect) (s : Exchange) : Exchange :=
  {| _domain := _domain s; _order_tracker := _order_tracker s;
     _account_available_balances := _account_available_balances s;
     _account_balances := _account_balances s; trade_fee_schema := trade_fee_schema s;
     rest_assistant := rest_assistant s; clock := clock s;
     cancel_at := cancel_at s; trace := t |}.

Definition set_clock (c : Qc) (s : Exchange) : Exchange :=
  {| _domain := _domain s; _order_tracker := _order_tracker s;
     _account_available_balances := _account_available_balances s;
     _account_balances := _account_balances s; trade_fee_schema := trade_fee_schema s;
     rest_assistant := rest_assistant s; clock := c;
     cancel_at := cancel_at s; trace := trace s |}.

Definition set_tracker (t : ClientOrderTracker) (s : Exchange) : Exchange :=
  {| _domain := _domain s; _order_tracker := t;
     _account_available_balances := _account_available_balances s;
     _account_balances := _account_balances s; trade_fee_schema := trade_fee_schema s;
     rest_assistant := rest_assistant s; clock := clock s;
     cancel_at := cancel_at s; trace := trace s |}.

Definition set_balances (avail total : gmap pykey Qc) (s : Exchange) : Exchange :=
  {| _domain := _domain s; _order_tracker := _order_tracker s;
     _account_available_balances := avail;
     _account_balances := total; trade_fee_schema := trade_fee_schema s;
     rest_assistant := rest_assistant s; clock := clock s;
     cancel_at := cancel_at s; trace := trace s |}.

Definition modify (f : Exchange -> Exchange) : M unit := fun s => (Returns tt, f s).

Definition emit (e : effect) : M unit := modify (fun s => set_trace (trace s ++ [e]) s).

(** [await m]: a suspension point.  A cancellation scheduled for this
    suspension is delivered as [CancelledError] instead of running [m]. *)
Definition await {A} (m : M A) : M A :=
  fun s =>
    match cancel_at s with
    | Some O => (Raises CancelledError, set_cancel_at None s)
    | Some (S k) => m (set_cancel_at (Some k) s)
    | None => m s
    end.

(** [try: body / except CancelledError: raise / except Exception: handler] *)
Definition try_except {A} (body : M A) (handler : Exception -> M A) : M A :=
  fun s =>
    match body s with
    | (Returns a, s') => (Returns a, s')
    | (Raises CancelledError, s') => (Raises CancelledError, s')
    | (Raises (Raised e), s') => handler e s'
    end.

(** [for x in l: body x] *)
Fixpoint for_each {A} (l : list A) (body : A -> M unit) : M unit :=
  match l with
  | [] => ret tt
  | x :: l' => body x ;;; for_each l' body
  end.

(** ** The order tracker

    [ClientOrderTracker] and [InFlightOrder] belong to hummingbot's core; the
    connector only calls them.  Their behaviour is taken from the data model
    and the reconciler rules of the specification. *)

Module TrackerModel.

(** Modelled from the spec: the terminal states of [InFlightOrder]
    ("terminal states (FILLED, CANCELED, FAILED) are absorbing"). *)
Definition is_terminal (st : OrderState.t) : bool :=
  match st with
  | OrderState.FILLED | OrderState.CANCELED | OrderState.FAILED => true
  | _ => false
  end.

(** Modelled from the spec: the rank of an [InFlightOrder] state in
    "PENDING_CREATE < OPEN < {PARTIALLY_FILLED} < {FILLED, CANCELED,
    FAILED}".  The spec does not place PENDING_CANCEL; it is ranked with
    the other non-terminal state that follows OPEN. *)
Definition rank (st : OrderState.t) : nat :=
  match st with
  | OrderState.PENDING_CREATE => 0
  | OrderState.OPEN => 1
  | OrderState.PARTIALLY_FILLED | OrderState.PENDING_CANCEL => 2
  | OrderState.FILLED | OrderState.CANCELED | OrderState.FAILED => 3
  end.

(** Modelled from the spec: [InFlightOrder.update_with_order_update].  A
    terminal order accepts no mutation; an update older than the last
    applied one, or to a lower-ranked state, is discarded; the exchange
    order id is set once. *)
Definition update_with_order_update (ou : OrderUpdate) (o : InFlightOrder) : InFlightOrder :=
  if is_terminal (current_state o) then o
  else if negb (Qc_leb (last_update_timestamp o) (update_timestamp ou)) then o
  else if Nat.ltb (rank (new_state ou)) (rank (current_state o)) then o
  else {| client_order_id := client_order_id o;
          exchange_order_id :=
            match exchange_order_id o with
            | Some eid => Some eid
            | None => ou_exchange_order_id ou
            end;
          trading_pair := trading_pair o;
          trade_type := trade_type o;
          current_state := new_state ou;
          last_update_timestamp := update_timestamp ou;
          order_fills := order_fills o;
          filled_base_amount := filled_base_amount o;
          filled_quote_amount := filled_quote_amount o |}.

(** Modelled from the spec: the ledger [order_fills] holds a fill with
    trade id [tid]. *)
Definition seen (tid : string) (fills : list TradeUpdate) : bool :=
  existsb (fun tu => String.eqb (trade_id tu) tid) fills.

(** Modelled from the spec: [InFlightOrder.update_with_trade_update].  "A
    trade_id is applied to an order's fill ledger at most once; applying a
    previously-seen trade_id is a no-op"; otherwise the record is appended
    and the filled totals grow by the fill. *)
Definition update_with_trade_update (tu : TradeUpdate) (o : InFlightOrder) : InFlightOrder :=
  if seen (trade_id tu) (order_fills o) then o
  else {| client_order_id := client_order_id o;
          exchange_order_id := exchange_order_id o;
          trading_pair := trading_pair o;
          trade_type := trade_type o;
          current_state := current_state o;
          last_update_timestamp := last_update_timestamp o;
          order_fills := order_fills o ++ [tu];
          filled_base_amount := (filled_base_amount o + fill_base_amount tu)%Qc;
          filled_quote_amount := (filled_quote_amount o + fill_quote_amount tu)%Qc |}.

(** Modelled from the spec: what [process_order_not_found] does to the
    order: "resolves the order's terminal state locally", leaving an
    order that is already terminal as it is.  The spec does not name the
    terminal state; FAILED is used. *)
Definition resolve_not_found (o : InFlightOrder) : InFlightOrder :=
  if is_terminal (current_state o) then o
  else {| client_order_id := client_order_id o;
          exchange_order_id := exchange_order_id o;
          trading_pair := trading_pair o;
          trade_type := trade_type o;
          current_state := OrderState.FAILED;
          last_update_timestamp := last_update_timestamp o;
          order_fills := order_fills o;
          filled_base_amount := filled_base_amount o;
          filled_quote_amount := filled_quote_amount o |}.

(** Modelled from the spec: a tracker method finds the order by its client
    id in one of the views and updates it in place; an order that is not in
    the view is left alone. *)
Definition alter_in (view : gset string) (f : InFlightOrder -> InFlightOrder)
    (cid : string) (t : ClientOrderTracker) : ClientOrderTracker :=
  if decide (cid ∈ view) then
    {| orders := alter f cid (orders t); fillable := fillable t; updatable := updatable t |}
  else t.

(** Modelled from the spec: [ClientOrderTracker._process_order_update],
    on the view of the orders "eligible for generic state updates". *)
Definition process_order_update (ou : OrderUpdate) (t : ClientOrderTracker) : ClientOrderTracker :=
  alter_in (updatable t) (update_with_order_update ou) (ou_client_order_id ou) t.

(** Modelled from the spec: [ClientOrderTracker.process_trade_update], on
    the view of the orders "eligible for fill-tracking". *)
Definition process_trade_update (tu : TradeUpdate) (t : ClientOrderTracker) : ClientOrderTracker :=
  alter_in (fillable t) (update_with_trade_update tu) (tu_client_order_id tu) t.

(** Modelled from the spec: [ClientOrderTracker.process_order_not_found]. *)
Definition process_order_not_found (cid : string) (t : ClientOrderTracker) : ClientOrderTracker :=
  alter_in (updatable t) resolve_not_found cid t.

(** Modelled from the spec: [view.get(k)] for one of the two views. *)
Definition view_get (view : gset string) (t : ClientOrderTracker) (k : pyval)
    : res (option InFlightOrder) :=
  match to_key k with
  | Err e => Err e
  | Ok (KStr cid) => Ok (if decide (cid ∈ view) then orders t !! cid else None)
  | Ok _ => Ok None
  end.

Definition all_fillable_orders_get (t : ClientOrderTracker) := view_get (fillable t) t.
Definition all_updatable_orders_get (t : ClientOrderTracker) := view_get (updatable t) t.

End TrackerModel.

(** The tracker's methods as the connector calls them: each call is
    recorded, then applied to the store. *)
Definition tracker_call_apply (c : tracker_call) : ClientOrderTracker -> ClientOrderTracker :=
  match c with
  | Call__process_order_update ou => TrackerModel.process_order_update ou
  | Call_process_order_update ou => TrackerModel.process_order_update ou
  | Call_process_trade_update tu => TrackerModel.process_trade_update tu
  | Call_process_order_not_found cid => TrackerModel.process_order_not_found cid
  end.

Definition call_tracker (c : tracker_call) : M unit :=
  emit (Tracker c) ;;;
  modify (fun s => set_tracker (tracker_call_apply c (_order_tracker s)) s).

(** ** ourbit_web_utils.py *)

Module web_utils.
Definition public_rest_url (path_url domain : string) : res string :=
  match CONSTANTS.REST_URLS domain with
  | Some base => Ok (String.append base path_url)
  | None => Err (KeyError domain)
  end.

Definition rest_url (path_url domain : string) : res string :=
  public_rest_url path_url domain.
End web_utils.

(** ** ourbit_utils.py *)

(** The codec libraries behind [decompress_ws_message]. *)
Class Codecs := {
  gzip_read : list byte -> res (list byte);   (* gzip.GzipFile(fileobj=io.BytesIO(b), mode="rb").read() *)
  utf8_decode : list byte -> res string;      (* b.decode("utf-8") *)
  json_loads : string -> res pyval;
}.

(** A raw frame: [bytes], or anything else. *)
Inductive ws_message :=
| Bytes (b : list byte)
| NotBytes (v : pyval).

Definition res_bind {A B} (r : res A) (f : A -> res B) : res B :=
  match r with
  | Ok a => f a
  | Err e => Err e
  end.

Definition decompress_ws_message `{Codecs} (message : ws_message) : res pyval :=
  match message with
  | Bytes b =>
      match res_bind (gzip_read b) (fun decompressed_data =>
            res_bind (utf8_decode decompressed_data) json_loads) with
      | Ok v => Ok v
      | Err _ => res_bind (utf8_decode b) json_loads
      end
  | NotBytes v => Ok v
  end.

(** ** ourbit_exchange.py *)

Definition ascii_upper (c : ascii) : ascii :=
  let n := nat_of_ascii c in
  if Nat.leb 97 n && Nat.leb n 122 then ascii_of_nat (n - 32) else c.

(** [s.upper()] on ASCII text *)
Fixpoint str_upper (s : string) : string :=
  match s with
  | EmptyString => EmptyString
  | String c rest => String (ascii_upper c) (str_upper rest)
  end.

(** [float(v)] *)
Class PyFloat := { py_float : pyval -> res Qc }.

(** [TradingRule], with the arguments the connector passes. *)
Record TradingRule := {
  tr_trading_pair : pyval;
  min_order_size : Qc;
  max_order_size : Qc;
  min_price_increment : Qc;
  min_base_amount_increment : Qc;
  min_notional_size : Qc;
}.

Notation "'let?' x := m 'in' k" := (res_bind m (fun x => k))
  (at level 10, x name, m at level 100, k at level 200).

Module OurbitExchange.
Section Methods.
Context `{PyBuiltins}.

Definition ourbit_order_type (order_type : OrderType.t) : string :=
  str_upper (OrderType.name order_type).

Definition _is_order_not_found_during_status_update_error (status_update_exception : Exception) : bool :=
  str_contains "Order does not exist" (exc_str status_update_exception).

Definition _is_order_not_found_during_cancelation_error (cancelation_exception : Exception) : bool :=
  str_contains "Order does not exist" (exc_str cancelation_exception).

(** [Decimal(str(v))] *)
Definition Decimal_str (v : pyval) : res Qc := py_decimal (py_str v).

(** [await rest_assistant.execute_request(...)]: the request goes out and
    the venue's reply comes back, as a value or as an exception. *)
Definition execute_request (req : Request) : M pyval :=
  let* s := get_state in
  emit (Rest req) ;;;
  eval (rest_assistant s (trace s) req).

Definition _api_request (path_url : string) (method : RESTMethod.t)
    (params : option (list (string * pyval))) (is_auth_required : bool)
    (limit_id : option string) : M pyval :=
  await (ret tt) ;;;   (* rest_assistant = await self._web_assistants_factory.get_rest_assistant() *)
  let* s := get_state in
  let* url := eval (web_utils.rest_url path_url (_domain s)) in
  let local_headers := [("Content-Type", "application/json"); ("Accept", "application/json")] in
  await (execute_request
    {| url := url;
       method := method;
       params := params;
       is_auth_required := is_auth_required;
       headers := local_headers;
       throttler_limit_id :=
         match limit_id with
         | Some l => if String.eqb l "" then path_url else l
         | None => path_url
         end |}).

Definition _sleep (delay : Qc) : M unit :=
  emit (Sleep delay) ;;;
  modify (fun s => set_clock (clock s + delay)%Qc s).

Definition _place_order (order_id trading_pair : string) (amount : Qc)
    (trade_type : TradeType.t) (order_type : OrderType.t) (price : Qc) : M (string * Qc) :=
  let amount_str := py_format_f amount in
  let type_str := ourbit_order_type order_type in
  let side_str :=
    match trade_type with
    | TradeType.BUY => CONSTANTS.SIDE_BUY
    | _ => CONSTANTS.SIDE_SELL
    end in
  let symbol := str_remove "-" trading_pair in
  let api_params :=
    [ ("symbol", PStr symbol);
      ("side", PStr side_str);
      ("quantity", PStr amount_str);
      ("type", PStr type_str);
      ("newClientOrderId", PStr order_id) ]
    ++ match order_type with
       | OrderType.MARKET => []
       | _ => [("price", PStr (py_format_f price))]
       end
    ++ match order_type with
       | OrderType.LIMIT => [("timeInForce", PStr CONSTANTS.TIME_IN_FORCE_GTC)]
       | _ => []
       end in
  let* order_result :=
    _api_request CONSTANTS.ORDER_PATH_URL RESTMethod.POST (Some api_params) true None in
  let* orderId := eval (py_getitem order_result "orderId") in
  let o_id := py_str orderId in
  let* transactTime := eval (py_getitem order_result "transactTime") in
  let* ms := eval (py_int transactTime) in
  let transact_time := ms_to_s ms in
  ret (o_id, transact_time).

(** [isinstance(cancel_result, dict) and cancel_result.get("orderId")] *)
Definition cancel_acknowledged (cancel_result : pyval) : bool :=
  match cancel_result with
  | PDict d =>
      match assoc "orderId" d with
      | Some v => truthy v
      | None => false
      end
  | _ => false
  end.

Definition _place_cancel (order_id : string) (tracked_order : InFlightOrder) : M bool :=
  let symbol := str_remove "-" (trading_pair tracked_order) in
  let api_params :=
    ("symbol", PStr symbol) ::
    match exchange_order_id tracked_order with
    | Some eid =>
        if String.eqb eid "" then [("origClientOrderId", PStr (client_order_id tracked_order))]
        else [("orderId", PStr eid)]
    | None => [("origClientOrderId", PStr (client_order_id tracked_order))]
    end in
  let* cancel_result :=
    _api_request CONSTANTS.CANCEL_ORDER_PATH_URL RESTMethod.DELETE (Some api_params) true None in
  if cancel_acknowledged cancel_result then
    let* s := get_state in
    call_tracker (Call_process_order_update
      {| ou_client_order_id := client_order_id tracked_order;
         ou_exchange_order_id := exchange_order_id tracked_order;
         ou_trading_pair := trading_pair tracked_order;
         update_timestamp := clock s;
         new_state := OrderState.CANCELED |}) ;;;
    ret true
  else
    await (call_tracker (Call_process_order_not_found (client_order_id tracked_order))) ;;;
    ret false.

(** The fill branch of an [executionReport] for a fillable order. *)
Definition report_fill (event_message : pyval) (tracked_order : InFlightOrder) : M unit :=
  let* X := eval (py_getitem event_message "X") in
  let* new_state := eval (ORDER_STATE_getitem X) in
  (if OrderState.eqb new_state OrderState.FILLED
      && OrderState.eqb (current_state tracked_order) OrderState.PENDING_CREATE
   then
     let* E := eval (py_getitem event_message "E") in
     let* ms := eval (py_int E) in
     let* i := eval (py_getitem event_message "i") in
     await (call_tracker (Call__process_order_update
       {| ou_trading_pair := trading_pair tracked_order;
          update_timestamp := ms_to_s ms;
          new_state := OrderState.OPEN;
          ou_client_order_id := client_order_id tracked_order;
          ou_exchange_order_id := Some (py_str i) |}))
   else ret tt) ;;;
  let* s := get_state in
  let* n := eval (py_getitem event_message "n") in
  let* fee_amount := eval (Decimal_str n) in
  let* N := eval (py_getitem event_message "N") in
  let fee :=
    {| fee_schema := trade_fee_schema s;
       fee_trade_type := trade_type tracked_order;
       percent_token := None;
       flat_fees := [ {| amount := fee_amount; token := N |} ] |} in
  let* t := eval (py_getitem event_message "t") in
  let* i := eval (py_getitem event_message "i") in
  let* l := eval (py_getitem event_message "l") in
  let* base := eval (Decimal_str l) in
  let* l' := eval (py_getitem event_message "l") in
  let* base' := eval (Decimal_str l') in
  let* L := eval (py_getitem event_message "L") in
  let* price := eval (Decimal_str L) in
  let* L' := eval (py_getitem event_message "L") in
  let* price' := eval (Decimal_str L') in
  let* E := eval (py_getitem event_message "E") in
  let* ms := eval (py_int E) in
  call_tracker (Call_process_trade_update
    {| trade_id := py_str t;
       tu_client_order_id := client_order_id tracked_order;
       tu_exchange_order_id := py_str i;
       tu_trading_pair := trading_pair tracked_order;
       fee := fee;
       fill_base_amount := base;
       fill_quote_amount := (base' * price)%Qc;
       fill_price := price';
       fill_timestamp := ms_to_s ms |}).

(** The status branch of an [executionReport] for an updatable order. *)
Definition report_status (event_message : pyval) (tracked_order : InFlightOrder) : M unit :=
  let* X := eval (py_getitem event_message "X") in
  let* new_state := eval (ORDER_STATE_getitem X) in
  if OrderState.eqb new_state OrderState.PENDING_CREATE then ret tt   (* continue *)
  else
    let* E := eval (py_getitem event_message "E") in
    let* ms := eval (py_int E) in
    let* i := eval (py_getitem event_message "i") in
    call_tracker (Call_process_order_update
      {| ou_trading_pair := trading_pair tracked_order;
         update_timestamp := ms_to_s ms;
         new_state := new_state;
         ou_client_order_id := client_order_id tracked_order;
         ou_exchange_order_id := Some (py_str i) |}).   (* continue *)

(** One [balance_entry] of an [outboundAccountPosition] event. *)
Definition patch_balance (balance_entry : pyval) : M unit :=
  let* asset_name := eval (py_getitem balance_entry "a") in
  let* f := eval (py_getitem balance_entry "f") in
  let* free_balance := eval (Decimal_str f) in
  let* f' := eval (py_getitem balance_entry "f") in
  let* free' := eval (Decimal_str f') in
  let* l := eval (py_getitem balance_entry "l") in
  let* locked := eval (Decimal_str l) in
  let total_balance := (free' + locked)%Qc in
  let* k := eval (to_key asset_name) in
  modify (fun s =>
    set_balances (<[k := free_balance]> (_account_available_balances s))
                 (<[k := total_balance]> (_account_balances s)) s).

(** The body of the [try] in [_user_stream_event_listener], for one
    [event_message]. *)
Definition process_event (event_message : pyval) : M unit :=
  let* e := eval (py_get event_message "e" PNone) in
  if py_eq_str e "executionReport" then
    let* execution_type := eval (py_get event_message "X" PNone) in
    let* client_order_id := eval (py_get event_message "C" PNone) in
    let* s := get_state in
    let* tracked_order :=
      eval (TrackerModel.all_fillable_orders_get (_order_tracker s) client_order_id) in
    match tracked_order with
    | Some tracked_order =>
        if py_in_strs execution_type ["PARTIALLY_FILLED"; "FILLED"]
        then report_fill event_message tracked_order
        else ret tt
    | None => ret tt
    end ;;;
    let* s := get_state in
    let* tracked_order :=
      eval (TrackerModel.all_updatable_orders_get (_order_tracker s) client_order_id) in
    match tracked_order with
    | Some tracked_order => report_status event_message tracked_order
    | None => ret tt
    end
  else if py_eq_str e "outboundAccountPosition" then
    let* balances := eval (py_get event_message "B" (PList [])) in
    let* entries := eval (py_iter balances) in
    for_each entries patch_balance   (* continue *)
  else ret tt.

(** [_user_stream_event_listener], run on the messages the event queue
    delivers.  Each turn of the [async for] suspends on the queue. *)
Fixpoint _user_stream_event_listener (queue : list pyval) : M unit :=
  match queue with
  | [] => await (ret tt)
  | event_message :: queue' =>
      await (ret tt) ;;;
      try_except (process_event event_message)
        (fun _ =>
           emit (LogError "Unexpected error in user stream listener loop.") ;;;
           await (_sleep (Q2Qc 5))) ;;;
      _user_stream_event_listener queue'
  end.

(** One [trade] of the fills response. *)
Definition trade_update_of (order : InFlightOrder) (trading_pair : string) (trade : pyval)
    : M TradeUpdate :=
  let* orderId := eval (py_getitem trade "orderId") in
  let exchange_order_id := py_str orderId in
  let* s := get_state in
  let* commissionAsset := eval (py_getitem trade "commissionAsset") in
  let* commission := eval (py_getitem trade "commission") in
  let* fee_amount := eval (Decimal_str commission) in
  let* commissionAsset' := eval (py_getitem trade "commissionAsset") in
  let fee :=
    {| fee_schema := trade_fee_schema s;
       fee_trade_type := trade_type order;
       percent_token := Some commissionAsset;
       flat_fees := [ {| amount := fee_amount; token := commissionAsset' |} ] |} in
  let* id := eval (py_getitem trade "id") in
  let* qty := eval (py_getitem trade "qty") in
  let* base := eval (Decimal_str qty) in
  let* price0 := eval (py_getitem trade "price") in
  let* price := eval (Decimal_str price0) in
  let* qty' := eval (py_getitem trade "qty") in
  let* base' := eval (Decimal_str qty') in
  let* price1 := eval (py_getitem trade "price") in
  let* price' := eval (Decimal_str price1) in
  let* time := eval (py_getitem trade "time") in
  let* ms := eval (py_int time) in
  ret {| trade_id := py_str id;
         tu_client_order_id := client_order_id order;
         tu_exchange_order_id := exchange_order_id;
         tu_trading_pair := trading_pair;
         fee := fee;
         fill_base_amount := base;
         fill_quote_amount := (price * base')%Qc;
         fill_price := price';
         fill_timestamp := ms_to_s ms |}.

(** [for x in l: acc.append(f x)] *)
Fixpoint collect {A B} (f : A -> M B) (l : list A) : M (list B) :=
  match l with
  | [] => ret []
  | x :: l' =>
      let* y := f x in
      let* ys := collect f l' in
      ret (y :: ys)
  end.

Definition _all_trade_updates_for_order (order : InFlightOrder) : M (list TradeUpdate) :=
  match exchange_order_id order with
  | Some eid =>
      let* exchange_order_id := eval (py_int (PStr eid)) in
      let trading_pair := trading_pair order in
      let* all_fills_response :=
        _api_request CONSTANTS.MY_TRADES_PATH_URL RESTMethod.GET
          (Some [("symbol", PStr (str_remove "-" trading_pair));
                 ("orderId", PInt exchange_order_id)])
          true (Some CONSTANTS.MY_TRADES_PATH_URL) in
      let fills_data :=
        match all_fills_response with
        | PList l => l
        | _ => [all_fills_response]
        end in
      collect (trade_update_of order trading_pair) fills_data
  | None => ret []
  end.

Definition _request_order_status (tracked_order : InFlightOrder) : M OrderUpdate :=
  let* updated_order_data :=
    _api_request CONSTANTS.ORDER_PATH_URL RESTMethod.GET
      (Some [("symbol", PStr (str_remove "-" (trading_pair tracked_order)));
             ("orderId", match exchange_order_id tracked_order with
                         | Some eid => PStr eid
                         | None => PNone
                         end)])
      true None in
  let* status := eval (py_getitem updated_order_data "status") in
  let* mapped := eval (ORDER_STATE_getitem status) in
  let new_state :=
    if OrderState.eqb mapped OrderState.PENDING_CREATE then OrderState.OPEN else mapped in
  (if OrderState.eqb new_state OrderState.FILLED
      && OrderState.eqb (current_state tracked_order) OrderState.PENDING_CREATE
   then
     let* orderId := eval (py_getitem updated_order_data "orderId") in
     let* updateTime := eval (py_getitem updated_order_data "updateTime") in
     let* ms := eval (py_int updateTime) in
     await (call_tracker (Call__process_order_update
       {| ou_client_order_id := client_order_id tracked_order;
          ou_exchange_order_id := Some (py_str orderId);
          ou_trading_pair := trading_pair tracked_order;
          update_timestamp := ms_to_s ms;
          new_state := OrderState.OPEN |}))
   else ret tt) ;;;
  let* orderId := eval (py_getitem updated_order_data "orderId") in
  let* updateTime := eval (py_getitem updated_order_data "updateTime") in
  let* ms := eval (py_int updateTime) in
  ret {| ou_client_order_id := client_order_id tracked_order;
         ou_exchange_order_id := Some (py_str orderId);
         ou_trading_pair := trading_pair tracked_order;
         update_timestamp := ms_to_s ms;
         new_state := new_state |}.

(** The first loop of [_update_balances]; [remote_asset_names] is the set
    it builds. *)
Fixpoint store_balances (balances : list pyval) (remote_asset_names : gset pykey)
    : M (gset pykey) :=
  match balances with
  | [] => ret remote_asset_names
  | balance_entry :: balances' =>
      let* asset_name := eval (py_getitem balance_entry "asset") in
      let* free := eval (py_getitem balance_entry "free") in
      let* free_balance := eval (Decimal_str free) in
      let* free0 := eval (py_getitem balance_entry "free") in
      let* free' := eval (Decimal_str free0) in
      let* locked0 := eval (py_getitem balance_entry "locked") in
      let* locked := eval (Decimal_str locked0) in
      let total_balance := (free' + locked)%Qc in
      let* k := eval (to_key asset_name) in
      modify (fun s =>
        set_balances (<[k := free_balance]> (_account_available_balances s))
                     (<[k := total_balance]> (_account_balances s)) s) ;;;
      store_balances balances' ({[k]} ∪ remote_asset_names)
  end.

Definition key_value (k : pykey) : pyval :=
  match k with
  | KNone => PNone
  | KInt z => PInt z
  | KFloat x => PFloat x
  | KStr s => PStr s
  end.

(** [del d[k]] on the two balance dictionaries, in the order of the source. *)
Definition remove_asset (asset_name : pykey) : M unit :=
  let* s := get_state in
  match _account_available_balances s !! asset_name with
  | None => raise (Raised (mkException "KeyError" (py_repr (key_value asset_name))))
  | Some _ =>
      modify (fun s => set_balances (delete asset_name (_account_available_balances s))
                                    (_account_balances s) s) ;;;
      let* s := get_state in
      match _account_balances s !! asset_name with
      | None => raise (Raised (mkException "KeyError" (py_repr (key_value asset_name))))
      | Some _ =>
          modify (fun s => set_balances (_account_available_balances s)
                                        (delete asset_name (_account_balances s)) s)
      end
  end.

Definition _update_balances : M unit :=
  let* s := get_state in
  let local_asset_names := dom (_account_balances s) in
  let* account_info :=
    _api_request CONSTANTS.ACCOUNTS_PATH_URL RESTMethod.GET None true None in
  let* balances := eval (py_getitem account_info "balances") in
  let* entries := eval (py_iter balances) in
  let* remote_asset_names := store_balances entries ∅ in
  let asset_names_to_remove := local_asset_names ∖ remote_asset_names in
  for_each (elements asset_names_to_remove) remove_asset.

(** [[item for item in items if item.get("symbol") in trading_pairs]] *)
Fixpoint select_rules (trading_pairs : option (list string)) (items : list pyval)
    : res (list pyval) :=
  match items with
  | [] => Ok []
  | item :: items' =>
      let? symbol := py_get item "symbol" PNone in
      match trading_pairs with
      | None => Err (TypeError "argument of type 'NoneType' is not iterable")
      | Some pairs =>
          let? kept := select_rules trading_pairs items' in
          Ok (if py_in_strs symbol pairs then item :: kept else kept)
      end
  end.

(** [{f["filterType"]: f for f in fs}], built on top of [acc] *)
Fixpoint filters_by_type (fs : list pyval) (acc : gmap pykey pyval) : res (gmap pykey pyval) :=
  match fs with
  | [] => Ok acc
  | f :: fs' =>
      let? filterType := py_getitem f "filterType" in
      let? k := to_key filterType in
      filters_by_type fs' (<[k := f]> acc)
  end.

(** [filters.get(name, {})] *)
Definition filter_named (filters : gmap pykey pyval) (name : string) : pyval :=
  match filters !! KStr name with
  | Some f => f
  | None => PDict []
  end.

(** The body of the [try] in [_format_trading_rules], for one [rule]. *)
Definition parse_trading_rule (rule : pyval) : res TradingRule :=
  let? trading_pair := py_get rule "symbol" PNone in
  let? filter_list := py_get rule "filters" (PList []) in
  let? fs := py_iter filter_list in
  let? filters := filters_by_type fs ∅ in
  let price_filter := filter_named filters "PRICE_FILTER" in
  let? tickSize := py_get price_filter "tickSize" (PStr "0.00000001") in
  let? min_price_increment := Decimal_str tickSize in
  let lot_size_filter := filter_named filters "LOT_SIZE" in
  let? stepSize := py_get lot_size_filter "stepSize" (PStr "0.00000001") in
  let? min_base_amount_increment := Decimal_str stepSize in
  let? minQty := py_get lot_size_filter "minQty" (PStr "0.00000001") in
  let? min_order_size := Decimal_str minQty in
  let? maxQty := py_get lot_size_filter "maxQty" (PStr "9000000000") in
  let? max_order_size := Decimal_str maxQty in
  let min_notional_filter := filter_named filters "MIN_NOTIONAL" in
  let? minNotional := py_get min_notional_filter "minNotional" (PStr "10") in
  let? min_notional_size := Decimal_str minNotional in
  Ok {| tr_trading_pair := trading_pair;
        min_order_size := min_order_size;
        max_order_size := max_order_size;
        min_price_increment := min_price_increment;
        min_base_amount_increment := min_base_amount_increment;
        min_notional_size := min_notional_size |}.

(** The record [self.logger().exception] writes for a rule that does not
    parse. *)
Definition rule_error_message (symbol : pyval) (exception : Exception) : string :=
  String.append "Error parsing the trading pair rule "
    (String.append (py_str symbol)
       (String.append ". Skipping. Error: " (exc_str exception))).

(** The [for rule in trading_pair_rules] loop of [_format_trading_rules];
    the result is [retval]. *)
Fixpoint format_rules (trading_pair_rules : list pyval) : M (list TradingRule) :=
  match trading_pair_rules with
  | [] => ret []
  | rule :: rules' =>
      let* appended :=
        try_except
          (let* parsed := eval (parse_trading_rule rule) in ret [parsed])
          (fun exception =>
             let* symbol := eval (py_get rule "symbol" PNone) in
             emit (LogError (rule_error_message symbol exception)) ;;;
             ret []) in
      let* retval := format_rules rules' in
      ret (appended ++ retval)
  end.

(** [_format_trading_rules], given [self.trading_pairs]. *)
Definition _format_trading_rules (trading_pairs : option (list string))
    (exchange_info_dict : pyval) : M (list TradingRule) :=
  let* symbols := eval (py_get exchange_info_dict "symbols" (PList [])) in
  let* items := eval (py_iter symbols) in
  let* trading_pair_rules := eval (select_rules trading_pairs items) in
  format_rules trading_pair_rules.

(** The [for ticker in resp_json] loop of [_get_last_traded_price], with
    the [return 0.0] that follows it. *)
Fixpoint last_price_in {F : PyFloat} (symbol : string) (tickers : list pyval) : res Qc :=
  match tickers with
  | [] => Ok (Q2Qc 0)
  | ticker :: tickers' =>
      let? ticker_symbol := py_get ticker "symbol" PNone in
      if py_eq_str ticker_symbol symbol then
        let? lastPrice := py_getitem ticker "lastPrice" in
        py_float lastPrice
      else last_price_in symbol tickers'
  end.

Definition _get_last_traded_price {F : PyFloat} (trading_pair : string) : M Qc :=
  let symbol := str_remove "-" trading_pair in
  let params := [("symbol", PStr symbol)] in
  let* resp_json :=
    _api_request CONSTANTS.LAST_TRADED_PRICE_PATH RESTMethod.GET
      (Some params) false None in
  match resp_json with
  | PList tickers => eval (last_price_in symbol tickers)
  | _ =>
      let* lastPrice := eval (py_getitem resp_json "lastPrice") in
      eval (py_float lastPrice)
  end.

End Methods.
End OurbitExchange.

(** ** A reference interpreter for the examples

    Concrete built-ins and codecs on the fragment of Python the examples
    below exercise: integers and plain decimal literals. *)

Module Reference.

Definition digit (c : ascii) : option N :=
  let n := N_of_ascii c in
  if N.leb 48 n && N.leb n 57 then Some (n - 48)%N else None.

Fixpoint digits (s : string) (acc : N) : option N :=
  match s with
  | EmptyString => Some acc
  | String c rest =>
      match digit c with
      | Some d => digits rest (acc * 10 + d)%N
      | None => None
      end
  end.

Definition natural (s : string) : option N :=
  match s with
  | EmptyString => None
  | _ => digits s 0%N
  end.

Definition signed {A} (neg : A -> A) (parse : string -> option A) (s : string) : option A :=
  match s with
  | String "-" rest => option_map neg (parse rest)
  | String "+" rest => parse rest
  | _ => parse s
  end.

Fixpoint split_point (s : string) : string * option string :=
  match s with
  | EmptyString => (EmptyString, None)
  | String "." rest => (EmptyString, Some rest)
  | String c rest => let (a, b) := split_point rest in (String c a, b)
  end.

Definition unsigned_decimal (s : string) : option Qc :=
  match split_point s with
  | (whole, None) => option_map (fun n => Q2Qc (Z.of_N n # 1)) (natural whole)
  | (whole, Some frac) =>
      match natural whole, natural frac with
      | Some n, Some m =>
          let scale := Pos.pow 10 (Pos.of_nat (String.length frac)) in
          Some (Q2Qc ((Z.of_N n * Z.pos scale + Z.of_N m) # scale))
      | _, _ => None
      end
  end.

Definition ValueError (msg : string) : Exception := mkException "ValueError" msg.

Definition int (v : pyval) : res Z :=
  match v with
  | PInt z => Ok z
  | PBool b => Ok (if b then 1 else 0)%Z
  | PStr s =>
      match signed Z.opp (fun t => option_map Z.of_N (natural t)) s with
      | Some z => Ok z
      | None => Err (ValueError "invalid literal for int() with base 10")
      end
  | _ => Err (TypeError "int() argument must be a string, a bytes-like object or a real number")
  end.

Definition str (v : pyval) : string :=
  match v with
  | PNone => "None"
  | PBool b => if b then "True" else "False"
  | PInt z => pretty z
  | PStr s => s
  | _ => "<object>"
  end.

Definition repr (v : pyval) : string :=
  match v with
  | PStr s => "'" ++ s ++ "'"
  | _ => str v
  end.

Definition Decimal (s : string) : res Qc :=
  match signed Qcopp unsigned_decimal s with
  | Some q => Ok q
  | None => Err (mkException "InvalidOperation" "[<class 'decimal.ConversionSyntax'>]")
  end.

(** Fixed-point notation of an integral value. *)
Definition format_f (q : Qc) : string := pretty (Qnum q / Z.pos (Qden q))%Z.

Definition builtins : PyBuiltins :=
  {| py_str := str; py_repr := repr; py_int := int; py_decimal := Decimal;
     py_format_f := format_f |}.

(** A stand-in codec: a frame that opens with the gzip magic bytes holds
    its payload uncompressed behind them, text is 7-bit, and the only
    JSON documents are the empty object and the empty array. *)
Definition gunzip (b : list byte) : res (list byte) :=
  match b with
  | [] => Ok []
  | x1f :: x8b :: payload => Ok payload
  | _ => Err (mkException "BadGzipFile" "Not a gzipped file")
  end.

Definition decode (b : list byte) : res string :=
  if forallb (fun x => N.ltb (Byte.to_N x) 128) b
  then Ok (string_of_list_byte b)
  else Err (mkException "UnicodeDecodeError" "'utf-8' codec can't decode byte")%string.

Definition loads (s : string) : res pyval :=
  if String.eqb s "{}" then Ok (PDict [])
  else if String.eqb s "[]" then Ok (PList [])
  else Err (mkException "JSONDecodeError" "Expecting value").

Definition codecs : Codecs :=
  {| gzip_read := gunzip; utf8_decode := decode; json_loads := loads |}.

(** [ourbit_utils.DEFAULT_FEES] *)
Definition DEFAULT_FEES : TradeFeeSchema :=
  {| maker_percent_fee_decimal := Q2Qc (1 # 1000);
     taker_percent_fee_decimal := Q2Qc (1 # 1000);
     buy_percent_fee_deducted_from_returns := true |}.

End Reference.

(** ** Vocabulary of the statements *)

(** [needle] occurs in [haystack]. *)
Definition occurs (needle haystack : string) : Prop :=
  exists pre post, haystack = String.append pre (String.append needle post).

Definition is_tracker_call (e : effect) : bool :=
  match e with
  | Tracker _ => true
  | _ => false
  end.

(** The request [_api_request] sends on the main domain. *)
Definition request_to (path_url : string) (method : RESTMethod.t)
    (params : option (list (string * pyval))) (limit_id : string) : Request :=
  {| url := String.append "https://api.ourbit.com" path_url;
     method := method;
     params := params;
     is_auth_required := true;
     headers := [("Content-Type", "application/json"); ("Accept", "application/json")];
     throttler_limit_id := limit_id |}.

(** The calls made to the tracker, in order. *)
Definition tracker_calls (t : list effect) : list effect := List.filter is_tracker_call t.

(** [s'] differs from [s] by suspensions and REST traffic only: no order,
    balance or tracker call was touched. *)
Definition only_io (s s' : Exchange) : Prop :=
  _order_tracker s' = _order_tracker s
  /\ _account_available_balances s' = _account_available_balances s
  /\ _account_balances s' = _account_balances s
  /\ tracker_calls (trace s') = tracker_calls (trace s).

(** The request [_place_order] submits. *)
Definition place_order_request `{PyBuiltins} (order_id trading_pair : string) (amount : Qc)
    (trade_type : TradeType.t) (order_type : OrderType.t) (price : Qc) : Request :=
  request_to CONSTANTS.ORDER_PATH_URL RESTMethod.POST
    (Some ([ ("symbol", PStr (str_remove "-" trading_pair));
             ("side", PStr match trade_type with
                           | TradeType.BUY => "BUY"
                           | TradeType.SELL => "SELL"
                           end);
             ("quantity", PStr (py_format_f amount));
             ("type", PStr (OurbitExchange.ourbit_order_type order_type));
             ("newClientOrderId", PStr order_id) ]
           ++ match order_type with
              | OrderType.MARKET => []
              | _ => [("price", PStr (py_format_f price))]
              end
           ++ match order_type with
              | OrderType.LIMIT => [("timeInForce", PStr "GTC")]
              | _ => []
              end))
    CONSTANTS.ORDER_PATH_URL.

(** A gzip member opens with the bytes 1f 8b. *)
Definition has_gzip_magic (b : list byte) : Prop :=
  exists rest, b = x1f :: x8b :: rest.

(** What a balance entry says: the asset key, the free and the locked
    amount, read from the named fields; [None] when a field is missing or
    does not parse. *)
Definition reading `{PyBuiltins} (asset free locked : string) (entry : pyval)
    : option (pykey * Qc * Qc) :=
  match py_getitem entry asset, py_getitem entry free, py_getitem entry locked with
  | Ok a, Ok f, Ok l =>
      match to_key a, OurbitExchange.Decimal_str f, OurbitExchange.Decimal_str l with
      | Ok k, Ok free_amount, Ok locked_amount => Some (k, free_amount, locked_amount)
      | _, _, _ => None
      end
  | _, _, _ => None
  end.

(** The entry names the asset [k]. *)
Definition names_asset (asset : string) (k : pykey) (entry : pyval) : Prop :=
  exists a, py_getitem entry asset = Ok a /\ to_key a = Ok k.

(** The dictionary after [m[k] = value free locked] for each reading in turn. *)
Fixpoint assigned (value : Qc -> Qc -> Qc) (rs : list (pykey * Qc * Qc))
    (m : gmap pykey Qc) : gmap pykey Qc :=
  match rs with
  | [] => m
  | (k, free, locked) :: rs' => assigned value rs' (<[k := value free locked]> m)
  end.

Definition free_of (free locked : Qc) : Qc := free.
Definition total_of (free locked : Qc) : Qc := (free + locked)%Qc.

(** Run with no cancellation scheduled, [m] is not cancelled and leaves no
    cancellation scheduled. *)
Definition calm {A} (m : M A) : Prop :=
  forall s, cancel_at s = None ->
    cancel_at (m s).2 = None /\ (m s).1 <> Raises CancelledError.


(** The state after the listener's [except Exception] clause: the error is
    logged, then the loop sleeps five seconds. *)
Definition after_listener_error (s : Exchange) : Exchange :=
  set_clock (clock s + Q2Qc 5)%Qc
    (set_trace ((trace s ++ [LogError "Unexpected error in user stream listener loop."])
                ++ [Sleep (Q2Qc 5)]) s).

(** The connector after the tracker call [c]. *)
Definition called (s : Exchange) (c : tracker_call) : Exchange :=
  set_tracker (tracker_call_apply c (_order_tracker s))
    (set_trace (trace s ++ [Tracker c]) s).

(** The order update for [o] that a report stamped [ms] milliseconds with
    the exchange order id [eid] calls for: its time is [ms / 1000]
    seconds. *)
Definition reported_update (o : InFlightOrder) (ms : Z) (eid : string)
    (st : OrderState.t) : OrderUpdate :=
  {| ou_trading_pair := trading_pair o;
     update_timestamp := Q2Qc (ms # 1000);
     new_state := st;
     ou_client_order_id := client_order_id o;
     ou_exchange_order_id := Some eid |}.

(** The trade update for [o] that a report stamped [ms] milliseconds calls
    for: its time is [ms / 1000] seconds. *)
Definition reported_fill (schema : TradeFeeSchema) (o : InFlightOrder) (ms : Z)
    (eid tid : string) (fee_amount : Qc) (fee_token : pyval) (base price : Qc) : TradeUpdate :=
  {| trade_id := tid;
     tu_client_order_id := client_order_id o;
     tu_exchange_order_id := eid;
     tu_trading_pair := trading_pair o;
     fee := {| fee_schema := schema;
               fee_trade_type := trade_type o;
               percent_token := None;
               flat_fees := [ {| amount := fee_amount; token := fee_token |} ] |};
     fill_base_amount := base;
     fill_quote_amount := (base * price)%Qc;
     fill_price := price;
     fill_timestamp := Q2Qc (ms # 1000) |}.

(** The request [_place_cancel] submits for [tracked_order]. *)
Definition cancel_request (tracked_order : InFlightOrder) : Request :=
  request_to CONSTANTS.CANCEL_ORDER_PATH_URL RESTMethod.DELETE
    (Some (("symbol", PStr (str_remove "-" (trading_pair tracked_order))) ::
           match exchange_order_id tracked_order with
           | Some eid =>
               if String.eqb eid "" then [("origClientOrderId", PStr (client_order_id tracked_order))]
               else [("orderId", PStr eid)]
           | None => [("origClientOrderId", PStr (client_order_id tracked_order))]
           end))
    CONSTANTS.CANCEL_ORDER_PATH_URL.

(** The order update [_place_cancel] builds at time [now]. *)
Definition canceled_update (tracked_order : InFlightOrder) (now : Qc) : OrderUpdate :=
  {| ou_client_order_id := client_order_id tracked_order;
     ou_exchange_order_id := exchange_order_id tracked_order;
     ou_trading_pair := trading_pair tracked_order;
     update_timestamp := now;
     new_state := OrderState.CANCELED |}.

(** The free and the total dictionary hold the same assets. *)
Definition balances_agree (s : Exchange) : Prop :=
  dom (_account_available_balances s) = dom (_account_balances s).

Definition keeps_agreement {A} (m : M A) : Prop :=
  forall s, balances_agree s -> balances_agree (m s).2.

(** ** The fill ledger in the words of the specification *)

Module LedgerSpec.

(** The trade ids of a sequence of deliveries, each once, in the order of
    their first delivery. *)
Fixpoint distinct (ids : list string) : list string :=
  match ids with
  | [] => []
  | id :: rest => id :: List.filter (fun x => negb (String.eqb x id)) (distinct rest)
  end.

(** The first delivery that carries the trade id [id]. *)
Definition first_with (id : string) (tus : list TradeUpdate) : option TradeUpdate :=
  List.find (fun tu => String.eqb (trade_id tu) id) tus.

(** The amount trade [id] contributes: that of its first delivery. *)
Definition amount_of (f : TradeUpdate -> Qc) (tus : list TradeUpdate) (id : string) : Qc :=
  match first_with id tus with
  | Some tu => f tu
  | None => Q2Qc 0
  end.

Definition sum (l : list Qc) : Qc := foldr Qcplus (Q2Qc 0) l.

(** "The sum over distinct trade_ids only": over the distinct trade ids
    of [tus] that the ledger [known] does not hold yet. *)
Definition sum_over_distinct (f : TradeUpdate -> Qc) (known tus : list TradeUpdate) : Qc :=
  sum (map (amount_of f tus)
         (List.filter (fun id => negb (TrackerModel.seen id known))
            (distinct (map trade_id tus)))).

End LedgerSpec.

(** The order after the trade updates [tus] were delivered to it in turn. *)
Definition delivered (tus : list TradeUpdate) (o : InFlightOrder) : InFlightOrder :=
  foldl (fun o tu => TrackerModel.update_with_trade_update tu o) o tus.

(** ** Scenarios for the examples *)

Module Scenario.

Definition pending_order : InFlightOrder :=
  {| client_order_id := "OURBIT_1";
     exchange_order_id := None;
     trading_pair := "BTC-USDT";
     trade_type := TradeType.BUY;
     current_state := OrderState.PENDING_CREATE;
     last_update_timestamp := ms_to_s 1700000000000;
     order_fills := [];
     filled_base_amount := Q2Qc 0;
     filled_quote_amount := Q2Qc 0 |}.

Definition tracking (o : InFlightOrder) : ClientOrderTracker :=
  {| orders := {[ client_order_id o := o ]};
     fillable := {[ client_order_id o ]};
     updatable := {[ client_order_id o ]} |}.

(** A connector on the main domain, at 1700000001 s, whose venue answers
    every request with [reply]. *)
Definition connector (t : ClientOrderTracker) (reply : res pyval) : Exchange :=
  {| _domain := CONSTANTS.DEFAULT_DOMAIN;
     _order_tracker := t;
     _account_available_balances := ∅;
     _account_balances := ∅;
     trade_fee_schema := Reference.DEFAULT_FEES;
     rest_assistant := fun _ _ => reply;
     clock := ms_to_s 1700000001000;
     cancel_at := None;
     trace := [] |}.

Definition unreachable : res pyval :=
  Err (mkException "OSError" "Cannot connect to host api.ourbit.com:443").

Definition order_accepted : pyval :=
  PDict [("symbol", PStr "BTCUSDT"); ("orderId", PInt 4242);
         ("transactTime", PInt 1700000001500)].

(** Local balances: 2 BTC and 10 ETH, nothing locked. *)
Definition held : gmap pykey Qc := {[ KStr "BTC" := Q2Qc 2; KStr "ETH" := Q2Qc 10 ]}.

Definition BTC_entry (asset free locked : string) : pyval :=
  PDict [(asset, PStr "BTC"); (free, PStr "1"); (locked, PStr "0.5")].

(** The account response [{BTC: free=1, locked=0.5}]. *)
Definition account_snapshot : pyval :=
  PDict [("balances", PList [BTC_entry "asset" "free" "locked"])].

Definition position_event : pyval :=
  PDict [("e", PStr "outboundAccountPosition"); ("E", PInt 1700000002000);
         ("B", PList [BTC_entry "a" "f" "l"])].

(** An execution report whose status the venue vocabulary does not have. *)
Definition unknown_status_report : pyval :=
  PDict [("e", PStr "executionReport"); ("E", PInt 1700000001800);
         ("C", PStr "OURBIT_1"); ("i", PInt 4242); ("X", PStr "HALTED")].

(** An execution report for OURBIT_1: trade 77 of 0.5 BTC at 30000 USDT,
    fee 0.01 USDT, with the given order status. *)
Definition fill_report (status : string) : pyval :=
  PDict [("e", PStr "executionReport"); ("E", PInt 1700000001800);
         ("C", PStr "OURBIT_1"); ("i", PInt 4242); ("X", PStr status);
         ("t", PInt 77); ("l", PStr "0.5"); ("L", PStr "30000");
         ("n", PStr "0.01"); ("N", PStr "USDT")].

(** The trade update of [fill_report] for [pending_order]. *)
Definition trade_77 : TradeUpdate :=
  reported_fill Reference.DEFAULT_FEES pending_order 1700000001800 "4242" "77"
    (Q2Qc (1 # 100)) (PStr "USDT") (Q2Qc (5 # 10)) (Q2Qc (30000 # 1)).

(** Trade 77 as the fill backfill reports it. *)
Definition trade_77_backfill : TradeUpdate :=
  {| trade_id := "77";
     tu_client_order_id := "OURBIT_1";
     tu_exchange_order_id := "4242";
     tu_trading_pair := "BTC-USDT";
     fee := {| fee_schema := Reference.DEFAULT_FEES;
               fee_trade_type := TradeType.BUY;
               percent_token := Some (PStr "USDT");
               flat_fees := [ {| amount := Q2Qc (1 # 100); token := PStr "USDT" |} ] |};
     fill_base_amount := Q2Qc (5 # 10);
     fill_quote_amount := Q2Qc 15000;
     fill_price := Q2Qc 30000;
     fill_timestamp := ms_to_s 1700000001800 |}.

Definition trade_78 : TradeUpdate :=
  reported_fill Reference.DEFAULT_FEES pending_order 1700000001900 "4242" "78"
    (Q2Qc (1 # 100)) (PStr "USDT") (Q2Qc (25 # 100)) (Q2Qc (30000 # 1)).

(** The venue's rejection of a request about an order it does not have. *)
Definition order_does_not_exist : Exception :=
  mkException "OSError"
    "Error executing request DELETE https://api.ourbit.com/api/v3/order. HTTP status is 400. Error: Order does not exist".

Definition cancel_accepted : pyval :=
  PDict [("symbol", PStr "BTCUSDT"); ("orderId", PStr "4242"); ("status", PStr "CANCELED")].

Definition cancel_unknown : pyval :=
  PDict [("code", PInt (-2011)); ("msg", PStr "Unknown order sent.")].

(** OURBIT_1 after it was filled. *)
Definition filled_order : InFlightOrder :=
  {| client_order_id := "OURBIT_1";
     exchange_order_id := Some "4242";
     trading_pair := "BTC-USDT";
     trade_type := TradeType.BUY;
     current_state := OrderState.FILLED;
     last_update_timestamp := ms_to_s 1700000001800;
     order_fills := [trade_77];
     filled_base_amount := Q2Qc (5 # 10);
     filled_quote_amount := Q2Qc 15000 |}.

(** What the reference interpreter reads from [BTC_entry]. *)
Definition BTC_reading : pykey * Qc * Qc := (KStr "BTC", Q2Qc (1 # 1), Q2Qc (5 # 10)).

End Scenario.

(** ** Vocabulary of the further properties *)

(** The request [_request_order_status] submits for [tracked_order]. *)
Definition status_request (tracked_order : InFlightOrder) : Request :=
  request_to CONSTANTS.ORDER_PATH_URL RESTMethod.GET
    (Some [("symbol", PStr (str_remove "-" (trading_pair tracked_order)));
           ("orderId", match exchange_order_id tracked_order with
                       | Some eid => PStr eid
                       | None => PNone
                       end)])
    CONSTANTS.ORDER_PATH_URL.

(** The connector after the request [r] went out. *)
Definition sent (r : Request) (s : Exchange) : Exchange :=
  set_trace (trace s ++ [Rest r]) s.

(** How an awaited reply comes back: as a value or as an exception. *)
Definition outcome_of {A} (r : res A) : outcome A :=
  match r with
  | Ok a => Returns a
  | Err e => Raises (Raised e)
  end.

(** The request [_all_trade_updates_for_order] submits for an order whose
    exchange order id reads as the integer [n]. *)
Definition fills_request (order : InFlightOrder) (n : Z) : Request :=
  request_to CONSTANTS.MY_TRADES_PATH_URL RESTMethod.GET
    (Some [("symbol", PStr (str_remove "-" (trading_pair order)));
           ("orderId", PInt n)])
    CONSTANTS.MY_TRADES_PATH_URL.

(** The trades a fills response holds: its items when it is a list, the
    response itself otherwise. *)
Definition fills_of (all_fills_response : pyval) : list pyval :=
  match all_fills_response with
  | PList l => l
  | _ => [all_fills_response]
  end.

(** What a trade of the fills response says. *)
Record Fill := {
  f_orderId : pyval;
  f_commissionAsset : pyval;
  f_commission : Qc;
  f_id : pyval;
  f_qty : Qc;
  f_price : Qc;
  f_time : Z;
}.

(** The fields of [trade], looked up and converted in the order in which
    [_all_trade_updates_for_order] does it. *)
Definition read_trade `{PyBuiltins} (trade : pyval) : res Fill :=
  let? orderId := py_getitem trade "orderId" in
  let? commissionAsset := py_getitem trade "commissionAsset" in
  let? commission := py_getitem trade "commission" in
  let? fee_amount := OurbitExchange.Decimal_str commission in
  let? id := py_getitem trade "id" in
  let? qty := py_getitem trade "qty" in
  let? base := OurbitExchange.Decimal_str qty in
  let? price0 := py_getitem trade "price" in
  let? price := OurbitExchange.Decimal_str price0 in
  let? time := py_getitem trade "time" in
  let? ms := py_int time in
  Ok {| f_orderId := orderId; f_commissionAsset := commissionAsset;
        f_commission := fee_amount; f_id := id; f_qty := base; f_price := price;
        f_time := ms |}.

(** The trade update the backfill builds for [order] from a trade. *)
Definition backfilled_fill `{PyBuiltins} (schema : TradeFeeSchema) (order : InFlightOrder)
    (r : Fill) : TradeUpdate :=
  {| trade_id := py_str (f_id r);
     tu_client_order_id := client_order_id order;
     tu_exchange_order_id := py_str (f_orderId r);
     tu_trading_pair := trading_pair order;
     fee := {| fee_schema := schema;
               fee_trade_type := trade_type order;
               percent_token := Some (f_commissionAsset r);
               flat_fees := [ {| amount := f_commission r;
                                 token := f_commissionAsset r |} ] |};
     fill_base_amount := f_qty r;
     fill_quote_amount := (f_price r * f_qty r)%Qc;
     fill_price := f_price r;
     fill_timestamp := ms_to_s (f_time r) |}.

(** The request [_update_balances] submits. *)
Definition account_request : Request :=
  request_to CONSTANTS.ACCOUNTS_PATH_URL RESTMethod.GET None CONSTANTS.ACCOUNTS_PATH_URL.

(** A relation between the connector before and after a coroutine ran
    that holds of every step and of every suspension. *)
Class Frame (R : Exchange -> Exchange -> Prop) := {
  frame_refl : forall s, R s s;
  frame_trans : forall s1 s2 s3, R s1 s2 -> R s2 s3 -> R s1 s3;
  frame_cancel : forall c s, R s (set_cancel_at c s);
}.

(** However [m] ends, the connector it leaves is related by [R] to the one
    it started in. *)
Definition preserves {A} (R : Exchange -> Exchange -> Prop) (m : M A) : Prop :=
  forall s, R s (m s).2.

(** [s'] differs from [s] by calls to the tracker only: both balance
    dictionaries and the clock are as before and nothing but tracker calls
    was recorded. *)
Definition only_tracker (s s' : Exchange) : Prop :=
  _account_available_balances s' = _account_available_balances s
  /\ _account_balances s' = _account_balances s
  /\ clock s' = clock s
  /\ exists calls, trace s' = trace s ++ map Tracker calls.

(** [s'] differs from [s] by the balance dictionaries only: the orders and
    the clock are as before and nothing was recorded. *)
Definition only_balances (s s' : Exchange) : Prop :=
  _order_tracker s' = _order_tracker s
  /\ clock s' = clock s
  /\ trace s' = trace s.

Definition is_request (e : effect) : bool :=
  match e with
  | Rest _ => true
  | _ => false
  end.

(** Between [s] and [s'] no request went out. *)
Definition no_request (s s' : Exchange) : Prop :=
  exists es, trace s' = trace s ++ es /\ Forall (fun e => is_request e = false) es.

(** [limit_id if limit_id else path_url] *)
Definition limit_id_or (limit_id : option string) (path_url : string) : string :=
  match limit_id with
  | Some l => if String.eqb l "" then path_url else l
  | None => path_url
  end.

(** The rule names a trading pair of [pairs]. *)
Definition listed (pairs : list string) (item : pyval) : bool :=
  match py_get item "symbol" PNone with
  | Ok symbol => py_in_strs symbol pairs
  | Err _ => false
  end.

Definition is_object (v : pyval) : Prop := exists d, v = PDict d.

(** The trading rules of the rules that parse, in order. *)
Definition parsed_rules `{PyBuiltins} (rules : list pyval) : list TradingRule :=
  omap (fun rule =>
          match OurbitExchange.parse_trading_rule rule with
          | Ok r => Some r
          | Err _ => None
          end) rules.

(** The error records of the rules that do not parse, in order. *)
Definition rule_errors `{PyBuiltins} (rules : list pyval) : list string :=
  omap (fun rule =>
          match OurbitExchange.parse_trading_rule rule, py_get rule "symbol" PNone with
          | Err e, Ok symbol => Some (OurbitExchange.rule_error_message symbol e)
          | _, _ => None
          end) rules.

(** The request [_get_last_traded_price] submits. *)
Definition ticker_request (trading_pair : string) : Request :=
  {| url := String.append "https://api.ourbit.com" CONSTANTS.LAST_TRADED_PRICE_PATH;
     method := RESTMethod.GET;
     params := Some [("symbol", PStr (str_remove "-" trading_pair))];
     is_auth_required := false;
     headers := [("Content-Type", "application/json"); ("Accept", "application/json")];
     throttler_limit_id := CONSTANTS.LAST_TRADED_PRICE_PATH |}.

(** The ticker is an object about another symbol than [symbol]. *)
Definition ticker_of_other (symbol : string) (ticker : pyval) : Prop :=
  exists ticker_symbol,
    py_get ticker "symbol" PNone = Ok ticker_symbol
    /\ py_eq_str ticker_symbol symbol = false.

(** ** Further scenarios *)

Module Examples.

(** [float(v)] on the values the examples use. *)
Definition float (v : pyval) : res Qc :=
  match v with
  | PFloat x => Ok x
  | PInt z => Ok (Q2Qc (z # 1))
  | PBool b => Ok (Q2Qc (if b then 1 else 0))
  | PStr s => Reference.Decimal s
  | _ => Err (TypeError "float() argument must be a string or a real number")
  end.

Definition floats : PyFloat := {| py_float := float |}.

(** OURBIT_1 after the venue acknowledged it. *)
Definition open_order : InFlightOrder :=
  {| client_order_id := "OURBIT_1";
     exchange_order_id := Some "4242";
     trading_pair := "BTC-USDT";
     trade_type := TradeType.BUY;
     current_state := OrderState.OPEN;
     last_update_timestamp := ms_to_s 1700000001500;
     order_fills := [];
     filled_base_amount := Q2Qc 0;
     filled_quote_amount := Q2Qc 0 |}.

(** An order whose exchange order id is no number. *)
Definition foreign_order : InFlightOrder :=
  {| client_order_id := "OURBIT_2";
     exchange_order_id := Some "C02__4242";
     trading_pair := "BTC-USDT";
     trade_type := TradeType.SELL;
     current_state := OrderState.OPEN;
     last_update_timestamp := ms_to_s 1700000001500;
     order_fills := [];
     filled_base_amount := Q2Qc 0;
     filled_quote_amount := Q2Qc 0 |}.

(** The venue's answer to a status query. *)
Definition order_status (status : string) : pyval :=
  PDict [("symbol", PStr "BTCUSDT"); ("orderId", PInt 4242); ("status", PStr status);
         ("updateTime", PInt 1700000002000)].

(** A response without an order id. *)
Definition order_rejected : pyval :=
  PDict [("code", PInt (-1013)); ("msg", PStr "Invalid quantity.")].

(** Trade 77 as the venue lists it. *)
Definition listed_trade : pyval :=
  PDict [("symbol", PStr "BTCUSDT"); ("id", PInt 77); ("orderId", PInt 4242);
         ("price", PStr "30000"); ("qty", PStr "0.5");
         ("commission", PStr "0.01"); ("commissionAsset", PStr "USDT");
         ("time", PInt 1700000001800)].

Definition fill_77 : Fill :=
  {| f_orderId := PInt 4242; f_commissionAsset := PStr "USDT";
     f_commission := Q2Qc (1 # 100); f_id := PInt 77;
     f_qty := Q2Qc (5 # 10); f_price := Q2Qc (30000 # 1);
     f_time := 1700000001800 |}.

(** A trade without a price. *)
Definition unpriced_trade : pyval :=
  PDict [("symbol", PStr "BTCUSDT"); ("id", PInt 78); ("orderId", PInt 4242);
         ("qty", PStr "0.25"); ("commission", PStr "0.01");
         ("commissionAsset", PStr "USDT"); ("time", PInt 1700000001900)].

(** An account response whose second entry has no amounts. *)
Definition broken_snapshot : pyval :=
  PDict [("balances", PList [Scenario.BTC_entry "asset" "free" "locked";
                             PDict [("asset", PStr "ETH")];
                             PDict [("asset", PStr "USDT"); ("free", PStr "7");
                                    ("locked", PStr "0")]])].

(** A status report for OURBIT_1. *)
Definition status_report (cid status : string) : pyval :=
  PDict [("e", PStr "executionReport"); ("E", PInt 1700000001800);
         ("C", PStr cid); ("i", PInt 4242); ("X", PStr status)].

Definition BTCUSDT_rule : pyval :=
  PDict [("symbol", PStr "BTCUSDT");
         ("filters",
          PList [PDict [("filterType", PStr "PRICE_FILTER"); ("tickSize", PStr "0.01")];
                 PDict [("filterType", PStr "LOT_SIZE"); ("minQty", PStr "0.001");
                        ("maxQty", PStr "9000"); ("stepSize", PStr "0.001")];
                 PDict [("filterType", PStr "MIN_NOTIONAL"); ("minNotional", PStr "10")]])].

(** A rule whose tick size is no number. *)
Definition ETHUSDT_rule : pyval :=
  PDict [("symbol", PStr "ETHUSDT");
         ("filters",
          PList [PDict [("filterType", PStr "PRICE_FILTER"); ("tickSize", PStr "n/a")]])].

Definition DOGEUSDT_rule : pyval := PDict [("symbol", PStr "DOGEUSDT")].

Definition exchange_info : pyval :=
  PDict [("timezone", PStr "UTC");
         ("symbols", PList [BTCUSDT_rule; DOGEUSDT_rule; ETHUSDT_rule])].

Definition ticker (symbol price : string) : pyval :=
  PDict [("symbol", PStr symbol); ("lastPrice", PStr price)].

End Examples.

(** * Properties *)

Lemma append_cons (c : ascii) (s t : string) :
  String.append (String c s) t = String c (String.append s t).
Proof. reflexivity. Qed.

Lemma append_nil (t : string) : String.append EmptyString t = t.
Proof. reflexivity. Qed.

Lemma prefix_spec (n h : string) :
  String.prefix n h = true <-> exists post, h = String.append n post.
Proof.
  revert h. induction n as [|c n IH]; intros h.
  - split; [intros _; by exists h | intros _; by destruct h].
  - destruct h as [|c' h]; simpl.
    + split; [discriminate | intros [post Hp]; rewrite append_cons in Hp; discriminate].
    + destruct (Ascii.ascii_dec c c') as [->|Hne].
      * rewrite IH. split; intros [post Hp]; exists post; rewrite append_cons in *;
          [by subst | by injection Hp].
      * split; [discriminate | intros [post Hp]; rewrite append_cons in Hp; congruence].
Qed.

Lemma str_contains_spec (n h : string) :
  str_contains n h = true <-> occurs n h.
Proof.
  split.
  - induction h as [|c h IH]; cbn [str_contains]; rewrite orb_true_iff.
    + intros [Hp|]; [|done]. apply prefix_spec in Hp as [post Hp].
      by exists EmptyString, post.
    + intros [Hp|Hc].
      * apply prefix_spec in Hp as [post Hp]. by exists EmptyString, post.
      * destruct (IH Hc) as (pre & post & ->). by exists (String c pre), post.
  - intros (pre & post & ->). induction pre as [|c pre IH].
    + rewrite append_nil.
      assert (String.prefix n (String.append n post) = true) as Hp
        by (apply prefix_spec; by exists post).
      destruct (String.append n post); cbn [str_contains]; by rewrite Hp.
    + rewrite append_cons. cbn [str_contains]. rewrite IH. apply orb_true_r.
Qed.

(** *** C4: classification of order-not-found errors *)

(** C4 (as the code has it).  An exception is classified as the
    recoverable order-not-found condition exactly when the literal text
    "Order does not exist" (capital O, compared case-sensitively) occurs in
    [str(exception)], and the status-update and cancelation classifiers
    agree on every exception. *)
Theorem order_not_found_iff_message_has_literal (e : Exception) :
  (OurbitExchange._is_order_not_found_during_cancelation_error e = true
     <-> occurs "Order does not exist" (exc_str e))
  /\ (OurbitExchange._is_order_not_found_during_status_update_error e = true
     <-> occurs "Order does not exist" (exc_str e))
  /\ OurbitExchange._is_order_not_found_during_status_update_error e
     = OurbitExchange._is_order_not_found_during_cancelation_error e.
Proof.
  unfold OurbitExchange._is_order_not_found_during_cancelation_error,
    OurbitExchange._is_order_not_found_during_status_update_error.
  split_and!; [apply str_contains_spec | apply str_contains_spec | reflexivity].
Qed.

(** C4 (as stated) fails: a message that carries the lower-case literal
    "order does not exist" is not classified as order-not-found by either
    classifier. *)
Lemma lowercase_literal_is_not_classified :
  let e := mkException "OSError" "Error executing request DELETE /api/v3/order. order does not exist" in
  occurs "order does not exist" (exc_str e)
  /\ OurbitExchange._is_order_not_found_during_cancelation_error e = false
  /\ OurbitExchange._is_order_not_found_during_status_update_error e = false.
Proof.
  split; [|split; vm_compute; reflexivity].
  exists "Error executing request DELETE /api/v3/order. ", "". reflexivity.
Qed.

(** *** Running the monad *)

Lemma tracker_calls_app (t u : list effect) :
  tracker_calls (t ++ u) = tracker_calls t ++ tracker_calls u.
Proof. apply List.filter_app. Qed.

Lemma only_io_refl (s : Exchange) : only_io s s.
Proof. by repeat split. Qed.

Lemma only_io_trans (s1 s2 s3 : Exchange) :
  only_io s1 s2 -> only_io s2 s3 -> only_io s1 s3.
Proof.
  intros (? & ? & ? & ?) (? & ? & ? & ?). repeat split; congruence.
Qed.

Lemma only_io_set_cancel_at (c : option nat) (s : Exchange) : only_io s (set_cancel_at c s).
Proof. by repeat split. Qed.

Lemma only_io_request (r : Request) (s : Exchange) :
  only_io s (set_trace (trace s ++ [Rest r]) s).
Proof.
  repeat split; simpl. rewrite tracker_calls_app. simpl. apply app_nil_r.
Qed.

Lemma eval_run {A} (r : res A) (s : Exchange) :
  eval r s = (match r with Ok a => Returns a | Err e => Raises (Raised e) end, s).
Proof. by destruct r. Qed.

Lemma await_uncancelled {A} (m : M A) (s : Exchange) :
  cancel_at s = None -> await m s = m s.
Proof. unfold await. by intros ->. Qed.

Section MethodProperties.
Context `{PyBuiltins}.

(** On the main domain and with no cancellation pending, [_api_request]
    sends one request and hands back the venue's reply. *)
Lemma _api_request_run (path_url : string) (method : RESTMethod.t)
    (params : option (list (string * pyval))) (limit_id : option string) (s : Exchange) :
  cancel_at s = None ->
  _domain s = CONSTANTS.DEFAULT_DOMAIN ->
  let req := request_to path_url method params
               match limit_id with
               | Some l => if String.eqb l "" then path_url else l
               | None => path_url
               end in
  OurbitExchange._api_request path_url method params true limit_id s
  = (match rest_assistant s (trace s) req with
     | Ok v => Returns v
     | Err e => Raises (Raised e)
     end,
     set_trace (trace s ++ [Rest req]) s).
Proof.
  intros Hc Hd req.
  unfold OurbitExchange._api_request, OurbitExchange.execute_request, bind, await,
    get_state, emit, modify, ret.
  unfold web_utils.rest_url, web_utils.public_rest_url.
  rewrite Hc. simpl. rewrite Hd. simpl. rewrite Hc. simpl.
  by rewrite eval_run.
Qed.

(** Whatever happens, [_api_request] touches neither orders nor balances. *)
Lemma _api_request_only_io (path_url : string) (method : RESTMethod.t)
    (params : option (list (string * pyval))) (auth : bool) (limit_id : option string)
    (s : Exchange) :
  only_io s (snd (OurbitExchange._api_request path_url method params auth limit_id s)).
Proof.
  unfold OurbitExchange._api_request, OurbitExchange.execute_request, bind, await,
    get_state, emit, modify, ret, eval, raise.
  destruct (cancel_at s) as [[|k]|] eqn:Hc; simpl.
  - apply only_io_set_cancel_at.
  - destruct (web_utils.rest_url path_url (_domain s)); simpl.
    + destruct k; simpl.
      * by repeat split.
      * match goal with |- context [rest_assistant s ?t ?r] =>
          destruct (rest_assistant s t r) end; simpl;
          repeat split; simpl; rewrite tracker_calls_app; simpl; apply app_nil_r.
    + by repeat split.
  - destruct (web_utils.rest_url path_url (_domain s)); simpl.
    + rewrite Hc. simpl.
      match goal with |- context [rest_assistant s ?t ?r] =>
        destruct (rest_assistant s t r) end; simpl;
        repeat split; simpl; rewrite tracker_calls_app; simpl; apply app_nil_r.
    + by repeat split.
Qed.

(** *** C10: fill backfill of an order without exchange id *)

(** C10.  For a tracked order whose [exchange_order_id] is [None],
    [_all_trade_updates_for_order] returns the empty list and leaves the
    connector as it was: no request is issued (the trace does not grow)
    and no order or balance changes. *)
Theorem backfill_without_exchange_id_is_empty (order : InFlightOrder) (s : Exchange) :
  exchange_order_id order = None ->
  OurbitExchange._all_trade_updates_for_order order s = (Returns [], s).
Proof.
  intros Hnone. unfold OurbitExchange._all_trade_updates_for_order.
  by rewrite Hnone.
Qed.

(** *** C8: order placement *)

Lemma _place_order_only_io (order_id trading_pair : string) (amount : Qc)
    (trade_type : TradeType.t) (order_type : OrderType.t) (price : Qc) (s : Exchange) :
  only_io s (snd (OurbitExchange._place_order order_id trading_pair amount trade_type
                    order_type price s)).
Proof.
  unfold OurbitExchange._place_order, bind.
  match goal with |- context [OurbitExchange._api_request ?p ?m ?ps ?a ?l s] =>
    pose proof (_api_request_only_io p m ps a l s) as Hio;
    destruct (OurbitExchange._api_request p m ps a l s) as [[order_result|r] s']
  end; simpl in *; [|done].
  rewrite ?eval_run.
  destruct (py_getitem order_result "orderId"); [|done].
  rewrite ?eval_run.
  destruct (py_getitem order_result "transactTime") as [transactTime|]; [|done].
  rewrite ?eval_run.
  by destruct (py_int transactTime).
Qed.

(** C8.  When the venue accepts the order and answers [order_result],
    [_place_order] returns the pair of [str(order_result["orderId"])] and
    [int(order_result["transactTime"])] taken from milliseconds to
    seconds, that is divided by 1000; the only thing the call did is send
    the request: no order update reached the tracker and no order changed
    state. *)
Theorem place_order_returns_id_and_time (order_id trading_pair : string) (amount : Qc)
    (trade_type : TradeType.t) (order_type : OrderType.t) (price : Qc) (s : Exchange)
    (order_result orderId transactTime : pyval) (ms : Z) :
  let req := place_order_request order_id trading_pair amount trade_type order_type price in
  cancel_at s = None ->
  _domain s = CONSTANTS.DEFAULT_DOMAIN ->
  rest_assistant s (trace s) req = Ok order_result ->
  py_getitem order_result "orderId" = Ok orderId ->
  py_getitem order_result "transactTime" = Ok transactTime ->
  py_int transactTime = Ok ms ->
  let s' := set_trace (trace s ++ [Rest req]) s in
  OurbitExchange._place_order order_id trading_pair amount trade_type order_type price s
    = (Returns (py_str orderId, Q2Qc (ms # 1000)), s')
  /\ _order_tracker s' = _order_tracker s
  /\ tracker_calls (trace s') = tracker_calls (trace s).
Proof.
  intros req Hc Hd Hreply Hid Htime Hms s'. split.
  - unfold OurbitExchange._place_order, bind.
    rewrite _api_request_run by done.
    assert (request_to CONSTANTS.ORDER_PATH_URL RESTMethod.POST
              (Some ([("symbol", PStr (str_remove "-" trading_pair));
                      ("side", PStr match trade_type with
                                    | TradeType.BUY => CONSTANTS.SIDE_BUY
                                    | TradeType.SELL => CONSTANTS.SIDE_SELL
                                    end);
                      ("quantity", PStr (py_format_f amount));
                      ("type", PStr (OurbitExchange.ourbit_order_type order_type));
                      ("newClientOrderId", PStr order_id)]
                     ++ match order_type with
                        | OrderType.MARKET => []
                        | _ => [("price", PStr (py_format_f price))]
                        end
                     ++ match order_type with
                        | OrderType.LIMIT => [("timeInForce", PStr CONSTANTS.TIME_IN_FORCE_GTC)]
                        | _ => []
                        end)) CONSTANTS.ORDER_PATH_URL = req) as -> by by destruct trade_type.
    rewrite Hreply. simpl. rewrite Hid. simpl. rewrite Htime. simpl. by rewrite Hms.
  - split; [done|]. apply (only_io_request req s).
Qed.

End MethodProperties.

Lemma backfill_without_exchange_id_is_empty_witness :
  let s := Scenario.connector (Scenario.tracking Scenario.pending_order) Scenario.unreachable in
  OurbitExchange._all_trade_updates_for_order (H:=Reference.builtins) Scenario.pending_order s
  = (Returns [], s).
Proof.
  intros s.
  apply (backfill_without_exchange_id_is_empty (H:=Reference.builtins) Scenario.pending_order s).
  reflexivity.
Defined.

Lemma place_order_returns_id_and_time_witness :
  let s := Scenario.connector (Scenario.tracking Scenario.pending_order)
             (Ok Scenario.order_accepted) in
  fst (OurbitExchange._place_order (H:=Reference.builtins) "OURBIT_1" "BTC-USDT" (Q2Qc 2)
         TradeType.BUY OrderType.LIMIT (Q2Qc 30000) s)
  = Returns ("4242", Q2Qc (1700000001500 # 1000)).
Proof.
  intros s.
  destruct (place_order_returns_id_and_time (H:=Reference.builtins)
              "OURBIT_1" "BTC-USDT" (Q2Qc 2) TradeType.BUY OrderType.LIMIT (Q2Qc 30000) s
              Scenario.order_accepted (PInt 4242) (PInt 1700000001500) 1700000001500
              eq_refl eq_refl eq_refl eq_refl eq_refl eq_refl) as [Hrun _].
  rewrite Hrun. reflexivity.
Defined.

(** *** C9: decoding a raw push frame *)

Section Decoder.
Context `{Codecs}.

(** C9.  On a [bytes] frame, [decompress_ws_message] first gunzips and
    parses the decompressed bytes as UTF-8 JSON; when the frame is not a
    gzip stream it parses the raw bytes as UTF-8 JSON instead.  Given
    that a gzip stream is empty or opens with the magic bytes 1f 8b,
    that such an opening is not UTF-8 text and that the empty text is
    not a JSON document, every frame that is plain UTF-8 JSON decodes to
    its document. *)
Theorem decompress_gzip_then_plain_json (b : list byte) :
  (forall b' d, gzip_read b' = Ok d -> b' = [] \/ has_gzip_magic b') ->
  (forall rest t, utf8_decode (x1f :: x8b :: rest) <> Ok t) ->
  (forall t v, utf8_decode [] = Ok t -> json_loads t <> Ok v) ->
  (forall d t v, gzip_read b = Ok d -> utf8_decode d = Ok t -> json_loads t = Ok v ->
     decompress_ws_message (Bytes b) = Ok v)
  /\ (forall e, gzip_read b = Err e ->
       decompress_ws_message (Bytes b) = res_bind (utf8_decode b) json_loads)
  /\ (forall t v, utf8_decode b = Ok t -> json_loads t = Ok v ->
       decompress_ws_message (Bytes b) = Ok v).
Proof.
  intros Hmagic Hutf8 Hempty. unfold decompress_ws_message. split_and!.
  - intros d t v -> ; simpl. intros ->; simpl. by intros ->.
  - by intros e ->.
  - intros t v Ht Hv.
    destruct (gzip_read b) as [d|e] eqn:Hz; simpl.
    + destruct (Hmagic b d Hz) as [->|[rest ->]].
      * by destruct (Hempty t v Ht).
      * by destruct (Hutf8 rest t).
    + by rewrite Ht; simpl.
Qed.

End Decoder.

Lemma reference_gunzip_magic (b d : list byte) :
  Reference.gunzip b = Ok d -> b = [] \/ has_gzip_magic b.
Proof.
  destruct b as [|b0 [|b1 rest]]; [by left | by destruct b0 |].
  destruct b0; try discriminate. destruct b1; try discriminate.
  intros _. right. by exists rest.
Qed.

Lemma decompress_gzip_then_plain_json_witness :
  decompress_ws_message (H:=Reference.codecs) (Bytes [x7b; x7d]) = Ok (PDict [])
  /\ decompress_ws_message (H:=Reference.codecs) (Bytes [x1f; x8b; x5b; x5d]) = Ok (PList []).
Proof.
  split.
  - refine (proj2 (proj2 (decompress_gzip_then_plain_json (H:=Reference.codecs) [x7b; x7d]
                            reference_gunzip_magic _ _)) "{}"%string (PDict []) eq_refl eq_refl).
    + intros rest t. vm_compute. discriminate.
    + intros t v. vm_compute. intros [= <-]. discriminate.
  - refine (proj1 (decompress_gzip_then_plain_json (H:=Reference.codecs) [x1f; x8b; x5b; x5d]
                     reference_gunzip_magic _ _) [x5b; x5d] "[]"%string (PList [])
                  eq_refl eq_refl eq_refl).
    + intros rest t. vm_compute. discriminate.
    + intros t v. vm_compute. intros [= <-]. discriminate.
Defined.

(** *** Balance dictionaries *)

Lemma assigned_other (value : Qc -> Qc -> Qc) (rs : list (pykey * Qc * Qc))
    (m : gmap pykey Qc) (k : pykey) :
  (forall r, r ∈ rs -> r.1.1 <> k) ->
  assigned value rs m !! k = m !! k.
Proof.
  revert m. induction rs as [|[[k' f] l] rs IH]; intros m Hk; simpl; [done|].
  rewrite IH by (intros r Hr; apply Hk; by right).
  apply lookup_insert_ne. apply (Hk (k', f, l)). by left.
Qed.

Lemma assigned_last (value : Qc -> Qc -> Qc) (rs : list (pykey * Qc * Qc))
    (m : gmap pykey Qc) (i : nat) (k : pykey) (free locked : Qc) :
  rs !! i = Some (k, free, locked) ->
  (forall j r, i < j -> rs !! j = Some r -> r.1.1 <> k) ->
  assigned value rs m !! k = Some (value free locked).
Proof.
  revert m i. induction rs as [|[[k' f] l] rs IH]; intros m i Hi Hlater; [done|].
  destruct i as [|i]; simpl in *.
  - injection Hi as -> -> ->.
    rewrite assigned_other; [apply lookup_insert_eq|].
    intros r Hr. apply list_elem_of_lookup in Hr as [j Hj].
    apply (Hlater (S j) r); [lia | done].
  - apply (IH _ i Hi). intros j r Hj Hr. apply (Hlater (S j) r); [lia | done].
Qed.

Section BalanceProperties.
Context `{PyBuiltins}.

Lemma reading_names_asset (asset free locked : string) (entry : pyval)
    (k : pykey) (f l : Qc) :
  reading asset free locked entry = Some (k, f, l) -> names_asset asset k entry.
Proof.
  unfold reading, names_asset. intros Hr.
  destruct (py_getitem entry asset) as [a|]; [|done]. exists a. split; [done|].
  repeat case_match; congruence.
Qed.

(** One balance entry of a push event: both dictionaries get the asset's
    new amounts, or the entry fails and nothing changes. *)
Lemma patch_balance_run (entry : pyval) (s : Exchange) :
  match reading "a" "f" "l" entry with
  | Some (k, free, locked) =>
      OurbitExchange.patch_balance entry s
      = (Returns tt,
         set_balances (<[k := free]> (_account_available_balances s))
                      (<[k := (free + locked)%Qc]> (_account_balances s)) s)
  | None => exists e, OurbitExchange.patch_balance entry s = (Raises (Raised e), s)
  end.
Proof.
  unfold reading, OurbitExchange.patch_balance, bind.
  rewrite ?eval_run.
  destruct (py_getitem entry "a") as [a|]; simpl; [|eauto].
  rewrite ?eval_run.
  destruct (py_getitem entry "f") as [f|]; simpl; [|destruct (py_getitem entry "l"); eauto].
  rewrite ?eval_run.
  destruct (OurbitExchange.Decimal_str f) as [free|] eqn:Hf; simpl.
  2:{ destruct (py_getitem entry "l"); [destruct (to_key a)|]; eauto. }
  rewrite ?eval_run, ?Hf; simpl.
  destruct (py_getitem entry "l") as [l|]; simpl; [|eauto].
  rewrite ?eval_run.
  destruct (OurbitExchange.Decimal_str l) as [locked|]; simpl.
  2:{ destruct (to_key a); eauto. }
  rewrite ?eval_run.
  destruct (to_key a); simpl; eauto.
Qed.

Lemma patch_balances_frame (entries : list pyval) (s : Exchange) (k : pykey) :
  (forall entry, entry ∈ entries -> ~ names_asset "a" k entry) ->
  let s' := snd (for_each entries OurbitExchange.patch_balance s) in
  _account_available_balances s' !! k = _account_available_balances s !! k
  /\ _account_balances s' !! k = _account_balances s !! k.
Proof.
  revert s. induction entries as [|entry entries IH]; intros s Hk; [done|].
  simpl. unfold bind.
  pose proof (patch_balance_run entry s) as Hrun.
  destruct (reading "a" "f" "l" entry) as [[[k' free] locked]|] eqn:Hr.
  - rewrite Hrun.
    assert (k' <> k) as Hne.
    { intros ->. apply (Hk entry); [by left|]. by eapply reading_names_asset. }
    destruct (IH (set_balances (<[k' := free]> (_account_available_balances s))
                    (<[k' := (free + locked)%Qc]> (_account_balances s)) s)) as [Ha Hb].
    { intros e He. apply Hk. by right. }
    simpl in *. rewrite Ha, Hb. by rewrite !lookup_insert_ne.
  - destruct Hrun as [e ->]. done.
Qed.

Lemma patch_balances_run (entries : list pyval) (rs : list (pykey * Qc * Qc))
    (s : Exchange) :
  Forall2 (fun entry r => reading "a" "f" "l" entry = Some r) entries rs ->
  for_each entries OurbitExchange.patch_balance s
  = (Returns tt,
     set_balances (assigned free_of rs (_account_available_balances s))
                  (assigned total_of rs (_account_balances s)) s).
Proof.
  intros Hall. revert s. induction Hall as [|entry [[k free] locked] entries rs Hr _ IH];
    intros s; simpl.
  - by destruct s.
  - unfold bind. pose proof (patch_balance_run entry s) as Hrun.
    rewrite Hr in Hrun. rewrite Hrun, IH. reflexivity.
Qed.

Lemma process_event_account_position (event_message balances : pyval)
    (entries : list pyval) (s : Exchange) :
  py_get event_message "e" PNone = Ok (PStr "outboundAccountPosition") ->
  py_get event_message "B" (PList []) = Ok balances ->
  py_iter balances = Ok entries ->
  OurbitExchange.process_event event_message s
  = for_each entries OurbitExchange.patch_balance s.
Proof.
  intros He HB Hit. unfold OurbitExchange.process_event, bind.
  rewrite eval_run, He. simpl. rewrite eval_run, HB. simpl. by rewrite eval_run, Hit.
Qed.

(** *** C6: the balance patch of a push event *)

(** C6.  An [outboundAccountPosition] event replaces the balances of the
    assets its "B" payload lists and of no other asset: an asset that no
    entry names keeps its free and total balance (whether or not the
    event is processed to its end), and when every entry reads well the
    event is processed without error and each listed asset ends with
    free = "f" and total = "f" + "l" of its (last) entry. *)
Theorem account_position_patches_listed_assets (event_message balances : pyval)
    (entries : list pyval) (s : Exchange) :
  py_get event_message "e" PNone = Ok (PStr "outboundAccountPosition") ->
  py_get event_message "B" (PList []) = Ok balances ->
  py_iter balances = Ok entries ->
  let run := OurbitExchange.process_event event_message s in
  (forall k, (forall entry, entry ∈ entries -> ~ names_asset "a" k entry) ->
     _account_available_balances run.2 !! k = _account_available_balances s !! k
     /\ _account_balances run.2 !! k = _account_balances s !! k)
  /\ (forall rs, Forall2 (fun entry r => reading "a" "f" "l" entry = Some r) entries rs ->
      run.1 = Returns tt
      /\ forall i k free locked,
           rs !! i = Some (k, free, locked) ->
           (forall j r, i < j -> rs !! j = Some r -> r.1.1 <> k) ->
           _account_available_balances run.2 !! k = Some free
           /\ _account_balances run.2 !! k = Some (free + locked)%Qc).
Proof.
  intros He HB Hit run. subst run.
  rewrite (process_event_account_position _ _ _ _ He HB Hit). split.
  - intros k Hk. by apply patch_balances_frame.
  - intros rs Hrs. rewrite (patch_balances_run _ _ _ Hrs). split; [done|].
    intros i k free locked Hi Hlast. simpl. split.
    + apply (assigned_last free_of rs _ i k free locked Hi Hlast).
    + apply (assigned_last total_of rs _ i k free locked Hi Hlast).
Qed.

(** The first loop of the full resync, on entries that all read well. *)
Lemma store_balances_run (entries : list pyval) (rs : list (pykey * Qc * Qc))
    (remote : gset pykey) (s : Exchange) :
  Forall2 (fun entry r => reading "asset" "free" "locked" entry = Some r) entries rs ->
  exists remote',
    OurbitExchange.store_balances entries remote s
    = (Returns remote',
       set_balances (assigned free_of rs (_account_available_balances s))
                    (assigned total_of rs (_account_balances s)) s)
    /\ forall k, k ∈ remote' <-> k ∈ remote \/ exists r, r ∈ rs /\ r.1.1 = k.
Proof.
  intros Hall. revert remote s.
  induction Hall as [|entry [[k free] locked] entries rs Hr _ IH]; intros remote s.
  - exists remote. split; [by destruct s|]. intros k. split; [by left|].
    intros [?|(r & Hr & _)]; [done|]. by apply elem_of_nil in Hr.
  - simpl. unfold reading in Hr. unfold bind.
    rewrite ?eval_run.
    destruct (py_getitem entry "asset") as [a|]; [|done]. simpl.
    rewrite ?eval_run.
    destruct (py_getitem entry "free") as [f|]; [|done]. simpl.
    destruct (py_getitem entry "locked") as [l|]; [|done]. simpl.
    destruct (to_key a) as [k0|]; [|done].
    destruct (OurbitExchange.Decimal_str f) as [free0|] eqn:Hf; [|done].
    destruct (OurbitExchange.Decimal_str l) as [locked0|] eqn:Hl; [|done].
    injection Hr as -> -> ->.
    rewrite ?eval_run, ?Hf, ?Hl. simpl. rewrite ?eval_run, ?Hf, ?Hl. simpl.
    destruct (IH ({[k]} ∪ remote)
                (set_balances (<[k := free]> (_account_available_balances s))
                   (<[k := (free + locked)%Qc]> (_account_balances s)) s))
      as (remote' & Hrun & Hmem).
    exists remote'. split; [by rewrite Hrun|].
    intros k'. rewrite Hmem, elem_of_union, elem_of_singleton. split.
    + intros [[->|Hin]|(r & Hin & Hk)].
      * right. exists (k, free, locked). split; [by left | done].
      * by left.
      * right. exists r. split; [by right | done].
    + intros [Hin|(r & Hin & Hk)]; [by left; right|].
      apply elem_of_cons in Hin as [->|Hin]; [by left; left|].
      right. by exists r.
Qed.

(** The second loop of the full resync: every asset of [l] is held by
    both dictionaries, so both deletions succeed. *)
Lemma remove_assets_run (l : list pykey) (s : Exchange) :
  NoDup l ->
  (forall k, k ∈ l ->
     is_Some (_account_available_balances s !! k) /\ is_Some (_account_balances s !! k)) ->
  for_each l OurbitExchange.remove_asset s
  = (Returns tt,
     set_balances (foldr delete (_account_available_balances s) l)
                  (foldr delete (_account_balances s) l) s).
Proof.
  intros Hnd. revert s. induction Hnd as [|k l Hk Hnd IH]; intros s Hheld.
  - by destruct s.
  - destruct (Hheld k) as [[x Hx] [y Hy]]; [by left|].
    cbn [for_each]. unfold bind at 1.
    assert (OurbitExchange.remove_asset k s
            = (Returns tt, set_balances (delete k (_account_available_balances s))
                                        (delete k (_account_balances s)) s)) as ->.
    { unfold OurbitExchange.remove_asset, bind, get_state, modify. simpl.
      rewrite Hx. simpl. by rewrite Hy. }
    rewrite IH.
    + simpl. by rewrite <- !delete_foldr_delete.
    + intros k' Hk'. simpl. rewrite !lookup_delete_ne by (intros ->; done).
      apply Hheld. by right.
Qed.

(** *** C5: the full balance resync *)

(** C5.  When the venue answers the account request with a response
    whose "balances" entries all read well, and every asset of the total
    dictionary is also held by the free one (the connector keeps it so,
    see [agreement_update_balances] and [agreement_listener] below),
    [_update_balances] ends
    without error with: every asset of the response at free = "free" and
    total = "free" + "locked" of its (last) entry, and every asset that
    was held before the call and is absent from the response removed
    from both dictionaries. *)
Theorem update_balances_replaces_snapshot (account_info balances : pyval)
    (entries : list pyval) (rs : list (pykey * Qc * Qc)) (s : Exchange) :
  cancel_at s = None ->
  _domain s = CONSTANTS.DEFAULT_DOMAIN ->
  rest_assistant s (trace s)
    (request_to CONSTANTS.ACCOUNTS_PATH_URL RESTMethod.GET None CONSTANTS.ACCOUNTS_PATH_URL)
    = Ok account_info ->
  py_getitem account_info "balances" = Ok balances ->
  py_iter balances = Ok entries ->
  Forall2 (fun entry r => reading "asset" "free" "locked" entry = Some r) entries rs ->
  dom (_account_balances s) ⊆ dom (_account_available_balances s) ->
  let run := OurbitExchange._update_balances s in
  run.1 = Returns tt
  /\ (forall i k free locked,
        rs !! i = Some (k, free, locked) ->
        (forall j r, i < j -> rs !! j = Some r -> r.1.1 <> k) ->
        _account_available_balances run.2 !! k = Some free
        /\ _account_balances run.2 !! k = Some (free + locked)%Qc)
  /\ (forall k,
        k ∈ dom (_account_balances s) ->
        (forall r, r ∈ rs -> r.1.1 <> k) ->
        _account_available_balances run.2 !! k = None
        /\ _account_balances run.2 !! k = None).
Proof.
  intros Hc Hd Hreply Hbal Hit Hrs Hdom run.
  set (s1 := set_trace
               (trace s ++ [Rest (request_to CONSTANTS.ACCOUNTS_PATH_URL RESTMethod.GET None
                                    CONSTANTS.ACCOUNTS_PATH_URL)]) s).
  destruct (store_balances_run entries rs ∅ s1 Hrs) as (remote & Hstore & Hremote).
  set (s2 := set_balances (assigned free_of rs (_account_available_balances s1))
               (assigned total_of rs (_account_balances s1)) s1) in Hstore.
  set (gone := elements (dom (_account_balances s) ∖ remote)).
  assert (forall k, k ∈ gone <->
                    k ∈ dom (_account_balances s) /\ forall r, r ∈ rs -> r.1.1 <> k)
    as Hgone.
  { intros k. unfold gone. rewrite elem_of_elements, elem_of_difference, Hremote. split.
    - intros [Hin Hnot]. split; [done|]. intros r Hr Hk. apply Hnot. right. by exists r.
    - intros [Hin Hnot]. split; [done|]. intros [Hempty|(r & Hr & Hk)].
      + by apply not_elem_of_empty in Hempty.
      + by apply (Hnot r). }
  assert (run = (Returns tt,
                 set_balances (foldr delete (_account_available_balances s2) gone)
                              (foldr delete (_account_balances s2) gone) s2)) as ->.
  { subst run. unfold OurbitExchange._update_balances, bind at 1, get_state.
    unfold bind at 1. rewrite _api_request_run by done. simpl. rewrite Hreply.
    unfold bind at 1. rewrite eval_run, Hbal.
    unfold bind at 1. rewrite eval_run, Hit.
    unfold bind at 1. fold s1. rewrite Hstore. fold gone.
    apply remove_assets_run; [apply NoDup_elements|].
    intros k Hk. apply Hgone in Hk as [Hk Habsent]. simpl.
    rewrite !assigned_other by done.
    split; apply elem_of_dom; [by apply Hdom | done]. }
  simpl. split; [done|]. split.
  - intros i k free locked Hi Hlast.
    assert (k ∉ gone) as Hkeep.
    { rewrite Hgone. intros [_ Hnot]. apply (Hnot (k, free, locked)); [|done].
      apply list_elem_of_lookup. by exists i. }
    rewrite !lookup_foldr_delete_not_elem_of by done. split.
    + apply (assigned_last free_of rs _ i k free locked Hi Hlast).
    + apply (assigned_last total_of rs _ i k free locked Hi Hlast).
  - intros k Hk Habsent.
    assert (k ∈ gone) as Hdel by (apply Hgone; done).
    by rewrite !lookup_foldr_delete.
Qed.

End BalanceProperties.

Lemma one_and_a_half : (Q2Qc (1 # 1) + Q2Qc (5 # 10))%Qc = Q2Qc (3 # 2).
Proof. apply Qc_is_canon. reflexivity. Qed.

Lemma account_position_patches_listed_assets_witness :
  let s := set_balances Scenario.held Scenario.held
             (Scenario.connector (Scenario.tracking Scenario.pending_order)
                Scenario.unreachable) in
  let run := OurbitExchange.process_event (H:=Reference.builtins) Scenario.position_event s in
  run.1 = Returns tt
  /\ _account_available_balances run.2 !! KStr "BTC" = Some (Q2Qc (1 # 1))
  /\ _account_balances run.2 !! KStr "BTC" = Some (Q2Qc (3 # 2))
  /\ _account_available_balances run.2 !! KStr "ETH" = Some (Q2Qc 10)
  /\ _account_balances run.2 !! KStr "ETH" = Some (Q2Qc 10).
Proof.
  intros s run.
  destruct (account_position_patches_listed_assets (H:=Reference.builtins)
              Scenario.position_event (PList [Scenario.BTC_entry "a" "f" "l"])
              [Scenario.BTC_entry "a" "f" "l"] s eq_refl eq_refl eq_refl)
    as [Hframe Hlisted].
  destruct (Hlisted [Scenario.BTC_reading]) as [Hret Hset].
  { repeat constructor. }
  destruct (Hset 0 (KStr "BTC") (Q2Qc (1 # 1)) (Q2Qc (5 # 10)) eq_refl) as [Hfree Htotal].
  { intros [|j] r Hj Hr; [lia | done]. }
  destruct (Hframe (KStr "ETH")) as [Hfree' Htotal'].
  { intros entry Hin (a & Ha & Hk). apply list_elem_of_singleton in Hin. subst entry.
    injection Ha as <-. discriminate Hk. }
  rewrite one_and_a_half in Htotal.
  split_and!; [exact Hret | exact Hfree | exact Htotal | |].
  - etrans; [exact Hfree'|]. reflexivity.
  - etrans; [exact Htotal'|]. reflexivity.
Defined.

Lemma update_balances_replaces_snapshot_witness :
  let s := set_balances Scenario.held Scenario.held
             (Scenario.connector (Scenario.tracking Scenario.pending_order)
                (Ok Scenario.account_snapshot)) in
  let run := OurbitExchange._update_balances (H:=Reference.builtins) s in
  run.1 = Returns tt
  /\ _account_available_balances run.2 !! KStr "BTC" = Some (Q2Qc (1 # 1))
  /\ _account_balances run.2 !! KStr "BTC" = Some (Q2Qc (3 # 2))
  /\ _account_available_balances run.2 !! KStr "ETH" = None
  /\ _account_balances run.2 !! KStr "ETH" = None.
Proof.
  intros s run.
  destruct (update_balances_replaces_snapshot (H:=Reference.builtins)
              Scenario.account_snapshot (PList [Scenario.BTC_entry "asset" "free" "locked"])
              [Scenario.BTC_entry "asset" "free" "locked"] [Scenario.BTC_reading] s
              eq_refl eq_refl eq_refl eq_refl eq_refl)
    as (Hret & Hset & Hgone).
  { repeat constructor. }
  { reflexivity. }
  destruct (Hset 0 (KStr "BTC") (Q2Qc (1 # 1)) (Q2Qc (5 # 10)) eq_refl) as [Hfree Htotal].
  { intros [|j] r Hj Hr; [lia | done]. }
  destruct (Hgone (KStr "ETH")) as [Hfree' Htotal'].
  { apply elem_of_dom. exists (Q2Qc 10). reflexivity. }
  { intros r Hr. apply list_elem_of_singleton in Hr. subst r. discriminate. }
  rewrite one_and_a_half in Htotal.
  split_and!; assumption.
Defined.

(** *** The two balance dictionaries hold the same assets

    The connector writes and deletes both dictionaries together, so from
    two empty dictionaries on they always hold the same assets, whatever
    the events and responses are and however a run ends. *)

Lemma agreement_ret {A} (a : A) : keeps_agreement (ret a).
Proof. by intros s. Qed.

Lemma agreement_raise {A} (r : raised) : keeps_agreement (raise (A:=A) r).
Proof. by intros s. Qed.

Lemma agreement_eval {A} (r : res A) : keeps_agreement (eval r).
Proof. intros s. by destruct r. Qed.

Lemma agreement_get_state : keeps_agreement get_state.
Proof. by intros s. Qed.

Lemma agreement_modify (f : Exchange -> Exchange) :
  (forall s, balances_agree s -> balances_agree (f s)) -> keeps_agreement (modify f).
Proof. intros Hf s Hs. by apply Hf. Qed.

Lemma agreement_emit (e : effect) : keeps_agreement (emit e).
Proof. by apply agreement_modify. Qed.

Lemma agreement_bind {A B} (m : M A) (f : A -> M B) :
  keeps_agreement m -> (forall a, keeps_agreement (f a)) -> keeps_agreement (bind m f).
Proof.
  intros Hm Hf s Hs. unfold bind. specialize (Hm s Hs).
  destruct (m s) as [[a|r] s']; simpl in *; [by apply Hf | done].
Qed.

Lemma agreement_await {A} (m : M A) : keeps_agreement m -> keeps_agreement (await m).
Proof.
  intros Hm s Hs. unfold await. destruct (cancel_at s) as [[|k]|]; [done | | by apply Hm].
  by apply (Hm (set_cancel_at (Some k) s)).
Qed.

Lemma agreement_try_except {A} (body : M A) (handler : Exception -> M A) :
  keeps_agreement body -> (forall e, keeps_agreement (handler e)) ->
  keeps_agreement (try_except body handler).
Proof.
  intros Hb Hh s Hs. unfold try_except. specialize (Hb s Hs).
  destruct (body s) as [[a|[|e]] s']; simpl in *; [done | done | by apply Hh].
Qed.

Lemma agreement_for_each {A} (l : list A) (body : A -> M unit) :
  (forall a, keeps_agreement (body a)) -> keeps_agreement (for_each l body).
Proof.
  intros Hb. induction l as [|a l IH]; simpl; [apply agreement_ret|].
  apply agreement_bind; [apply Hb | by intros _].
Qed.

Lemma agreement_call_tracker (c : tracker_call) : keeps_agreement (call_tracker c).
Proof.
  apply agreement_bind; [apply agreement_emit | intros _; by apply agreement_modify].
Qed.

Lemma agreement_assign (k : pykey) (x y : Qc) :
  keeps_agreement
    (modify (fun s => set_balances (<[k := x]> (_account_available_balances s))
                                   (<[k := y]> (_account_balances s)) s)).
Proof.
  apply agreement_modify. intros s Hs. unfold balances_agree in *. simpl.
  by rewrite !dom_insert_L, Hs.
Qed.

Ltac agreement_step :=
  first
    [ apply agreement_ret | apply agreement_raise | apply agreement_eval
    | apply agreement_get_state | apply agreement_emit | apply agreement_call_tracker
    | apply agreement_assign | apply agreement_await
    | apply agreement_for_each; intros ?
    | apply agreement_modify; intros ? ?; assumption
    | apply agreement_bind; [|intros ?]
    | match goal with
      | |- keeps_agreement (if ?c then _ else _) => destruct c
      | |- keeps_agreement (match ?x with _ => _ end) => destruct x
      end ].

Section AgreementProperties.
Context `{PyBuiltins}.

Lemma agreement_process_event (event_message : pyval) :
  keeps_agreement (OurbitExchange.process_event event_message).
Proof.
  unfold OurbitExchange.process_event, OurbitExchange.report_fill,
    OurbitExchange.report_status, OurbitExchange.patch_balance.
  repeat agreement_step.
Qed.

Lemma agreement_listener (queue : list pyval) :
  keeps_agreement (OurbitExchange._user_stream_event_listener queue).
Proof.
  induction queue as [|ev queue IH]; simpl; [repeat agreement_step|].
  apply agreement_bind; [repeat agreement_step|]. intros _.
  apply agreement_bind; [|by intros _].
  apply agreement_try_except; [apply agreement_process_event|]. intros _.
  unfold OurbitExchange._sleep. repeat agreement_step.
Qed.

Lemma agreement_api_request (path_url : string) (method : RESTMethod.t)
    (params : option (list (string * pyval))) (auth : bool) (limit_id : option string) :
  keeps_agreement (OurbitExchange._api_request path_url method params auth limit_id).
Proof.
  unfold OurbitExchange._api_request, OurbitExchange.execute_request.
  repeat agreement_step.
Qed.

Lemma agreement_store_balances (entries : list pyval) (remote : gset pykey) :
  keeps_agreement (OurbitExchange.store_balances entries remote).
Proof.
  revert remote. induction entries as [|entry entries IH]; intros remote; simpl;
    [apply agreement_ret|].
  repeat first [apply IH | agreement_step].
Qed.

Lemma agreement_remove_asset (k : pykey) : keeps_agreement (OurbitExchange.remove_asset k).
Proof.
  intros s Hs. unfold OurbitExchange.remove_asset, bind, get_state, modify, raise.
  unfold balances_agree in *.
  destruct (_account_available_balances s !! k) as [x|] eqn:Hx; simpl; [|done].
  destruct (_account_balances s !! k) as [y|] eqn:Hy; simpl.
  - by rewrite !dom_delete_L, Hs.
  - exfalso. apply not_elem_of_dom in Hy. apply Hy. rewrite <- Hs.
    apply elem_of_dom. by exists x.
Qed.

Lemma agreement_update_balances : keeps_agreement OurbitExchange._update_balances.
Proof.
  unfold OurbitExchange._update_balances.
  repeat first [apply agreement_api_request | apply agreement_store_balances
               | apply agreement_remove_asset | agreement_step].
Qed.
End AgreementProperties.

(** *** C7: the listener loop *)

Lemma calm_ret {A} (a : A) : calm (ret a).
Proof. by intros s. Qed.

Lemma calm_raise {A} (e : Exception) : calm (raise (A:=A) (Raised e)).
Proof. by intros s. Qed.

Lemma calm_eval {A} (r : res A) : calm (eval r).
Proof. intros s. by destruct r. Qed.

Lemma calm_get_state : calm get_state.
Proof. by intros s. Qed.

Lemma calm_modify (f : Exchange -> Exchange) :
  (forall s, cancel_at (f s) = cancel_at s) -> calm (modify f).
Proof. intros Hf s Hs. simpl. by rewrite Hf. Qed.

Lemma calm_emit (e : effect) : calm (emit e).
Proof. by apply calm_modify. Qed.

Lemma calm_bind {A B} (m : M A) (f : A -> M B) :
  calm m -> (forall a, calm (f a)) -> calm (bind m f).
Proof.
  intros Hm Hf s Hs. unfold bind. destruct (Hm s Hs) as [Hc Hr].
  destruct (m s) as [[a|r] s']; simpl in *; [by apply Hf|].
  split; [done | congruence].
Qed.

Lemma calm_await {A} (m : M A) : calm m -> calm (await m).
Proof. intros Hm s Hs. unfold await. rewrite Hs. by apply Hm. Qed.

Lemma calm_try_except {A} (body : M A) (handler : Exception -> M A) :
  calm body -> (forall e, calm (handler e)) -> calm (try_except body handler).
Proof.
  intros Hb Hh s Hs. unfold try_except. destruct (Hb s Hs) as [Hc Hr].
  destruct (body s) as [[a|[|e]] s']; simpl in *; [done | done | by apply Hh].
Qed.

Lemma calm_for_each {A} (l : list A) (body : A -> M unit) :
  (forall a, calm (body a)) -> calm (for_each l body).
Proof.
  intros Hb. induction l as [|a l IH]; simpl; [apply calm_ret|].
  apply calm_bind; [apply Hb | by intros _].
Qed.

Lemma calm_call_tracker (c : tracker_call) : calm (call_tracker c).
Proof.
  apply calm_bind; [apply calm_emit | intros _; by apply calm_modify].
Qed.

Ltac calm_step :=
  first
    [ apply calm_ret | apply calm_raise | apply calm_eval | apply calm_get_state
    | apply calm_emit | apply calm_call_tracker | apply calm_await
    | apply calm_for_each; intros ?
    | apply calm_modify; intros ?; reflexivity
    | apply calm_bind; [|intros ?]
    | match goal with
      | |- calm (if ?c then _ else _) => destruct c
      | |- calm (match ?x with _ => _ end) => destruct x
      end ].

Section ListenerProperties.
Context `{PyBuiltins}.


Lemma calm_sleep (d : Qc) : calm (OurbitExchange._sleep d).
Proof. unfold OurbitExchange._sleep. repeat calm_step. Qed.

(** The [except Exception] clause, when its sleep is not cancelled. *)
Lemma listener_handler_run (s : Exchange) :
  cancel_at s = None ->
  (emit (LogError "Unexpected error in user stream listener loop.") ;;;
   await (OurbitExchange._sleep (Q2Qc 5))) s
  = (Returns tt, after_listener_error s).
Proof.
  intros Hc. unfold bind, emit, modify, await, OurbitExchange._sleep, bind, emit, modify.
  simpl. by rewrite Hc.
Qed.




End ListenerProperties.


(** *** The tracker model *)

Lemma Qc_leb_refl (x : Qc) : Qc_leb x x = true.
Proof. unfold Qc_leb. apply Qle_bool_iff. apply Qle_refl. Qed.

Lemma alter_in_views (view : gset string) (f : InFlightOrder -> InFlightOrder)
    (cid : string) (t : ClientOrderTracker) :
  fillable (TrackerModel.alter_in view f cid t) = fillable t
  /\ updatable (TrackerModel.alter_in view f cid t) = updatable t.
Proof. unfold TrackerModel.alter_in. by case_decide. Qed.

Lemma alter_in_lookup (view : gset string) (f : InFlightOrder -> InFlightOrder)
    (cid cid' : string) (t : ClientOrderTracker) :
  orders (TrackerModel.alter_in view f cid t) !! cid'
  = if decide (cid ∈ view /\ cid = cid') then f <$> orders t !! cid' else orders t !! cid'.
Proof.
  unfold TrackerModel.alter_in. destruct (decide (cid ∈ view)) as [Hin|Hout]; simpl.
  - rewrite lookup_alter. destruct (decide (cid = cid')) as [->|Hne].
    + by rewrite decide_True.
    + by rewrite decide_False by (intros [_ ?]; done).
  - by rewrite decide_False by (intros [? _]; done).
Qed.

Lemma tracker_call_views (c : tracker_call) (t : ClientOrderTracker) :
  fillable (tracker_call_apply c t) = fillable t
  /\ updatable (tracker_call_apply c t) = updatable t.
Proof. destruct c; apply alter_in_views. Qed.

(** A tracker call changes no order's identity: the same orders are
    tracked, with their immutable fields. *)
Lemma tracker_call_identity (c : tracker_call) (t : ClientOrderTracker)
    (cid : string) (o : InFlightOrder) :
  orders t !! cid = Some o ->
  exists o', orders (tracker_call_apply c t) !! cid = Some o'
             /\ client_order_id o' = client_order_id o
             /\ trading_pair o' = trading_pair o
             /\ trade_type o' = trade_type o.
Proof.
  intros Ho.
  assert (forall f view k,
            (forall x, client_order_id (f x) = client_order_id x
                       /\ trading_pair (f x) = trading_pair x
                       /\ trade_type (f x) = trade_type x) ->
            exists o', orders (TrackerModel.alter_in view f k t) !! cid = Some o'
                       /\ client_order_id o' = client_order_id o
                       /\ trading_pair o' = trading_pair o
                       /\ trade_type o' = trade_type o) as Halter.
  { intros f view k Hf. rewrite alter_in_lookup, Ho. case_decide; simpl; eauto. }
  destruct c; apply Halter; intros x.
  - unfold TrackerModel.update_with_order_update. by repeat case_match.
  - unfold TrackerModel.update_with_order_update. by repeat case_match.
  - unfold TrackerModel.update_with_trade_update. by repeat case_match.
  - unfold TrackerModel.resolve_not_found. by repeat case_match.
Qed.

Lemma called_all_trace (cs : list tracker_call) (s : Exchange) :
  trace (foldl called s cs) = trace s ++ map Tracker cs.
Proof.
  revert s. induction cs as [|c cs IH]; intros s; simpl; [by rewrite app_nil_r|].
  rewrite IH. simpl. by rewrite <- app_assoc.
Qed.

Lemma called_all_tracker (cs : list tracker_call) (s : Exchange) :
  _order_tracker (foldl called s cs)
  = foldl (fun t c => tracker_call_apply c t) (_order_tracker s) cs.
Proof. revert s. induction cs as [|c cs IH]; intros s; simpl; [done | by rewrite IH]. Qed.

Lemma called_all_rest (cs : list tracker_call) (s : Exchange) :
  cancel_at (foldl called s cs) = cancel_at s
  /\ trade_fee_schema (foldl called s cs) = trade_fee_schema s
  /\ _account_available_balances (foldl called s cs) = _account_available_balances s
  /\ _account_balances (foldl called s cs) = _account_balances s.
Proof.
  revert s. induction cs as [|c cs IH]; intros s; simpl; [done|].
  by destruct (IH (called s c)) as (-> & -> & -> & ->).
Qed.

Lemma called_all_views (cs : list tracker_call) (s : Exchange) :
  fillable (_order_tracker (foldl called s cs)) = fillable (_order_tracker s)
  /\ updatable (_order_tracker (foldl called s cs)) = updatable (_order_tracker s).
Proof.
  revert s. induction cs as [|c cs IH]; intros s; simpl; [done|].
  destruct (IH (called s c)) as [-> ->]. apply tracker_call_views.
Qed.

Lemma called_all_identity (cs : list tracker_call) (s : Exchange)
    (cid : string) (o : InFlightOrder) :
  orders (_order_tracker s) !! cid = Some o ->
  exists o', orders (_order_tracker (foldl called s cs)) !! cid = Some o'
             /\ client_order_id o' = client_order_id o
             /\ trading_pair o' = trading_pair o
             /\ trade_type o' = trade_type o.
Proof.
  revert s o. induction cs as [|c cs IH]; intros s o Ho; simpl; [by exists o|].
  destruct (tracker_call_identity c (_order_tracker s) cid o Ho) as (o1 & Ho1 & E1 & E2 & E3).
  destruct (IH (called s c) o1 Ho1) as (o2 & Ho2 & F1 & F2 & F3).
  exists o2. split; [done|]. split_and!; congruence.
Qed.

(** *** C1: a fill reported for an order that is still PENDING_CREATE *)

Section FillProperties.
Context `{PyBuiltins}.

Lemma call_tracker_run (c : tracker_call) (s : Exchange) :
  call_tracker c s = (Returns tt, called s c).
Proof. reflexivity. Qed.

Lemma getitem_dict (d : list (string * pyval)) (k : string) (v : pyval) :
  assoc k d = Some v -> py_getitem (PDict d) k = Ok v.
Proof. simpl. by intros ->. Qed.

Lemma get_dict (d : list (string * pyval)) (k : string) (v default : pyval) :
  assoc k d = Some v -> py_get (PDict d) k default = Ok v.
Proof. simpl. by intros ->. Qed.

Lemma view_get_str (view : gset string) (t : ClientOrderTracker) (cid : string) :
  TrackerModel.view_get view t (PStr cid)
  = Ok (if decide (cid ∈ view) then orders t !! cid else None).
Proof. reflexivity. Qed.

Lemma ORDER_STATE_filled (filled : bool) :
  ORDER_STATE_getitem (PStr (if filled then "FILLED" else "PARTIALLY_FILLED"))
  = Ok (if filled then OrderState.FILLED else OrderState.PARTIALLY_FILLED).
Proof. by destruct filled. Qed.

(** The fill branch on a well-formed report. *)
Lemma report_fill_run (d : list (string * pyval)) (s : Exchange) (o : InFlightOrder)
    (filled : bool) (vE vi vn vN vt vl vL : pyval) (ms : Z) (fee_amount base price : Qc) :
  cancel_at s = None ->
  assoc "X" d = Some (PStr (if filled then "FILLED" else "PARTIALLY_FILLED")) ->
  assoc "E" d = Some vE -> py_int vE = Ok ms ->
  assoc "i" d = Some vi ->
  assoc "n" d = Some vn -> OurbitExchange.Decimal_str vn = Ok fee_amount ->
  assoc "N" d = Some vN ->
  assoc "t" d = Some vt ->
  assoc "l" d = Some vl -> OurbitExchange.Decimal_str vl = Ok base ->
  assoc "L" d = Some vL -> OurbitExchange.Decimal_str vL = Ok price ->
  OurbitExchange.report_fill (PDict d) o s
  = (Returns tt,
     foldl called s
       ((if filled && OrderState.eqb (current_state o) OrderState.PENDING_CREATE
         then [Call__process_order_update (reported_update o ms (py_str vi) OrderState.OPEN)]
         else [])
        ++ [Call_process_trade_update
              (reported_fill (trade_fee_schema s) o ms (py_str vi) (py_str vt)
                 fee_amount vN base price)])).
Proof.
  intros Hc HX HE Hms Hi Hn Hfee HN Ht Hl Hbase HL Hprice.
  pose proof (getitem_dict _ _ _ HE) as HE'. pose proof (getitem_dict _ _ _ Hi) as Hi'.
  pose proof (getitem_dict _ _ _ Hn) as Hn'. pose proof (getitem_dict _ _ _ HN) as HN'.
  pose proof (getitem_dict _ _ _ Ht) as Ht'. pose proof (getitem_dict _ _ _ Hl) as Hl'.
  pose proof (getitem_dict _ _ _ HL) as HL'.
  assert (forall s0 : Exchange,
            (let* s1 := get_state
             in let* n := eval (py_getitem (PDict d) "n")
             in let* fee_amount0 := eval (OurbitExchange.Decimal_str n)
             in let* N := eval (py_getitem (PDict d) "N")
             in let* t := eval (py_getitem (PDict d) "t")
             in let* i := eval (py_getitem (PDict d) "i")
             in let* l := eval (py_getitem (PDict d) "l")
             in let* base0 := eval (OurbitExchange.Decimal_str l)
             in let* l' := eval (py_getitem (PDict d) "l")
             in let* base' := eval (OurbitExchange.Decimal_str l')
             in let* L := eval (py_getitem (PDict d) "L")
             in let* price0 := eval (OurbitExchange.Decimal_str L)
             in let* L' := eval (py_getitem (PDict d) "L")
             in let* price' := eval (OurbitExchange.Decimal_str L')
             in let* E := eval (py_getitem (PDict d) "E")
             in let* ms0 := eval (py_int E)
             in call_tracker
                  (Call_process_trade_update
                     {| trade_id := py_str t;
                        tu_client_order_id := client_order_id o;
                        tu_exchange_order_id := py_str i;
                        tu_trading_pair := trading_pair o;
                        fee := {| fee_schema := trade_fee_schema s1;
                                  fee_trade_type := trade_type o;
                                  percent_token := None;
                                  flat_fees := [ {| amount := fee_amount0; token := N |} ] |};
                        fill_base_amount := base0;
                        fill_quote_amount := (base' * price0)%Qc;
                        fill_price := price';
                        fill_timestamp := ms_to_s ms0 |})) s0
            = (Returns tt,
               called s0 (Call_process_trade_update
                            (reported_fill (trade_fee_schema s0) o ms (py_str vi) (py_str vt)
                               fee_amount vN base price)))) as Htail.
  { intros s0. unfold bind at 1, get_state.
    do 15 (unfold bind at 1;
           rewrite eval_run, ?Hn', ?HN', ?Ht', ?Hi', ?Hl', ?HL', ?HE',
             ?Hfee, ?Hbase, ?Hprice, ?Hms).
    apply call_tracker_run. }
  unfold OurbitExchange.report_fill.
  unfold bind at 1. rewrite eval_run, (getitem_dict _ _ _ HX).
  unfold bind at 1. rewrite eval_run, ORDER_STATE_filled.
  unfold bind at 1.
  match goal with
  | |- context [bind get_state ?f] => set (tail := bind get_state f) in *
  end.
  destruct filled, (OrderState.eqb (current_state o) OrderState.PENDING_CREATE);
    cbn [OrderState.eqb andb app foldl ret]; try apply Htail.
  do 3 (unfold bind at 1; rewrite eval_run, ?HE', ?Hms, ?Hi').
  rewrite await_uncancelled by done. rewrite call_tracker_run.
  cbv beta iota. rewrite Htail. reflexivity.
Qed.

(** The status branch on a well-formed report of a fill. *)
Lemma report_status_run (d : list (string * pyval)) (s : Exchange) (o : InFlightOrder)
    (filled : bool) (vE vi : pyval) (ms : Z) :
  assoc "X" d = Some (PStr (if filled then "FILLED" else "PARTIALLY_FILLED")) ->
  assoc "E" d = Some vE -> py_int vE = Ok ms ->
  assoc "i" d = Some vi ->
  OurbitExchange.report_status (PDict d) o s
  = (Returns tt,
     called s (Call_process_order_update
                 (reported_update o ms (py_str vi)
                    (if filled then OrderState.FILLED else OrderState.PARTIALLY_FILLED)))).
Proof.
  intros HX HE Hms Hi. unfold OurbitExchange.report_status.
  unfold bind at 1. rewrite eval_run, (getitem_dict _ _ _ HX).
  unfold bind at 1. rewrite eval_run, ORDER_STATE_filled.
  assert (OrderState.eqb (if filled then OrderState.FILLED else OrderState.PARTIALLY_FILLED)
            OrderState.PENDING_CREATE = false) as -> by by destruct filled.
  unfold bind at 1. rewrite eval_run, (getitem_dict _ _ _ HE).
  unfold bind at 1. rewrite eval_run, Hms.
  unfold bind at 1. rewrite eval_run, (getitem_dict _ _ _ Hi).
  apply call_tracker_run.
Qed.

(** C1 (as the code has it).  An [executionReport] with status FILLED
    for a tracked fillable order that is still PENDING_CREATE makes the
    listener first apply an order update to OPEN, stamped with the
    event's time and carrying the event's exchange order id, and then
    record the fill's trade update; a report with status
    PARTIALLY_FILLED records the trade update with no OPEN update before
    it.  In both cases the status update of the report follows when the
    order is updatable.  For FILLED on an updatable order and a report
    that is not older than the order's last update, the order ends
    FILLED, acknowledged (it has an exchange order id) and with the
    trade in its fill ledger. *)
Theorem fill_report_for_pending_order (d : list (string * pyval)) (s : Exchange)
    (cid : string) (o : InFlightOrder) (filled : bool)
    (vE vi vn vN vt vl vL : pyval) (ms : Z) (fee_amount base price : Qc) :
  cancel_at s = None ->
  assoc "e" d = Some (PStr "executionReport") ->
  assoc "X" d = Some (PStr (if filled then "FILLED" else "PARTIALLY_FILLED")) ->
  assoc "C" d = Some (PStr cid) ->
  cid ∈ fillable (_order_tracker s) ->
  orders (_order_tracker s) !! cid = Some o ->
  client_order_id o = cid ->
  current_state o = OrderState.PENDING_CREATE ->
  assoc "E" d = Some vE -> py_int vE = Ok ms ->
  assoc "i" d = Some vi ->
  assoc "n" d = Some vn -> OurbitExchange.Decimal_str vn = Ok fee_amount ->
  assoc "N" d = Some vN ->
  assoc "t" d = Some vt ->
  assoc "l" d = Some vl -> OurbitExchange.Decimal_str vl = Ok base ->
  assoc "L" d = Some vL -> OurbitExchange.Decimal_str vL = Ok price ->
  let open := reported_update o ms (py_str vi) OrderState.OPEN in
  let fill := reported_fill (trade_fee_schema s) o ms (py_str vi) (py_str vt)
                fee_amount vN base price in
  let status := reported_update o ms (py_str vi)
                  (if filled then OrderState.FILLED else OrderState.PARTIALLY_FILLED) in
  let calls :=
    (if filled then [Call__process_order_update open] else [])
    ++ [Call_process_trade_update fill]
    ++ (if decide (cid ∈ updatable (_order_tracker s))
        then [Call_process_order_update status] else []) in
  let s' := foldl called s calls in
  OurbitExchange.process_event (PDict d) s = (Returns tt, s')
  /\ trace s' = trace s ++ map Tracker calls
  /\ (filled = true ->
       cid ∈ updatable (_order_tracker s) ->
       Qc_leb (last_update_timestamp o) (Q2Qc (ms # 1000)) = true ->
       let o' := TrackerModel.update_with_order_update status
                   (TrackerModel.update_with_trade_update fill
                      (TrackerModel.update_with_order_update open o)) in
       orders (_order_tracker s') !! cid = Some o'
       /\ current_state o' = OrderState.FILLED
       /\ exchange_order_id o' = Some (default (py_str vi) (exchange_order_id o))
       /\ TrackerModel.seen (py_str vt) (order_fills o') = true
       /\ (TrackerModel.seen (py_str vt) (order_fills o) = false ->
           order_fills o' = order_fills o ++ [fill]
           /\ filled_base_amount o' = (filled_base_amount o + base)%Qc)).
Proof.
  intros Hc He HX HC Hfillable Ho Hcid Hstate HE Hms Hi Hn Hfee HN Ht Hl Hbase HL Hprice
    open fill status calls s'.
  set (calls1 := (if filled then [Call__process_order_update open] else [])
                 ++ [Call_process_trade_update fill]).
  assert (OurbitExchange.report_fill (PDict d) o s = (Returns tt, foldl called s calls1))
    as Hfill.
  { rewrite (report_fill_run d s o filled vE vi vn vN vt vl vL ms fee_amount base price)
      by done.
    rewrite Hstate. subst calls1. by destruct filled. }
  destruct (called_all_views calls1 s) as [_ Hupd].
  destruct (called_all_identity calls1 s cid o Ho) as (o1 & Ho1 & Hid1 & Hpair1 & _).
  assert (reported_update o1 ms (py_str vi)
            (if filled then OrderState.FILLED else OrderState.PARTIALLY_FILLED) = status)
    as Hstatus by (unfold status, reported_update; by rewrite Hid1, Hpair1).
  assert (s' = foldl called s
                 (calls1 ++ if decide (cid ∈ updatable (_order_tracker s))
                            then [Call_process_order_update status] else [])) as Hs'
    by (subst s' calls calls1; by rewrite <- app_assoc).
  split_and!.
  - unfold OurbitExchange.process_event.
    unfold bind at 1. rewrite eval_run, (get_dict _ _ _ _ He).
    change (py_eq_str (PStr "executionReport") "executionReport") with true. cbv iota.
    unfold bind at 1. rewrite eval_run, (get_dict _ _ _ _ HX).
    unfold bind at 1. rewrite eval_run, (get_dict _ _ _ _ HC).
    unfold bind at 1, get_state.
    unfold bind at 1. rewrite eval_run. unfold TrackerModel.all_fillable_orders_get.
    rewrite view_get_str, decide_True, Ho by done.
    assert (py_in_strs (PStr (if filled then "FILLED" else "PARTIALLY_FILLED"))
              ["PARTIALLY_FILLED"; "FILLED"] = true) as -> by by destruct filled.
    unfold bind at 1. rewrite Hfill.
    unfold bind at 1, get_state.
    unfold bind at 1. rewrite eval_run. unfold TrackerModel.all_updatable_orders_get.
    rewrite view_get_str, Hupd, Hs', foldl_app.
    destruct (decide (cid ∈ updatable (_order_tracker s))) as [Hin|Hout].
    + rewrite Ho1.
      rewrite (report_status_run d _ o1 filled vE vi ms) by done.
      by rewrite Hstatus.
    + reflexivity.
  - apply called_all_trace.
  - intros -> Hin Hfresh o'.
    set (o_open := TrackerModel.update_with_order_update open o) in *.
    set (o_fill := TrackerModel.update_with_trade_update fill o_open) in *.
    assert (current_state o_open = OrderState.OPEN
            /\ exchange_order_id o_open = Some (default (py_str vi) (exchange_order_id o))
            /\ last_update_timestamp o_open = ms_to_s ms
            /\ order_fills o_open = order_fills o
            /\ filled_base_amount o_open = filled_base_amount o)
      as (Hst1 & Hid & Hts1 & Hfills1 & Hbase1).
    { unfold o_open, TrackerModel.update_with_order_update. rewrite Hstate. simpl.
      rewrite Hfresh. simpl. by destruct (exchange_order_id o). }
    assert (current_state o_fill = OrderState.OPEN
            /\ exchange_order_id o_fill = exchange_order_id o_open
            /\ last_update_timestamp o_fill = ms_to_s ms
            /\ TrackerModel.seen (py_str vt) (order_fills o_fill) = true
            /\ (TrackerModel.seen (py_str vt) (order_fills o) = false ->
                order_fills o_fill = order_fills o ++ [fill]
                /\ filled_base_amount o_fill = (filled_base_amount o + base)%Qc))
      as (Hst2 & Hid2 & Hts2 & Hseen & Hnew).
    { unfold o_fill, TrackerModel.update_with_trade_update. rewrite Hfills1. simpl.
      destruct (TrackerModel.seen (py_str vt) (order_fills o)) eqn:Hs; simpl.
      - by rewrite Hfills1.
      - split_and!; try done.
        + unfold TrackerModel.seen. rewrite existsb_app. simpl.
          rewrite String.eqb_refl. by rewrite orb_true_r.
        + intros _. by rewrite Hbase1. }
    assert (o' = {| client_order_id := client_order_id o_fill;
                    exchange_order_id := exchange_order_id o_fill;
                    trading_pair := trading_pair o_fill;
                    trade_type := trade_type o_fill;
                    current_state := OrderState.FILLED;
                    last_update_timestamp := ms_to_s ms;
                    order_fills := order_fills o_fill;
                    filled_base_amount := filled_base_amount o_fill;
                    filled_quote_amount := filled_quote_amount o_fill |}) as Ho'.
    { unfold o', TrackerModel.update_with_order_update. rewrite Hst2, Hts2. simpl.
      rewrite Qc_leb_refl. simpl. rewrite Hid2, Hid. reflexivity. }
    split_and!.
    + rewrite Hs', decide_True by done. rewrite called_all_tracker.
      subst calls1. cbn [app foldl tracker_call_apply].
      unfold TrackerModel.process_order_update, TrackerModel.process_trade_update.
      rewrite !alter_in_lookup.
      repeat match goal with
             | |- context [fillable (TrackerModel.alter_in ?v ?f ?k ?t)] =>
                 rewrite (proj1 (alter_in_views v f k t))
             | |- context [updatable (TrackerModel.alter_in ?v ?f ?k ?t)] =>
                 rewrite (proj2 (alter_in_views v f k t))
             end.
      cbn [ou_client_order_id tu_client_order_id status open fill reported_update
           reported_fill].
      rewrite !decide_True by (by rewrite Hcid). by rewrite Ho.
    + by rewrite Ho'.
    + rewrite Ho'. simpl. by rewrite Hid2.
    + by rewrite Ho'.
    + intros Hs. rewrite Ho'. simpl. by apply Hnew.
Qed.

(** A report whose status the table [ORDER_STATE] does not list, for an
    updatable order, raises [KeyError] and changes nothing. *)
Lemma unknown_status_raises_KeyError (d : list (string * pyval)) (s : Exchange)
    (status cid : string) (o : InFlightOrder) :
  assoc "e" d = Some (PStr "executionReport") ->
  assoc "X" d = Some (PStr status) ->
  table_lookup status CONSTANTS.ORDER_STATE = None ->
  assoc "C" d = Some (PStr cid) ->
  cid ∈ updatable (_order_tracker s) ->
  orders (_order_tracker s) !! cid = Some o ->
  OurbitExchange.process_event (PDict d) s = (Raises (Raised (KeyError status)), s).
Proof.
  intros He HX Hunknown HC Hupd Ho.
  assert (py_in_strs (PStr status) ["PARTIALLY_FILLED"; "FILLED"] = false) as Hnofill.
  { simpl. simpl in Hunknown.
    destruct (String.eqb_spec status "PARTIALLY_FILLED") as [->|]; [done|].
    by destruct (String.eqb_spec status "FILLED") as [->|]. }
  unfold OurbitExchange.process_event.
  unfold bind at 1. rewrite eval_run, (get_dict _ _ _ _ He).
  change (py_eq_str (PStr "executionReport") "executionReport") with true. cbv iota.
  unfold bind at 1. rewrite eval_run, (get_dict _ _ _ _ HX).
  unfold bind at 1. rewrite eval_run, (get_dict _ _ _ _ HC).
  unfold bind at 1, get_state.
  unfold bind at 1. rewrite eval_run. unfold TrackerModel.all_fillable_orders_get.
  rewrite view_get_str, Hnofill.
  assert ((match (if decide (cid ∈ fillable (_order_tracker s))
                  then orders (_order_tracker s) !! cid else None) with
           | Some _ => ret tt
           | None => ret tt
           end) s = (Returns tt, s)) as Hskip by (by repeat case_match).
  unfold bind at 1. rewrite Hskip.
  unfold bind at 1, get_state.
  unfold bind at 1. rewrite eval_run. unfold TrackerModel.all_updatable_orders_get.
  rewrite view_get_str, decide_True, Ho by done.
  unfold OurbitExchange.report_status.
  unfold bind at 1. rewrite eval_run, (getitem_dict _ _ _ HX).
  unfold bind at 1. rewrite eval_run. unfold ORDER_STATE_getitem. simpl to_key.
  cbv iota. by rewrite Hunknown.
Qed.

End FillProperties.

Lemma fill_report_for_pending_order_witness :
  let s := Scenario.connector (Scenario.tracking Scenario.pending_order) Scenario.unreachable in
  let run := OurbitExchange.process_event (H:=Reference.builtins)
               (Scenario.fill_report "FILLED") s in
  run.1 = Returns tt
  /\ trace run.2
     = [Tracker (Call__process_order_update
                   (reported_update Scenario.pending_order 1700000001800 "4242" OrderState.OPEN));
        Tracker (Call_process_trade_update Scenario.trade_77);
        Tracker (Call_process_order_update
                   (reported_update Scenario.pending_order 1700000001800 "4242" OrderState.FILLED))]
  /\ exists o', orders (_order_tracker run.2) !! "OURBIT_1" = Some o'
                /\ current_state o' = OrderState.FILLED
                /\ exchange_order_id o' = Some "4242"
                /\ order_fills o' = [Scenario.trade_77].
Proof.
  intros s run.
  assert ("OURBIT_1" ∈ ({["OURBIT_1"]} : gset string)) as Hin
    by (apply elem_of_singleton; reflexivity).
  destruct (fill_report_for_pending_order (H:=Reference.builtins)
              [("e", PStr "executionReport"); ("E", PInt 1700000001800);
               ("C", PStr "OURBIT_1"); ("i", PInt 4242); ("X", PStr "FILLED");
               ("t", PInt 77); ("l", PStr "0.5"); ("L", PStr "30000");
               ("n", PStr "0.01"); ("N", PStr "USDT")]
              s "OURBIT_1" Scenario.pending_order true
              (PInt 1700000001800) (PInt 4242) (PStr "0.01") (PStr "USDT") (PInt 77)
              (PStr "0.5") (PStr "30000") 1700000001800
              (Q2Qc (1 # 100)) (Q2Qc (5 # 10)) (Q2Qc (30000 # 1))
              eq_refl eq_refl eq_refl eq_refl Hin eq_refl eq_refl eq_refl eq_refl eq_refl
              eq_refl eq_refl eq_refl eq_refl eq_refl eq_refl eq_refl eq_refl eq_refl)
    as (Hrun & Htrace & Hfinal).
  destruct (Hfinal eq_refl Hin eq_refl) as (Ho' & Hstate & Hid & _ & Hfills).
  subst run. unfold Scenario.fill_report. rewrite Hrun.
  split; [reflexivity|]. split; [exact Htrace|].
  eexists. split; [exact Ho'|]. split; [exact Hstate|]. split; [exact Hid|].
  exact (proj1 (Hfills eq_refl)).
Defined.

(** C1 (as stated) fails for PARTIALLY_FILLED: the order is still
    PENDING_CREATE, yet the listener records the trade first and applies no
    update to OPEN at all; the order goes straight to PARTIALLY_FILLED. *)
Lemma partial_fill_report_synthesizes_no_open :
  let s := Scenario.connector (Scenario.tracking Scenario.pending_order) Scenario.unreachable in
  let run := OurbitExchange.process_event (H:=Reference.builtins)
               (Scenario.fill_report "PARTIALLY_FILLED") s in
  TrackerModel.all_fillable_orders_get (_order_tracker s) (PStr "OURBIT_1")
    = Ok (Some Scenario.pending_order)
  /\ current_state Scenario.pending_order = OrderState.PENDING_CREATE
  /\ run.1 = Returns tt
  /\ trace run.2
     = [Tracker (Call_process_trade_update Scenario.trade_77);
        Tracker (Call_process_order_update
                   (reported_update Scenario.pending_order 1700000001800 "4242"
                      OrderState.PARTIALLY_FILLED))]
  /\ (forall ou, new_state ou = OrderState.OPEN ->
        (Tracker (Call__process_order_update ou) ∉ trace run.2)
        /\ (Tracker (Call_process_order_update ou) ∉ trace run.2)).
Proof.
  intros s run.
  assert (trace run.2
          = [Tracker (Call_process_trade_update Scenario.trade_77);
             Tracker (Call_process_order_update
                        (reported_update Scenario.pending_order 1700000001800 "4242"
                           OrderState.PARTIALLY_FILLED))]) as Htrace
    by (vm_compute; reflexivity).
  split_and!; [vm_compute; reflexivity | reflexivity | vm_compute; reflexivity | exact Htrace |].
  intros ou Hou. rewrite Htrace. split; intros Hin.
  - apply elem_of_cons in Hin as [Hin|Hin]; [discriminate|].
    apply elem_of_cons in Hin as [Hin|Hin]; [discriminate|].
    by apply elem_of_nil in Hin.
  - apply elem_of_cons in Hin as [Hin|Hin]; [discriminate|].
    apply elem_of_cons in Hin as [Hin|Hin]; [|by apply elem_of_nil in Hin].
    injection Hin as ->. discriminate Hou.
Qed.

(** The final state of C1 needs the report to be no older than the order's
    last update.  A FILLED report stamped one millisecond before the
    order's own stamp is passed to the tracker like any other (OPEN, the
    trade, FILLED), but the tracker discards both order updates as stale:
    the order stays PENDING_CREATE and without exchange order id, with the
    trade in its ledger. *)
Lemma stale_fill_report_leaves_order_pending :
  let s := Scenario.connector (Scenario.tracking Scenario.pending_order) Scenario.unreachable in
  let report :=
    PDict [("e", PStr "executionReport"); ("E", PInt 1699999999999);
           ("C", PStr "OURBIT_1"); ("i", PInt 4242); ("X", PStr "FILLED");
           ("t", PInt 77); ("l", PStr "0.5"); ("L", PStr "30000");
           ("n", PStr "0.01"); ("N", PStr "USDT")] in
  let run := OurbitExchange.process_event (H:=Reference.builtins) report s in
  last_update_timestamp Scenario.pending_order = Q2Qc (1700000000000 # 1000)
  /\ run.1 = Returns tt
  /\ map (fun e => match e with
                   | Tracker (Call__process_order_update ou) => Some (new_state ou)
                   | Tracker (Call_process_order_update ou) => Some (new_state ou)
                   | _ => None
                   end) (trace run.2)
     = [Some OrderState.OPEN; None; Some OrderState.FILLED]
  /\ exists o', orders (_order_tracker run.2) !! "OURBIT_1" = Some o'
                /\ current_state o' = OrderState.PENDING_CREATE
                /\ exchange_order_id o' = None
                /\ map trade_id (order_fills o') = ["77"].
Proof.
  intros s report run. split; [reflexivity|].
  split; [vm_compute; reflexivity|]. split; [vm_compute; reflexivity|].
  eexists. split; [vm_compute; reflexivity|]. by split_and!.
Qed.

(** *** C3: cancellation *)

(** No tracker call changes the state of a terminal order. *)
Lemma tracker_call_keeps_terminal (c : tracker_call) (t : ClientOrderTracker)
    (cid : string) (o : InFlightOrder) :
  orders t !! cid = Some o ->
  TrackerModel.is_terminal (current_state o) = true ->
  exists o', orders (tracker_call_apply c t) !! cid = Some o'
             /\ current_state o' = current_state o.
Proof.
  intros Ho Hterm.
  assert (forall f view k,
            current_state (f o) = current_state o ->
            exists o', orders (TrackerModel.alter_in view f k t) !! cid = Some o'
                       /\ current_state o' = current_state o) as Halter.
  { intros f view k Hf. rewrite alter_in_lookup, Ho. case_decide; simpl; eauto. }
  destruct c; apply Halter.
  - unfold TrackerModel.update_with_order_update. by rewrite Hterm.
  - unfold TrackerModel.update_with_order_update. by rewrite Hterm.
  - unfold TrackerModel.update_with_trade_update. by case_match.
  - unfold TrackerModel.resolve_not_found. by rewrite Hterm.
Qed.

Section CancelProperties.
Context `{PyBuiltins}.

(** C3 (as the code has it).  [_place_cancel] sends the cancel request
    and then: (1) when the response is an object whose "orderId" is
    truthy it passes an order update to CANCELED, stamped with the current
    time, to the tracker and returns [True]; an updatable order that is
    not terminal and was last updated no later than now is CANCELED
    afterwards; (2) when the response is anything else (no object, an
    object without "orderId", or one whose "orderId" is falsy) it awaits
    the tracker's not-found path for the order and returns [False],
    raising nothing; (3) in both cases an order that was already terminal
    keeps
    its state; (4) an exception raised by the request, an order-not-found
    error included, leaves [_place_cancel] as it is: nothing is
    returned and the tracker is not called. *)
Theorem place_cancel_outcomes (order_id : string) (tracked_order : InFlightOrder)
    (s : Exchange) :
  cancel_at s = None ->
  _domain s = CONSTANTS.DEFAULT_DOMAIN ->
  let reply := rest_assistant s (trace s) (cancel_request tracked_order) in
  let sent := set_trace (trace s ++ [Rest (cancel_request tracked_order)]) s in
  let run := OurbitExchange._place_cancel order_id tracked_order s in
  let cid := client_order_id tracked_order in
  (forall d orderId,
     reply = Ok (PDict d) ->
     assoc "orderId" d = Some orderId ->
     truthy orderId = true ->
     run = (Returns true,
            called sent (Call_process_order_update (canceled_update tracked_order (clock s))))
     /\ forall o,
          orders (_order_tracker s) !! cid = Some o ->
          cid ∈ updatable (_order_tracker s) ->
          TrackerModel.is_terminal (current_state o) = false ->
          Qc_leb (last_update_timestamp o) (clock s) = true ->
          exists o', orders (_order_tracker run.2) !! cid = Some o'
                     /\ current_state o' = OrderState.CANCELED)
  /\ (forall cancel_result,
        reply = Ok cancel_result ->
        (forall d orderId,
           cancel_result = PDict d -> assoc "orderId" d = Some orderId ->
           truthy orderId = false) ->
        run = (Returns false, called sent (Call_process_order_not_found cid)))
  /\ (forall cancel_result o,
        reply = Ok cancel_result ->
        orders (_order_tracker s) !! cid = Some o ->
        TrackerModel.is_terminal (current_state o) = true ->
        exists o', orders (_order_tracker run.2) !! cid = Some o'
                   /\ current_state o' = current_state o)
  /\ (forall e,
        reply = Err e ->
        run = (Raises (Raised e), sent)).
Proof.
  intros Hc Hd reply sent run cid.
  assert (run = (let* cancel_result := (fun s0 : Exchange =>
                       (match reply with
                        | Ok v => Returns v
                        | Err e => Raises (Raised e)
                        end, sent))
                 in (if OurbitExchange.cancel_acknowledged cancel_result
                     then let* s0 := get_state
                          in call_tracker (Call_process_order_update
                                             (canceled_update tracked_order (clock s0))) ;;;
                             ret true
                     else await (call_tracker (Call_process_order_not_found cid)) ;;;
                          ret false)) s) as Hrun.
  { subst run. unfold OurbitExchange._place_cancel.
    unfold bind at 1. rewrite _api_request_run by done. reflexivity. }
  assert (forall cancel_result,
            reply = Ok cancel_result ->
            OurbitExchange.cancel_acknowledged cancel_result = true ->
            run = (Returns true,
                   called sent (Call_process_order_update
                                  (canceled_update tracked_order (clock s))))) as Hack.
  { intros cancel_result Hreply Hyes. rewrite Hrun. unfold bind at 1.
    rewrite Hreply, Hyes. reflexivity. }
  assert (forall cancel_result,
            reply = Ok cancel_result ->
            OurbitExchange.cancel_acknowledged cancel_result = false ->
            run = (Returns false, called sent (Call_process_order_not_found cid))) as Hnot.
  { intros cancel_result Hreply Hno. rewrite Hrun. unfold bind at 1.
    rewrite Hreply, Hno. unfold bind at 1. rewrite await_uncancelled by done.
    reflexivity. }
  split_and!.
  - intros d orderId Hreply Hid Htrue.
    assert (OurbitExchange.cancel_acknowledged (PDict d) = true) as Hyes
      by (unfold OurbitExchange.cancel_acknowledged; by rewrite Hid).
    split; [by apply (Hack (PDict d))|].
    intros o Ho Hupd Hlive Hfresh. rewrite (Hack _ Hreply Hyes). simpl.
    unfold TrackerModel.process_order_update. rewrite alter_in_lookup. simpl.
    rewrite decide_True, Ho by done. simpl. eexists. split; [done|].
    unfold TrackerModel.update_with_order_update, canceled_update.
    cbn [update_timestamp new_state]. rewrite Hlive, Hfresh.
    cbn [negb TrackerModel.rank].
    assert (Nat.ltb 3 (TrackerModel.rank (current_state o)) = false) as ->
      by (by destruct (current_state o)).
    reflexivity.
  - intros cancel_result Hreply Hno. apply (Hnot cancel_result Hreply).
    unfold OurbitExchange.cancel_acknowledged.
    destruct cancel_result as [| | | | | |d]; try reflexivity.
    destruct (assoc "orderId" d) as [orderId|] eqn:Hid; [|reflexivity].
    by apply (Hno d).
  - intros cancel_result o Hreply Ho Hterm.
    destruct (OurbitExchange.cancel_acknowledged cancel_result) eqn:Hyes.
    + rewrite (Hack _ Hreply Hyes). by apply tracker_call_keeps_terminal.
    + rewrite (Hnot _ Hreply Hyes). by apply tracker_call_keeps_terminal.
  - intros e Hreply. rewrite Hrun. unfold bind at 1. by rewrite Hreply.
Qed.

End CancelProperties.

Lemma place_cancel_outcomes_witness :
  let acked := Scenario.connector (Scenario.tracking Scenario.pending_order)
                 (Ok Scenario.cancel_accepted) in
  let absent := Scenario.connector (Scenario.tracking Scenario.filled_order)
                  (Ok Scenario.cancel_unknown) in
  let emptied := Scenario.connector (Scenario.tracking Scenario.pending_order)
                   (Ok (PDict [("symbol", PStr "BTCUSDT"); ("orderId", PStr "")])) in
  let listed := Scenario.connector (Scenario.tracking Scenario.pending_order)
                  (Ok (PList [Scenario.cancel_accepted])) in
  let run1 := OurbitExchange._place_cancel "OURBIT_1" Scenario.pending_order acked in
  let run2 := OurbitExchange._place_cancel "OURBIT_1" Scenario.filled_order absent in
  let run3 := OurbitExchange._place_cancel "OURBIT_1" Scenario.pending_order emptied in
  let run4 := OurbitExchange._place_cancel "OURBIT_1" Scenario.pending_order listed in
  run1.1 = Returns true
  /\ (exists o', orders (_order_tracker run1.2) !! "OURBIT_1" = Some o'
                 /\ current_state o' = OrderState.CANCELED)
  /\ run2 = (Returns false,
             called (set_trace [Rest (cancel_request Scenario.filled_order)] absent)
               (Call_process_order_not_found "OURBIT_1"))
  /\ (exists o', orders (_order_tracker run2.2) !! "OURBIT_1" = Some o'
                 /\ current_state o' = OrderState.FILLED)
  /\ run3 = (Returns false,
             called (set_trace [Rest (cancel_request Scenario.pending_order)] emptied)
               (Call_process_order_not_found "OURBIT_1"))
  /\ run4 = (Returns false,
             called (set_trace [Rest (cancel_request Scenario.pending_order)] listed)
               (Call_process_order_not_found "OURBIT_1")).
Proof.
  intros acked absent emptied listed run1 run2 run3 run4.
  assert ("OURBIT_1" ∈ ({["OURBIT_1"]} : gset string)) as Hin
    by (apply elem_of_singleton; reflexivity).
  destruct (place_cancel_outcomes "OURBIT_1" Scenario.pending_order acked eq_refl eq_refl)
    as (Hack & _ & _ & _).
  destruct (Hack _ (PStr "4242") eq_refl eq_refl eq_refl) as [Hrun1 Hcanceled].
  destruct (place_cancel_outcomes "OURBIT_1" Scenario.filled_order absent eq_refl eq_refl)
    as (_ & Hnot & Hkept & _).
  destruct (place_cancel_outcomes "OURBIT_1" Scenario.pending_order emptied eq_refl eq_refl)
    as (_ & Hnot3 & _ & _).
  destruct (place_cancel_outcomes "OURBIT_1" Scenario.pending_order listed eq_refl eq_refl)
    as (_ & Hnot4 & _ & _).
  split; [subst run1; by rewrite Hrun1|].
  split; [exact (Hcanceled Scenario.pending_order eq_refl Hin eq_refl eq_refl)|].
  split.
  { apply (Hnot Scenario.cancel_unknown eq_refl). intros d orderId [= <-]. discriminate. }
  split.
  { exact (Hkept Scenario.cancel_unknown Scenario.filled_order eq_refl eq_refl eq_refl). }
  split.
  { apply (Hnot3 _ eq_refl). intros d orderId [= <-] [= <-]. reflexivity. }
  apply (Hnot4 _ eq_refl). intros d orderId. discriminate.
Defined.

(** The CANCELED state of C3 needs the order's last update to be no later
    than the time of the call.  For an order stamped after the connector's
    clock the cancel is accepted and [_place_cancel] returns [True], but
    the tracker discards the update as stale and the order stays OPEN. *)
Lemma accepted_cancel_of_later_stamped_order_stays_open :
  let s := Scenario.connector (Scenario.tracking Examples.open_order)
             (Ok Scenario.cancel_accepted) in
  let run := OurbitExchange._place_cancel "OURBIT_1" Examples.open_order s in
  clock s = Q2Qc (1700000001000 # 1000)
  /\ last_update_timestamp Examples.open_order = Q2Qc (1700000001500 # 1000)
  /\ run.1 = Returns true
  /\ exists o', orders (_order_tracker run.2) !! "OURBIT_1" = Some o'
                /\ current_state o' = OrderState.OPEN.
Proof.
  intros s run. split; [reflexivity|]. split; [reflexivity|].
  split; [vm_compute; reflexivity|].
  eexists. split; [vm_compute; reflexivity|]. reflexivity.
Qed.

(** C3 (as stated) fails when the venue reports the order absent by an
    error: the exception, which the connector's own classifier recognises
    as order-not-found, is raised to the caller of [_place_cancel]; the
    call does not return [False] and the tracker's not-found path is not
    taken. *)
Lemma order_not_found_error_leaves_place_cancel :
  let s := Scenario.connector (Scenario.tracking Scenario.filled_order)
             (Err Scenario.order_does_not_exist) in
  let run := OurbitExchange._place_cancel "OURBIT_1" Scenario.filled_order s in
  OurbitExchange._is_order_not_found_during_cancelation_error Scenario.order_does_not_exist
    = true
  /\ run.1 = Raises (Raised Scenario.order_does_not_exist)
  /\ run.1 <> Returns false
  /\ trace run.2 = [Rest (cancel_request Scenario.filled_order)]
  /\ _order_tracker run.2 = _order_tracker s.
Proof.
  intros s run.
  assert (run = (Raises (Raised Scenario.order_does_not_exist),
                 set_trace [Rest (cancel_request Scenario.filled_order)] s)) as ->
    by (vm_compute; reflexivity).
  split_and!; [vm_compute; reflexivity | reflexivity | discriminate | reflexivity | reflexivity].
Qed.

(** *** C2: the fill ledger *)

Lemma filter_implied {A} (P Q : A -> bool) (l : list A) :
  (forall x, P x = true -> Q x = true) ->
  List.filter P (List.filter Q l) = List.filter P l.
Proof.
  intros HPQ. induction l as [|x l IH]; simpl; [done|].
  destruct (Q x) eqn:HQ; simpl.
  - destruct (P x); by rewrite IH.
  - destruct (P x) eqn:HP; [|done]. apply HPQ in HP. congruence.
Qed.

Lemma filter_both {A} (P Q R : A -> bool) (l : list A) :
  (forall x, R x = P x && Q x) ->
  List.filter R l = List.filter P (List.filter Q l).
Proof.
  intros HR. induction l as [|x l IH]; simpl; [done|].
  rewrite HR. destruct (Q x); simpl; destruct (P x); simpl; by rewrite ?IH.
Qed.

Lemma sum_map_ext (f g : string -> Qc) (l : list string) :
  (forall x, In x l -> f x = g x) ->
  LedgerSpec.sum (map f l) = LedgerSpec.sum (map g l).
Proof.
  intros Hfg. induction l as [|x l IH]; simpl; [done|].
  rewrite Hfg by (by left). rewrite IH; [done|]. intros y Hy. apply Hfg. by right.
Qed.

Lemma amount_of_skip (f : TradeUpdate -> Qc) (tu : TradeUpdate) (tus : list TradeUpdate)
    (id : string) :
  String.eqb id (trade_id tu) = false ->
  LedgerSpec.amount_of f (tu :: tus) id = LedgerSpec.amount_of f tus id.
Proof.
  intros Hne. unfold LedgerSpec.amount_of, LedgerSpec.first_with. simpl.
  by rewrite String.eqb_sym, Hne.
Qed.

Lemma seen_app (id : string) (known : list TradeUpdate) (tu : TradeUpdate) :
  TrackerModel.seen id (known ++ [tu])
  = TrackerModel.seen id known || String.eqb (trade_id tu) id.
Proof. unfold TrackerModel.seen. rewrite existsb_app. simpl. by rewrite orb_false_r. Qed.

Lemma delivered_cons (tu : TradeUpdate) (tus : list TradeUpdate) (o : InFlightOrder) :
  delivered (tu :: tus) o = delivered tus (TrackerModel.update_with_trade_update tu o).
Proof. reflexivity. Qed.

Lemma delivered_total (g : InFlightOrder -> Qc) (f : TradeUpdate -> Qc) :
  (forall tu o, g (TrackerModel.update_with_trade_update tu o)
                = if TrackerModel.seen (trade_id tu) (order_fills o) then g o
                  else (g o + f tu)%Qc) ->
  forall tus o,
    g (delivered tus o) = (g o + LedgerSpec.sum_over_distinct f (order_fills o) tus)%Qc.
Proof.
  intros Hg tus. induction tus as [|tu tus IH]; intros o.
  - unfold LedgerSpec.sum_over_distinct. simpl. by rewrite Qcplus_0_r.
  - rewrite delivered_cons, IH, Hg. unfold LedgerSpec.sum_over_distinct. simpl.
    unfold TrackerModel.update_with_trade_update.
    destruct (TrackerModel.seen (trade_id tu) (order_fills o)) eqn:Hseen; simpl.
    + f_equal. rewrite filter_implied.
      * apply sum_map_ext. intros x Hx. symmetry. apply amount_of_skip.
        apply filter_In in Hx as [_ Hx]. destruct (String.eqb_spec x (trade_id tu)); [|done].
        subst x. by rewrite Hseen in Hx.
      * intros x Hx. destruct (String.eqb_spec x (trade_id tu)); [|done].
        subst x. by rewrite Hseen in Hx.
    + rewrite <- Qcplus_assoc. f_equal.
      unfold LedgerSpec.amount_of at 2. unfold LedgerSpec.first_with. simpl.
      rewrite String.eqb_refl. f_equal.
      rewrite (filter_both (fun id => negb (TrackerModel.seen id (order_fills o)))
                 (fun x => negb (String.eqb x (trade_id tu)))).
      * apply sum_map_ext. intros x Hx. symmetry. apply amount_of_skip.
        apply filter_In in Hx as [Hx _]. apply filter_In in Hx as [_ Hx].
        by apply negb_true_iff in Hx.
      * intros x. rewrite seen_app, negb_orb. f_equal. by rewrite String.eqb_sym.
Qed.

Lemma seen_false_iff (id : string) (fills : list TradeUpdate) :
  TrackerModel.seen id fills = false <-> id ∉ map trade_id fills.
Proof.
  unfold TrackerModel.seen. induction fills as [|tu fills IH]; simpl.
  - split; [intros _; apply not_elem_of_nil | done].
  - rewrite orb_false_iff, IH, not_elem_of_cons. split.
    + intros [Hne Hnot]. split; [|done]. intros ->. by rewrite String.eqb_refl in Hne.
    + intros [Hne Hnot]. split; [|done]. by apply String.eqb_neq.
Qed.

Lemma update_with_trade_update_seen (tu : TradeUpdate) (o : InFlightOrder) (id : string) :
  TrackerModel.seen id (order_fills (TrackerModel.update_with_trade_update tu o))
  = TrackerModel.seen id (order_fills o) || String.eqb (trade_id tu) id.
Proof.
  unfold TrackerModel.update_with_trade_update.
  destruct (TrackerModel.seen (trade_id tu) (order_fills o)) eqn:Hseen; simpl.
  - destruct (String.eqb_spec (trade_id tu) id) as [<-|]; [|by rewrite orb_false_r].
    by rewrite Hseen.
  - apply seen_app.
Qed.

Lemma delivered_seen_mono (tus : list TradeUpdate) (o : InFlightOrder) (id : string) :
  TrackerModel.seen id (order_fills o) = true ->
  TrackerModel.seen id (order_fills (delivered tus o)) = true.
Proof.
  revert o. induction tus as [|tu tus IH]; intros o Hseen; [done|].
  rewrite delivered_cons. apply IH.
  rewrite update_with_trade_update_seen, Hseen. reflexivity.
Qed.

Lemma delivered_holds_all (tus : list TradeUpdate) (o : InFlightOrder) :
  Forall (fun tu => TrackerModel.seen (trade_id tu) (order_fills (delivered tus o)) = true) tus.
Proof.
  revert o. induction tus as [|tu tus IH]; intros o; constructor.
  - rewrite delivered_cons. apply delivered_seen_mono.
    rewrite update_with_trade_update_seen, String.eqb_refl. apply orb_true_r.
  - rewrite delivered_cons. apply IH.
Qed.

Lemma delivered_again (tus : list TradeUpdate) (o : InFlightOrder) :
  Forall (fun tu => TrackerModel.seen (trade_id tu) (order_fills o) = true) tus ->
  delivered tus o = o.
Proof.
  induction 1 as [|tu tus Hseen _ IH]; [done|].
  rewrite delivered_cons. unfold TrackerModel.update_with_trade_update.
  by rewrite Hseen.
Qed.

Lemma delivered_ledger_NoDup (tus : list TradeUpdate) (o : InFlightOrder) :
  NoDup (map trade_id (order_fills o)) ->
  NoDup (map trade_id (order_fills (delivered tus o))).
Proof.
  revert o. induction tus as [|tu tus IH]; intros o Hnd; [done|].
  rewrite delivered_cons. apply IH. unfold TrackerModel.update_with_trade_update.
  destruct (TrackerModel.seen (trade_id tu) (order_fills o)) eqn:Hseen; simpl; [done|].
  rewrite map_app. apply NoDup_app. split_and!; [done | | apply NoDup_singleton].
  intros id Hid Hin. apply list_elem_of_singleton in Hin. subst id.
  by apply seen_false_iff in Hseen.
Qed.

Lemma process_trade_updates_lookup (tus : list TradeUpdate) (t : ClientOrderTracker)
    (cid : string) (o : InFlightOrder) :
  orders t !! cid = Some o ->
  cid ∈ fillable t ->
  Forall (fun tu => tu_client_order_id tu = cid) tus ->
  orders (foldl (fun t tu => TrackerModel.process_trade_update tu t) t tus) !! cid
  = Some (delivered tus o).
Proof.
  intros Ho Hin Hall. revert t o Ho Hin.
  induction Hall as [|tu tus Hcid _ IH]; intros t o Ho Hin; [done|].
  rewrite delivered_cons. simpl. apply IH.
  - unfold TrackerModel.process_trade_update. rewrite alter_in_lookup, Hcid.
    by rewrite decide_True, Ho.
  - unfold TrackerModel.process_trade_update.
    by rewrite (proj1 (alter_in_views _ _ _ _)).
Qed.

Section BackfillProperties.
Context `{PyBuiltins}.

Lemma trade_update_of_belongs (order : InFlightOrder) (pair : string) (trade : pyval)
    (s s' : Exchange) (tu : TradeUpdate) :
  OurbitExchange.trade_update_of order pair trade s = (Returns tu, s') ->
  s' = s
  /\ tu_client_order_id tu = client_order_id order
  /\ exists id, py_getitem trade "id" = Ok id /\ trade_id tu = py_str id.
Proof.
  unfold OurbitExchange.trade_update_of, bind, get_state, ret. rewrite ?eval_run.
  repeat (match goal with
          | |- context [eval ?r] => rewrite (eval_run r)
          | |- context [match ?r with Ok _ => _ | Err _ => _ end] =>
              destruct r eqn:?; simpl
          end; try discriminate).
  intros [= <- <-]. simpl. eauto.
Qed.

Lemma collect_belongs (order : InFlightOrder) (pair : string) (trades : list pyval)
    (s s' : Exchange) (tus : list TradeUpdate) :
  OurbitExchange.collect (OurbitExchange.trade_update_of order pair) trades s
    = (Returns tus, s') ->
  s' = s /\ Forall (fun tu => tu_client_order_id tu = client_order_id order) tus.
Proof.
  revert tus s'. induction trades as [|trade trades IH]; intros tus s'; simpl.
  - by intros [= <- <-].
  - unfold bind at 1.
    destruct (OurbitExchange.trade_update_of order pair trade s) as [[tu|r] s1] eqn:Htu;
      [|discriminate].
    apply trade_update_of_belongs in Htu as (-> & Hcid & _).
    unfold bind at 1.
    destruct (OurbitExchange.collect _ trades s) as [[tus'|r] s2] eqn:Hrest; [|discriminate].
    destruct (IH tus' s2 eq_refl) as [-> Hall]. intros [= <- <-].
    split; [done|]. by constructor.
Qed.

(** Every trade update of the fill backfill is addressed to the order it
    was requested for. *)
Lemma backfill_updates_belong_to_order (order : InFlightOrder) (s s' : Exchange)
    (tus : list TradeUpdate) :
  OurbitExchange._all_trade_updates_for_order order s = (Returns tus, s') ->
  Forall (fun tu => tu_client_order_id tu = client_order_id order) tus.
Proof.
  unfold OurbitExchange._all_trade_updates_for_order.
  destruct (exchange_order_id order) as [eid|]; [|by intros [= <- <-]].
  unfold bind at 1. rewrite eval_run. destruct (py_int (PStr eid)); [|discriminate].
  unfold bind at 1.
  destruct (OurbitExchange._api_request _ _ _ _ _ s) as [[response|r] s1]; [|discriminate].
  intros Hcollect. by apply collect_belongs in Hcollect as [_ Hall].
Qed.
End BackfillProperties.

(** C2.  Whatever trade updates are delivered for one order, in whatever
    order and however often (each push report and each backfilled trade is
    one delivery), a trade id enters the order's fill ledger at most once:
    the filled base and quote amounts grow by the sum over the distinct
    trade ids not yet in the ledger, each taken once, the ledger holds no
    trade id twice and holds every delivered one, and delivering the same
    updates again changes nothing. *)
Theorem each_trade_id_counts_once (t : ClientOrderTracker) (cid : string)
    (o : InFlightOrder) (tus : list TradeUpdate) :
  orders t !! cid = Some o ->
  cid ∈ fillable t ->
  Forall (fun tu => tu_client_order_id tu = cid) tus ->
  let t' := foldl (fun t tu => TrackerModel.process_trade_update tu t) t tus in
  exists o',
    orders t' !! cid = Some o'
    /\ filled_base_amount o'
       = (filled_base_amount o
          + LedgerSpec.sum_over_distinct fill_base_amount (order_fills o) tus)%Qc
    /\ filled_quote_amount o'
       = (filled_quote_amount o
          + LedgerSpec.sum_over_distinct fill_quote_amount (order_fills o) tus)%Qc
    /\ (NoDup (map trade_id (order_fills o)) -> NoDup (map trade_id (order_fills o')))
    /\ Forall (fun tu => TrackerModel.seen (trade_id tu) (order_fills o') = true) tus
    /\ delivered tus o' = o'.
Proof.
  intros Ho Hin Hall t'. exists (delivered tus o). split_and!.
  - by apply process_trade_updates_lookup.
  - apply delivered_total. intros tu x. unfold TrackerModel.update_with_trade_update.
    by case_match.
  - apply delivered_total. intros tu x. unfold TrackerModel.update_with_trade_update.
    by case_match.
  - apply delivered_ledger_NoDup.
  - apply delivered_holds_all.
  - apply delivered_again, delivered_holds_all.
Qed.


Lemma each_trade_id_counts_once_witness :
  let deliveries := [Scenario.trade_77; Scenario.trade_77_backfill; Scenario.trade_78;
                     Scenario.trade_77] in
  let t' := foldl (fun t tu => TrackerModel.process_trade_update tu t)
              (Scenario.tracking Scenario.pending_order) deliveries in
  exists o', orders t' !! "OURBIT_1" = Some o'
             /\ filled_base_amount o' = Q2Qc (3 # 4)
             /\ NoDup (map trade_id (order_fills o')).
Proof.
  intros deliveries t'.
  assert ("OURBIT_1" ∈ ({["OURBIT_1"]} : gset string)) as Hin
    by (apply elem_of_singleton; reflexivity).
  destruct (each_trade_id_counts_once (Scenario.tracking Scenario.pending_order) "OURBIT_1"
              Scenario.pending_order deliveries eq_refl Hin)
    as (o' & Ho' & Hbase & _ & Hnodup & _).
  { repeat constructor. }
  exists o'. split; [exact Ho'|]. split.
  - rewrite Hbase. apply Qc_is_canon. reflexivity.
  - apply Hnodup. constructor.
Defined.

(** * Further properties *)

(** *** The status query *)

Section StatusQueryProperties.
Context `{PyBuiltins}.

(** No venue status maps to PENDING_CREATE. *)
Lemma ORDER_STATE_never_pending_create (v : pyval) (st : OrderState.t) :
  ORDER_STATE_getitem v = Ok st -> st <> OrderState.PENDING_CREATE.
Proof.
  unfold ORDER_STATE_getitem. destruct (to_key v) as [[| | |k]|]; try discriminate.
  destruct (table_lookup k CONSTANTS.ORDER_STATE) as [st'|] eqn:Ht; [|discriminate].
  intros [= ->]. simpl in Ht.
  repeat (case_match; [by injection Ht as <-|]). discriminate.
Qed.

(** The statuses of the venue and the states they stand for. *)
Lemma ORDER_STATE_entries (name : string) (st : OrderState.t) :
  table_lookup name CONSTANTS.ORDER_STATE = Some st ->
  (name, st) ∈ [("NEW", OrderState.OPEN);
                ("PARTIALLY_FILLED", OrderState.PARTIALLY_FILLED);
                ("FILLED", OrderState.FILLED);
                ("CANCELED", OrderState.CANCELED);
                ("PENDING_CANCEL", OrderState.PENDING_CANCEL);
                ("REJECTED", OrderState.FAILED);
                ("EXPIRED", OrderState.CANCELED)].
Proof.
  intros Ht. simpl in Ht.
  repeat (case_match;
          [match goal with
           | Heq : String.eqb _ _ = true |- _ => apply String.eqb_eq in Heq as ->
           end;
           injection Ht as <-; apply list_elem_of_In; simpl; tauto|]).
  discriminate.
Qed.

Lemma ORDER_STATE_getitem_entry (v : pyval) (st : OrderState.t) :
  ORDER_STATE_getitem v = Ok st ->
  exists name, v = PStr name /\ table_lookup name CONSTANTS.ORDER_STATE = Some st.
Proof.
  unfold ORDER_STATE_getitem. destruct v as [|b|z|x|name|items|entries];
    cbn [to_key]; try discriminate.
  - destruct (Qden x =? 1)%positive; discriminate.
  - intros Hst. exists name. split; [done|].
    by destruct (table_lookup name CONSTANTS.ORDER_STATE) as [st'|]; simplify_eq.
Qed.

(** X1.  A status query that the venue answers with a known status returns
    the order update for the state that status stands for (NEW is OPEN,
    REJECTED is FAILED, EXPIRED and CANCELED are CANCELED, the others are
    the state of the same name), stamped with "updateTime" divided by 1000,
    milliseconds taken to seconds, and carrying [str] of "orderId"; the
    tracker is called only when the status is FILLED and the order is
    still PENDING_CREATE, and then with one awaited update to OPEN. *)
Theorem request_order_status_reports_mapped_state (tracked_order : InFlightOrder)
    (s : Exchange) (updated_order_data status orderId updateTime : pyval)
    (st : OrderState.t) (ms : Z) :
  cancel_at s = None ->
  _domain s = CONSTANTS.DEFAULT_DOMAIN ->
  rest_assistant s (trace s) (status_request tracked_order) = Ok updated_order_data ->
  py_getitem updated_order_data "status" = Ok status ->
  ORDER_STATE_getitem status = Ok st ->
  py_getitem updated_order_data "orderId" = Ok orderId ->
  py_getitem updated_order_data "updateTime" = Ok updateTime ->
  py_int updateTime = Ok ms ->
  let order_update new_state :=
    {| ou_client_order_id := client_order_id tracked_order;
       ou_exchange_order_id := Some (py_str orderId);
       ou_trading_pair := trading_pair tracked_order;
       update_timestamp := Q2Qc (ms # 1000);
       new_state := new_state |} in
  OurbitExchange._request_order_status tracked_order s
  = (Returns (order_update st),
     if OrderState.eqb st OrderState.FILLED
        && OrderState.eqb (current_state tracked_order) OrderState.PENDING_CREATE
     then called (sent (status_request tracked_order) s)
            (Call__process_order_update (order_update OrderState.OPEN))
     else sent (status_request tracked_order) s)
  /\ exists name,
       status = PStr name
       /\ (name, st) ∈ [("NEW", OrderState.OPEN);
                        ("PARTIALLY_FILLED", OrderState.PARTIALLY_FILLED);
                        ("FILLED", OrderState.FILLED);
                        ("CANCELED", OrderState.CANCELED);
                        ("PENDING_CANCEL", OrderState.PENDING_CANCEL);
                        ("REJECTED", OrderState.FAILED);
                        ("EXPIRED", OrderState.CANCELED)].
Proof.
  intros Hc Hd Hreply Hstatus Hst Hid Htime Hms order_update.
  split; [|destruct (ORDER_STATE_getitem_entry _ _ Hst) as (name & -> & Ht);
           exists name; split; [done | by apply ORDER_STATE_entries]].
  pose proof (ORDER_STATE_never_pending_create _ _ Hst) as Hnot.
  unfold OurbitExchange._request_order_status.
  unfold bind at 1. rewrite _api_request_run by done.
  change (request_to _ _ _ _) with (status_request tracked_order). rewrite Hreply.
  unfold bind at 1. rewrite eval_run, Hstatus.
  unfold bind at 1. rewrite eval_run, Hst.
  assert (OrderState.eqb st OrderState.PENDING_CREATE = false) as ->
    by (by destruct st).
  unfold bind at 1.
  destruct (OrderState.eqb st OrderState.FILLED
            && OrderState.eqb (current_state tracked_order) OrderState.PENDING_CREATE).
  - do 3 (unfold bind at 1; rewrite eval_run, ?Hid, ?Htime, ?Hms).
    rewrite await_uncancelled by done. rewrite call_tracker_run.
    do 3 (unfold bind at 1; rewrite eval_run, ?Hid, ?Htime, ?Hms).
    reflexivity.
  - cbn [ret].
    do 3 (unfold bind at 1; rewrite eval_run, ?Hid, ?Htime, ?Hms).
    reflexivity.
Qed.

(** X2.  A status query fails without telling the tracker anything: an
    exception of the request (an order-not-found error, say) is raised
    unchanged, and a status outside the venue vocabulary raises [KeyError];
    in both cases only the request was recorded. *)
Theorem request_order_status_failures (tracked_order : InFlightOrder) (s : Exchange) :
  cancel_at s = None ->
  _domain s = CONSTANTS.DEFAULT_DOMAIN ->
  let reply := rest_assistant s (trace s) (status_request tracked_order) in
  let run := OurbitExchange._request_order_status tracked_order s in
  (forall e, reply = Err e ->
     run = (Raises (Raised e), sent (status_request tracked_order) s))
  /\ (forall updated_order_data status,
        reply = Ok updated_order_data ->
        py_getitem updated_order_data "status" = Ok (PStr status) ->
        table_lookup status CONSTANTS.ORDER_STATE = None ->
        run = (Raises (Raised (KeyError status)), sent (status_request tracked_order) s)).
Proof.
  intros Hc Hd reply run. subst run reply. split.
  - intros e Hreply. unfold OurbitExchange._request_order_status.
    unfold bind at 1. rewrite _api_request_run by done.
    change (request_to _ _ _ _) with (status_request tracked_order). by rewrite Hreply.
  - intros data status Hreply Hstatus Hunknown.
    unfold OurbitExchange._request_order_status.
    unfold bind at 1. rewrite _api_request_run by done.
    change (request_to _ _ _ _) with (status_request tracked_order). rewrite Hreply.
    unfold bind at 1. rewrite eval_run, Hstatus.
    unfold bind at 1. rewrite eval_run. unfold ORDER_STATE_getitem. simpl to_key.
    cbv iota. by rewrite Hunknown.
Qed.

End StatusQueryProperties.

Lemma request_order_status_reports_mapped_state_witness :
  let s := Scenario.connector (Scenario.tracking Scenario.pending_order)
             (Ok (Examples.order_status "FILLED")) in
  let order_update new_state :=
    {| ou_client_order_id := "OURBIT_1";
       ou_exchange_order_id := Some "4242";
       ou_trading_pair := "BTC-USDT";
       update_timestamp := Q2Qc (1700000002000 # 1000);
       new_state := new_state |} in
  OurbitExchange._request_order_status (H:=Reference.builtins) Scenario.pending_order s
  = (Returns (order_update OrderState.FILLED),
     called (sent (status_request Scenario.pending_order) s)
       (Call__process_order_update (order_update OrderState.OPEN)))
  /\ Q2Qc (1700000002000 # 1000) = Q2Qc (1700000002 # 1).
Proof.
  intros s order_update. split.
  - exact (proj1 (request_order_status_reports_mapped_state (H:=Reference.builtins)
                    Scenario.pending_order s (Examples.order_status "FILLED")
                    (PStr "FILLED") (PInt 4242) (PInt 1700000002000) OrderState.FILLED
                    1700000002000
                    eq_refl eq_refl eq_refl eq_refl eq_refl eq_refl eq_refl eq_refl)).
  - apply Qc_is_canon. reflexivity.
Defined.

Lemma request_order_status_failures_witness :
  let s := Scenario.connector (Scenario.tracking Examples.open_order)
             (Ok (Examples.order_status "HALTED")) in
  OurbitExchange._request_order_status (H:=Reference.builtins) Examples.open_order s
  = (Raises (Raised (KeyError "HALTED")), sent (status_request Examples.open_order) s).
Proof.
  intros s.
  exact (proj2 (request_order_status_failures (H:=Reference.builtins)
                  Examples.open_order s eq_refl eq_refl)
           (Examples.order_status "HALTED") "HALTED" eq_refl eq_refl eq_refl).
Defined.

(** *** Requests *)

Section RequestProperties.
Context `{PyBuiltins}.

Lemma _api_request_sends (path_url : string) (method : RESTMethod.t)
    (params : option (list (string * pyval))) (auth : bool) (limit_id : option string)
    (s : Exchange) :
  cancel_at s = None ->
  _domain s = CONSTANTS.DEFAULT_DOMAIN ->
  let req := {| url := String.append "https://api.ourbit.com" path_url;
                method := method;
                params := params;
                is_auth_required := auth;
                headers := [("Content-Type", "application/json");
                            ("Accept", "application/json")];
                throttler_limit_id := limit_id_or limit_id path_url |} in
  OurbitExchange._api_request path_url method params auth limit_id s
  = (outcome_of (rest_assistant s (trace s) req), sent req s).
Proof.
  intros Hc Hd req.
  unfold OurbitExchange._api_request, OurbitExchange.execute_request, bind, await,
    get_state, emit, modify, ret.
  unfold web_utils.rest_url, web_utils.public_rest_url.
  rewrite Hc. simpl. rewrite Hd. simpl. rewrite Hc. simpl.
  by rewrite eval_run.
Qed.

(** X3.  With no cancellation pending, [_api_request] on the main domain
    sends exactly one request (the path appended to the REST base URL, the
    method, parameters and authentication flag it was given, and as
    throttler limit id [limit_id], or the path when [limit_id] is [None] or
    empty) and hands back the venue's reply, value or exception; on any
    other domain it raises [KeyError] of the domain and sends nothing. *)
Theorem api_request_sends_one_request (path_url : string) (http_method : RESTMethod.t)
    (api_params : option (list (string * pyval))) (auth : bool) (limit_id : option string)
    (s : Exchange) :
  cancel_at s = None ->
  let run := OurbitExchange._api_request path_url http_method api_params auth limit_id s in
  (_domain s = CONSTANTS.DEFAULT_DOMAIN ->
   exists req,
     run = (outcome_of (rest_assistant s (trace s) req), sent req s)
     /\ url req = String.append "https://api.ourbit.com" path_url
     /\ method req = http_method
     /\ params req = api_params
     /\ is_auth_required req = auth
     /\ (limit_id = None \/ limit_id = Some "" -> throttler_limit_id req = path_url)
     /\ (forall l, limit_id = Some l -> l <> "" -> throttler_limit_id req = l))
  /\ (_domain s <> CONSTANTS.DEFAULT_DOMAIN ->
      run = (Raises (Raised (KeyError (_domain s))), s)).
Proof.
  intros Hc run. split.
  - intros Hd. eexists. split; [by apply _api_request_sends|]. simpl.
    split_and!; try done.
    + by intros [->| ->].
    + intros l -> Hl. simpl. by apply String.eqb_neq in Hl as ->.
  - intros Hd. subst run.
    unfold OurbitExchange._api_request, bind, await, get_state, ret.
    rewrite Hc. simpl.
    unfold web_utils.rest_url, web_utils.public_rest_url, CONSTANTS.REST_URLS.
    apply String.eqb_neq in Hd. unfold CONSTANTS.DEFAULT_DOMAIN in Hd. by rewrite Hd.
Qed.

(** [_place_order] sends its request and reads the reply; nothing else
    happens to the connector. *)
Lemma _place_order_run (order_id trading_pair : string) (amount : Qc)
    (trade_type : TradeType.t) (order_type : OrderType.t) (price : Qc) (s : Exchange) :
  cancel_at s = None ->
  _domain s = CONSTANTS.DEFAULT_DOMAIN ->
  let req := place_order_request order_id trading_pair amount trade_type order_type price in
  OurbitExchange._place_order order_id trading_pair amount trade_type order_type price s
  = (outcome_of
       (let? order_result := rest_assistant s (trace s) req in
        let? orderId := py_getitem order_result "orderId" in
        let? transactTime := py_getitem order_result "transactTime" in
        let? ms := py_int transactTime in
        Ok (py_str orderId, ms_to_s ms)),
     sent req s).
Proof.
  intros Hc Hd req. unfold OurbitExchange._place_order, bind.
  rewrite _api_request_run by done.
  match goal with |- context [rest_assistant s (trace s) ?r] =>
    assert (r = req) as -> by by destruct trade_type end.
  destruct (rest_assistant s (trace s) req) as [order_result|e]; [|done]. simpl.
  rewrite eval_run. destruct (py_getitem order_result "orderId") as [orderId|e]; [|done].
  simpl. rewrite eval_run.
  destruct (py_getitem order_result "transactTime") as [transactTime|e]; [|done].
  simpl. rewrite eval_run. by destruct (py_int transactTime).
Qed.

(** X4.  Whatever the venue answers, [_place_order] sends exactly one
    request, a POST to the order path, whose parameters carry the symbol
    without the dash, the side, the quantity, the order type by its name
    and the client order id; a price unless the order is a MARKET order;
    and a time in force (GTC) only for a LIMIT order. *)
Theorem place_order_request_parameters (order_id trading_pair : string) (amount : Qc)
    (trade_type : TradeType.t) (order_type : OrderType.t) (price : Qc) (s : Exchange) :
  cancel_at s = None ->
  _domain s = CONSTANTS.DEFAULT_DOMAIN ->
  let run := OurbitExchange._place_order order_id trading_pair amount trade_type
               order_type price s in
  exists req api_params,
    trace run.2 = trace s ++ [Rest req]
    /\ url req = "https://api.ourbit.com/api/v3/order"
    /\ method req = RESTMethod.POST
    /\ is_auth_required req = true
    /\ params req = Some api_params
    /\ assoc "symbol" api_params = Some (PStr (str_remove "-" trading_pair))
    /\ assoc "side" api_params
       = Some (PStr match trade_type with
                    | TradeType.BUY => "BUY"
                    | TradeType.SELL => "SELL"
                    end)
    /\ assoc "quantity" api_params = Some (PStr (py_format_f amount))
    /\ assoc "type" api_params = Some (PStr (OrderType.name order_type))
    /\ assoc "newClientOrderId" api_params = Some (PStr order_id)
    /\ assoc "price" api_params
       = match order_type with
         | OrderType.MARKET => None
         | _ => Some (PStr (py_format_f price))
         end
    /\ assoc "timeInForce" api_params
       = match order_type with
         | OrderType.LIMIT => Some (PStr "GTC")
         | _ => None
         end.
Proof.
  intros Hc Hd run. subst run. rewrite _place_order_run by done.
  eexists _, _. split; [reflexivity|]. cbn [params place_order_request request_to url method is_auth_required].
  split_and!; try reflexivity; by destruct order_type.
Qed.

(** X5.  A placement that fails leaves nothing behind but the request: an
    exception of the request is raised unchanged, and a response without
    "orderId" or "transactTime", or whose "transactTime" is no integer,
    raises the error of that lookup or conversion. *)
Theorem place_order_failures (order_id trading_pair : string) (amount : Qc)
    (trade_type : TradeType.t) (order_type : OrderType.t) (price : Qc) (s : Exchange) :
  cancel_at s = None ->
  _domain s = CONSTANTS.DEFAULT_DOMAIN ->
  let req := place_order_request order_id trading_pair amount trade_type order_type price in
  let reply := rest_assistant s (trace s) req in
  let run := OurbitExchange._place_order order_id trading_pair amount trade_type
               order_type price s in
  (forall e, reply = Err e -> run = (Raises (Raised e), sent req s))
  /\ (forall d, reply = Ok (PDict d) -> assoc "orderId" d = None ->
        run = (Raises (Raised (KeyError "orderId")), sent req s))
  /\ (forall d orderId, reply = Ok (PDict d) -> assoc "orderId" d = Some orderId ->
        assoc "transactTime" d = None ->
        run = (Raises (Raised (KeyError "transactTime")), sent req s))
  /\ (forall d orderId transactTime e, reply = Ok (PDict d) ->
        assoc "orderId" d = Some orderId ->
        assoc "transactTime" d = Some transactTime ->
        py_int transactTime = Err e ->
        run = (Raises (Raised e), sent req s)).
Proof.
  intros Hc Hd req reply run. subst run reply. rewrite _place_order_run by done.
  fold req. split_and!.
  - by intros e ->.
  - intros d -> Hid. simpl. by rewrite Hid.
  - intros d orderId -> Hid Ht. simpl. by rewrite Hid, Ht.
  - intros d orderId transactTime e -> Hid Ht Hms. cbn [res_bind].
    rewrite (getitem_dict _ _ _ Hid). cbn [res_bind].
    rewrite (getitem_dict _ _ _ Ht). cbn [res_bind]. by rewrite Hms.
Qed.

(** X6.  [_place_cancel] names the order to the venue in exactly one way:
    by its exchange order id when it has a non-empty one, by its client
    order id otherwise.  The request is a DELETE on the order path, and it
    is the first thing the call does. *)
Theorem place_cancel_request_parameters (order_id : string) (tracked_order : InFlightOrder)
    (s : Exchange) :
  cancel_at s = None ->
  _domain s = CONSTANTS.DEFAULT_DOMAIN ->
  let run := OurbitExchange._place_cancel order_id tracked_order s in
  exists req api_params rest,
    trace run.2 = trace s ++ Rest req :: rest
    /\ Forall (fun e => is_tracker_call e = true) rest
    /\ url req = "https://api.ourbit.com/api/v3/order"
    /\ method req = RESTMethod.DELETE
    /\ params req = Some api_params
    /\ assoc "symbol" api_params = Some (PStr (str_remove "-" (trading_pair tracked_order)))
    /\ (forall eid, exchange_order_id tracked_order = Some eid -> eid <> "" ->
          assoc "orderId" api_params = Some (PStr eid)
          /\ assoc "origClientOrderId" api_params = None)
    /\ (exchange_order_id tracked_order = None \/ exchange_order_id tracked_order = Some "" ->
          assoc "orderId" api_params = None
          /\ assoc "origClientOrderId" api_params
             = Some (PStr (client_order_id tracked_order))).
Proof.
  intros Hc Hd run.
  assert (exists rest, trace run.2 = trace s ++ Rest (cancel_request tracked_order) :: rest
                       /\ Forall (fun e => is_tracker_call e = true) rest)
    as (rest & Htrace & Hrest).
  { subst run. unfold OurbitExchange._place_cancel.
    unfold bind at 1. rewrite _api_request_run by done.
    change (request_to _ _ _ _) with (cancel_request tracked_order).
    destruct (rest_assistant s (trace s) (cancel_request tracked_order)) as [cancel_result|e].
    - destruct (OurbitExchange.cancel_acknowledged cancel_result).
      + eexists [_]. split.
        * unfold bind, get_state. rewrite call_tracker_run. simpl.
          by rewrite <- app_assoc.
        * by repeat constructor.
      + eexists [_]. split.
        * unfold bind. rewrite await_uncancelled by done. rewrite call_tracker_run. simpl.
          by rewrite <- app_assoc.
        * by repeat constructor.
    - by exists []. }
  eexists _, _, rest. split; [exact Htrace|]. split; [exact Hrest|].
  cbn [params cancel_request request_to url method].
  split_and!; try reflexivity.
  - intros eid -> Hne. apply String.eqb_neq in Hne. by rewrite Hne.
  - by intros [-> | ->].
Qed.

End RequestProperties.

Lemma api_request_sends_one_request_witness :
  let s := Scenario.connector (Scenario.tracking Scenario.pending_order)
             (Ok Scenario.account_snapshot) in
  exists req,
    OurbitExchange._api_request CONSTANTS.MY_TRADES_PATH_URL RESTMethod.GET None true
      (Some "") s
    = (Returns Scenario.account_snapshot, sent req s)
    /\ url req = "https://api.ourbit.com/api/v3/myTrades"
    /\ throttler_limit_id req = "/api/v3/myTrades".
Proof.
  intros s.
  destruct (proj1 (api_request_sends_one_request CONSTANTS.MY_TRADES_PATH_URL
                     RESTMethod.GET None true (Some "") s eq_refl) eq_refl)
    as (req & Hrun & Hurl & _ & _ & _ & Hlimit & _).
  exists req. split; [exact Hrun|]. split; [exact Hurl|].
  apply Hlimit. by right.
Defined.

Lemma place_order_request_parameters_witness :
  let s := Scenario.connector (Scenario.tracking Scenario.pending_order)
             Scenario.unreachable in
  let run := OurbitExchange._place_order (H:=Reference.builtins) "OURBIT_3" "BTC-USDT"
               (Q2Qc 2) TradeType.SELL OrderType.MARKET (Q2Qc 30000) s in
  exists req api_params,
    trace run.2 = [Rest req]
    /\ params req = Some api_params
    /\ assoc "symbol" api_params = Some (PStr "BTCUSDT")
    /\ assoc "side" api_params = Some (PStr "SELL")
    /\ assoc "type" api_params = Some (PStr "MARKET")
    /\ assoc "price" api_params = None
    /\ assoc "timeInForce" api_params = None.
Proof.
  intros s run.
  destruct (place_order_request_parameters (H:=Reference.builtins) "OURBIT_3" "BTC-USDT"
              (Q2Qc 2) TradeType.SELL OrderType.MARKET (Q2Qc 30000) s eq_refl eq_refl)
    as (req & api_params & Htrace & _ & _ & _ & Hparams & Hsymbol & Hside & _ & Htype
        & _ & Hprice & Htif).
  exists req, api_params. split_and!; assumption.
Defined.

Lemma place_order_failures_witness :
  let s := Scenario.connector (Scenario.tracking Scenario.pending_order)
             (Ok Examples.order_rejected) in
  let req := place_order_request (H:=Reference.builtins) "OURBIT_3" "BTC-USDT" (Q2Qc 2)
               TradeType.BUY OrderType.LIMIT (Q2Qc 30000) in
  OurbitExchange._place_order (H:=Reference.builtins) "OURBIT_3" "BTC-USDT" (Q2Qc 2)
    TradeType.BUY OrderType.LIMIT (Q2Qc 30000) s
  = (Raises (Raised (KeyError "orderId")), sent req s).
Proof.
  intros s req.
  destruct (place_order_failures (H:=Reference.builtins) "OURBIT_3" "BTC-USDT" (Q2Qc 2)
              TradeType.BUY OrderType.LIMIT (Q2Qc 30000) s eq_refl eq_refl)
    as (_ & Hid & _).
  exact (Hid _ eq_refl eq_refl).
Defined.

Lemma place_cancel_request_parameters_witness :
  let s := Scenario.connector (Scenario.tracking Scenario.pending_order)
             (Ok Scenario.cancel_accepted) in
  let run := OurbitExchange._place_cancel "OURBIT_1" Scenario.pending_order s in
  exists req api_params rest,
    trace run.2 = Rest req :: rest
    /\ params req = Some api_params
    /\ assoc "orderId" api_params = None
    /\ assoc "origClientOrderId" api_params = Some (PStr "OURBIT_1").
Proof.
  intros s run.
  destruct (place_cancel_request_parameters "OURBIT_1" Scenario.pending_order s
              eq_refl eq_refl)
    as (req & api_params & rest & Htrace & _ & _ & _ & Hparams & _ & _ & Hclient).
  destruct (Hclient (or_introl eq_refl)) as [Hno Hyes].
  exists req, api_params, rest. split_and!; assumption.
Defined.

(** *** The fill backfill *)

Section BackfillRuns.
Context `{PyBuiltins}.

Lemma trade_update_of_run (order : InFlightOrder) (trade : pyval) (s : Exchange) :
  OurbitExchange.trade_update_of order (trading_pair order) trade s
  = (outcome_of (let? r := read_trade trade in
                 Ok (backfilled_fill (trade_fee_schema s) order r)), s).
Proof.
  unfold OurbitExchange.trade_update_of, read_trade, bind, eval, ret, raise, get_state,
    outcome_of, res_bind.
  repeat (case_match; simplify_eq; try done).
Qed.

Lemma collect_reads (order : InFlightOrder) (trades : list pyval) (rs : list Fill)
    (s : Exchange) :
  Forall2 (fun trade r => read_trade trade = Ok r) trades rs ->
  OurbitExchange.collect (OurbitExchange.trade_update_of order (trading_pair order)) trades s
  = (Returns (map (backfilled_fill (trade_fee_schema s) order) rs), s).
Proof.
  induction 1 as [|trade r trades rs Hr _ IH]; [done|].
  cbn [OurbitExchange.collect]. unfold bind at 1.
  rewrite trade_update_of_run, Hr. cbn [res_bind outcome_of].
  unfold bind at 1. by rewrite IH.
Qed.

Lemma collect_fails (order : InFlightOrder) (pre post : list pyval) (trade : pyval)
    (e : Exception) (s : Exchange) :
  Forall (fun t => exists r, read_trade t = Ok r) pre ->
  read_trade trade = Err e ->
  OurbitExchange.collect (OurbitExchange.trade_update_of order (trading_pair order))
    (pre ++ trade :: post) s
  = (Raises (Raised e), s).
Proof.
  intros Hpre He. induction Hpre as [|t pre [r Hr] _ IH].
  - cbn [app OurbitExchange.collect]. unfold bind at 1.
    by rewrite trade_update_of_run, He.
  - cbn [app OurbitExchange.collect]. unfold bind at 1.
    rewrite trade_update_of_run, Hr. cbn [res_bind outcome_of].
    unfold bind at 1. by rewrite IH.
Qed.

(** X7.  An order whose exchange order id does not read as an integer
    cannot be backfilled: [_all_trade_updates_for_order] raises the error
    of [int] before any request is sent, and the connector is left as it
    was. *)
Theorem backfill_with_unreadable_exchange_id (order : InFlightOrder) (s : Exchange)
    (eid : string) (e : Exception) :
  exchange_order_id order = Some eid ->
  py_int (PStr eid) = Err e ->
  OurbitExchange._all_trade_updates_for_order order s = (Raises (Raised e), s).
Proof.
  intros Heid He. unfold OurbitExchange._all_trade_updates_for_order.
  rewrite Heid. unfold bind. by rewrite eval_run, He.
Qed.

(** X8.  The backfill of an order with a numeric exchange order id sends
    one request for the order's trades and is all or nothing: when every
    trade of the response reads well it returns one trade update per
    trade, in the order of the response (a response that is no list counts
    as a single trade); when the request fails, or some trade does not
    read, it raises that error and returns no update at all.  In every
    case the connector changes by the recorded request only. *)
Theorem backfill_is_all_or_nothing (order : InFlightOrder) (s : Exchange)
    (eid : string) (n : Z) :
  cancel_at s = None ->
  _domain s = CONSTANTS.DEFAULT_DOMAIN ->
  exchange_order_id order = Some eid ->
  py_int (PStr eid) = Ok n ->
  let reply := rest_assistant s (trace s) (fills_request order n) in
  let run := OurbitExchange._all_trade_updates_for_order order s in
  (forall all_fills_response rs,
     reply = Ok all_fills_response ->
     Forall2 (fun trade r => read_trade trade = Ok r) (fills_of all_fills_response) rs ->
     run = (Returns (map (backfilled_fill (trade_fee_schema s) order) rs),
            sent (fills_request order n) s))
  /\ (forall all_fills_response pre trade post e,
        reply = Ok all_fills_response ->
        fills_of all_fills_response = pre ++ trade :: post ->
        Forall (fun t => exists r, read_trade t = Ok r) pre ->
        read_trade trade = Err e ->
        run = (Raises (Raised e), sent (fills_request order n) s))
  /\ (forall e, reply = Err e ->
        run = (Raises (Raised e), sent (fills_request order n) s)).
Proof.
  intros Hc Hd Heid Hn reply run.
  assert (run = (let* all_fills_response :=
                   (fun _ => (outcome_of reply, sent (fills_request order n) s))
                 in OurbitExchange.collect
                      (OurbitExchange.trade_update_of order (trading_pair order))
                      (fills_of all_fills_response)) s) as ->.
  { subst run. unfold OurbitExchange._all_trade_updates_for_order. rewrite Heid.
    unfold bind at 1. rewrite eval_run, Hn.
    unfold bind at 1. rewrite _api_request_run by done. reflexivity. }
  split_and!.
  - intros resp rs Hreply Hrs. unfold bind. rewrite Hreply. cbn [outcome_of].
    by rewrite (collect_reads _ _ rs).
  - intros resp pre trade post e Hreply Hfills Hpre He. unfold bind.
    rewrite Hreply. cbn [outcome_of]. rewrite Hfills. by apply collect_fails.
  - intros e Hreply. unfold bind. by rewrite Hreply.
Qed.

(** X9.  Every trade update the backfill returns is consistent with the
    order it was asked about: it carries the order's client order id and
    trading pair, its fee is on the order's side, charged in the token the
    fee is a percentage of, and its quote amount is its price times its
    base amount. *)
Theorem backfill_updates_are_consistent (order : InFlightOrder) (s s' : Exchange)
    (tus : list TradeUpdate) :
  OurbitExchange._all_trade_updates_for_order order s = (Returns tus, s') ->
  Forall (fun tu =>
            tu_client_order_id tu = client_order_id order
            /\ tu_trading_pair tu = trading_pair order
            /\ fee_trade_type (fee tu) = trade_type order
            /\ percent_token (fee tu) = head (map token (flat_fees (fee tu)))
            /\ fill_quote_amount tu = (fill_price tu * fill_base_amount tu)%Qc) tus.
Proof.
  unfold OurbitExchange._all_trade_updates_for_order.
  destruct (exchange_order_id order) as [eid|]; [|by intros [= <- _]].
  unfold bind at 1. rewrite eval_run. destruct (py_int (PStr eid)) as [n|]; [|done].
  unfold bind at 1.
  match goal with |- context [OurbitExchange._api_request ?p ?m ?ps ?a ?l s] =>
    destruct (OurbitExchange._api_request p m ps a l s) as [[resp|r] s1] end; [|done].
  change (match resp with PList l => l | _ => [resp] end) with (fills_of resp).
  generalize (fills_of resp). clear. intros trades. revert tus.
  induction trades as [|trade trades IH]; intros tus; [by intros [= <- _]|].
  cbn [OurbitExchange.collect]. unfold bind at 1. rewrite trade_update_of_run.
  destruct (read_trade trade) as [r|]; [|done]. cbn [res_bind outcome_of].
  unfold bind at 1.
  destruct (OurbitExchange.collect _ trades s1) as [[tus'|] s2]; [|done].
  unfold ret. intros [= <- <-]. constructor; [by repeat split|]. by apply IH.
Qed.

End BackfillRuns.

Lemma backfill_with_unreadable_exchange_id_witness :
  let s := Scenario.connector (Scenario.tracking Examples.foreign_order)
             (Ok (PList [Examples.listed_trade])) in
  OurbitExchange._all_trade_updates_for_order (H:=Reference.builtins) Examples.foreign_order s
  = (Raises (Raised (Reference.ValueError "invalid literal for int() with base 10")), s).
Proof.
  intros s.
  exact (backfill_with_unreadable_exchange_id (H:=Reference.builtins)
           Examples.foreign_order s "C02__4242" _ eq_refl eq_refl).
Defined.

Lemma backfill_is_all_or_nothing_witness :
  let good := Scenario.connector (Scenario.tracking Scenario.filled_order)
                (Ok Examples.listed_trade) in
  let bad := Scenario.connector (Scenario.tracking Scenario.filled_order)
               (Ok (PList [Examples.listed_trade; Examples.unpriced_trade])) in
  OurbitExchange._all_trade_updates_for_order (H:=Reference.builtins)
    Scenario.filled_order good
  = (Returns [backfilled_fill (H:=Reference.builtins) Reference.DEFAULT_FEES
                Scenario.filled_order Examples.fill_77],
     sent (fills_request Scenario.filled_order 4242) good)
  /\ OurbitExchange._all_trade_updates_for_order (H:=Reference.builtins)
       Scenario.filled_order bad
     = (Raises (Raised (KeyError "price")),
        sent (fills_request Scenario.filled_order 4242) bad).
Proof.
  intros good bad. split.
  - refine (proj1 (backfill_is_all_or_nothing (H:=Reference.builtins)
                     Scenario.filled_order good "4242" 4242 eq_refl eq_refl eq_refl eq_refl)
              Examples.listed_trade [Examples.fill_77] eq_refl _).
    repeat constructor.
  - refine (proj1 (proj2 (backfill_is_all_or_nothing (H:=Reference.builtins)
                            Scenario.filled_order bad "4242" 4242
                            eq_refl eq_refl eq_refl eq_refl))
              _ [Examples.listed_trade] Examples.unpriced_trade [] _ eq_refl eq_refl _ eq_refl).
    repeat constructor. by exists Examples.fill_77.
Defined.

Lemma backfill_updates_are_consistent_witness :
  let s := Scenario.connector (Scenario.tracking Scenario.filled_order)
             (Ok (PList [Examples.listed_trade])) in
  let tu := backfilled_fill (H:=Reference.builtins) Reference.DEFAULT_FEES
              Scenario.filled_order Examples.fill_77 in
  tu_client_order_id tu = "OURBIT_1"
  /\ tu_trading_pair tu = "BTC-USDT"
  /\ fill_quote_amount tu = (fill_price tu * fill_base_amount tu)%Qc.
Proof.
  intros s tu.
  pose proof (backfill_updates_are_consistent (H:=Reference.builtins)
                Scenario.filled_order s
                (sent (fills_request Scenario.filled_order 4242) s) [tu] eq_refl) as Hall.
  apply Forall_inv in Hall. destruct Hall as (Hcid & Hpair & _ & _ & Hquote).
  split_and!; assumption.
Defined.

(** *** The full balance resync, when it fails *)

Section ResyncFailures.
Context `{PyBuiltins}.

Lemma store_balances_unreadable (entry : pyval) (entries : list pyval)
    (remote : gset pykey) (s : Exchange) :
  reading "asset" "free" "locked" entry = None ->
  exists e, OurbitExchange.store_balances (entry :: entries) remote s
            = (Raises (Raised e), s).
Proof.
  unfold reading. cbn [OurbitExchange.store_balances].
  unfold bind, eval, ret, raise. intros Hr.
  repeat (case_match; simplify_eq; eauto).
Qed.

Lemma store_balances_stops (pre post : list pyval) (bad : pyval)
    (rs : list (pykey * Qc * Qc)) (remote : gset pykey) (s : Exchange) :
  Forall2 (fun entry r => reading "asset" "free" "locked" entry = Some r) pre rs ->
  reading "asset" "free" "locked" bad = None ->
  exists e,
    OurbitExchange.store_balances (pre ++ bad :: post) remote s
    = (Raises (Raised e),
       set_balances (assigned free_of rs (_account_available_balances s))
                    (assigned total_of rs (_account_balances s)) s).
Proof.
  intros Hpre Hbad. revert remote s.
  induction Hpre as [|entry [[k free] locked] pre rs Hr Hpre IH]; intros remote s.
  - destruct (store_balances_unreadable bad post remote s Hbad) as [e He].
    exists e. change ([] ++ bad :: post) with (bad :: post). rewrite He. by destruct s.
  - cbn [app OurbitExchange.store_balances]. unfold reading in Hr. unfold bind.
    rewrite ?eval_run.
    destruct (py_getitem entry "asset") as [a|]; [|done]. simpl.
    rewrite ?eval_run.
    destruct (py_getitem entry "free") as [f|]; [|done]. simpl.
    destruct (py_getitem entry "locked") as [l|]; [|done]. simpl.
    destruct (to_key a) as [k0|]; [|done].
    destruct (OurbitExchange.Decimal_str f) as [free0|] eqn:Hf; [|done].
    destruct (OurbitExchange.Decimal_str l) as [locked0|] eqn:Hl; [|done].
    injection Hr as -> -> ->.
    rewrite ?eval_run, ?Hf, ?Hl. simpl. rewrite ?eval_run, ?Hf, ?Hl. simpl.
    destruct (IH ({[k]} ∪ remote)
                (set_balances (<[k := free]> (_account_available_balances s))
                   (<[k := (free + locked)%Qc]> (_account_balances s)) s)) as [e He].
    exists e. by rewrite He.
Qed.

(** X10.  When the account request fails, or its response has no
    "balances" or one that cannot be iterated, [_update_balances] raises
    that error and both balance dictionaries are as before: the connector
    changed by the recorded request only. *)
Theorem update_balances_failed_request_changes_nothing (s : Exchange) :
  cancel_at s = None ->
  _domain s = CONSTANTS.DEFAULT_DOMAIN ->
  let reply := rest_assistant s (trace s) account_request in
  let run := OurbitExchange._update_balances s in
  (forall e, reply = Err e -> run = (Raises (Raised e), sent account_request s))
  /\ (forall account_info e,
        reply = Ok account_info ->
        py_getitem account_info "balances" = Err e ->
        run = (Raises (Raised e), sent account_request s))
  /\ (forall account_info balances e,
        reply = Ok account_info ->
        py_getitem account_info "balances" = Ok balances ->
        py_iter balances = Err e ->
        run = (Raises (Raised e), sent account_request s)).
Proof.
  intros Hc Hd reply run.
  assert (run = (let* account_info := (fun _ => (outcome_of reply, sent account_request s)) in
                 let* balances := eval (py_getitem account_info "balances") in
                 let* entries := eval (py_iter balances) in
                 let* remote_asset_names := OurbitExchange.store_balances entries ∅ in
                 for_each (elements (dom (_account_balances s) ∖ remote_asset_names))
                   OurbitExchange.remove_asset) s) as ->.
  { subst run. unfold OurbitExchange._update_balances, bind at 1, get_state.
    unfold bind at 1. rewrite _api_request_run by done. reflexivity. }
  split_and!.
  - intros e Hreply. unfold bind. by rewrite Hreply.
  - intros account_info e Hreply Hbal. unfold bind at 1. rewrite Hreply. cbn [outcome_of].
    unfold bind. by rewrite eval_run, Hbal.
  - intros account_info balances e Hreply Hbal Hit. unfold bind at 1.
    rewrite Hreply. cbn [outcome_of].
    unfold bind at 1. rewrite eval_run, Hbal.
    unfold bind. by rewrite eval_run, Hit.
Qed.

(** X11.  The full resync is not atomic.  When an entry of the response
    does not read, [_update_balances] raises at that entry: the entries
    before it are stored in both dictionaries, the entries after it are
    not looked at, and no asset is removed. *)
Theorem update_balances_stops_at_unreadable_entry (account_info balances bad : pyval)
    (pre post : list pyval) (rs : list (pykey * Qc * Qc)) (s : Exchange) :
  cancel_at s = None ->
  _domain s = CONSTANTS.DEFAULT_DOMAIN ->
  rest_assistant s (trace s) account_request = Ok account_info ->
  py_getitem account_info "balances" = Ok balances ->
  py_iter balances = Ok (pre ++ bad :: post) ->
  Forall2 (fun entry r => reading "asset" "free" "locked" entry = Some r) pre rs ->
  reading "asset" "free" "locked" bad = None ->
  exists e,
    OurbitExchange._update_balances s
    = (Raises (Raised e),
       set_balances (assigned free_of rs (_account_available_balances s))
                    (assigned total_of rs (_account_balances s))
         (sent account_request s)).
Proof.
  intros Hc Hd Hreply Hbal Hit Hpre Hbad.
  destruct (store_balances_stops pre post bad rs ∅ (sent account_request s) Hpre Hbad)
    as [e He].
  exists e. unfold OurbitExchange._update_balances, bind at 1, get_state.
  unfold bind at 1. rewrite _api_request_run by done.
  fold account_request. rewrite Hreply.
  unfold bind at 1. rewrite eval_run, Hbal.
  unfold bind at 1. rewrite eval_run, Hit.
  unfold bind at 1. fold (sent account_request s). by rewrite He.
Qed.

(** X12.  The free and the total balance dictionary hold the same assets
    at all times: if they do before the listener processes a queue of
    events, or before a full resync, they do afterwards, whether or not
    the run ended with an error or was cancelled. *)
Theorem balance_dictionaries_hold_the_same_assets (queue : list pyval) (s : Exchange) :
  balances_agree s ->
  balances_agree (OurbitExchange._user_stream_event_listener queue s).2
  /\ balances_agree (OurbitExchange._update_balances s).2.
Proof.
  intros Hs. split.
  - by apply agreement_listener.
  - by apply agreement_update_balances.
Qed.

End ResyncFailures.

Lemma update_balances_failed_request_changes_nothing_witness :
  let s := set_balances Scenario.held Scenario.held
             (Scenario.connector (Scenario.tracking Scenario.pending_order)
                Scenario.unreachable) in
  let run := OurbitExchange._update_balances (H:=Reference.builtins) s in
  run.1 = Raises (Raised (mkException "OSError" "Cannot connect to host api.ourbit.com:443"))
  /\ _account_available_balances run.2 = Scenario.held
  /\ _account_balances run.2 = Scenario.held.
Proof.
  intros s run.
  destruct (update_balances_failed_request_changes_nothing (H:=Reference.builtins) s
              eq_refl eq_refl) as (Herr & _).
  subst run. rewrite (Herr _ eq_refl). by split_and!.
Defined.

Lemma update_balances_stops_at_unreadable_entry_witness :
  let s := set_balances Scenario.held Scenario.held
             (Scenario.connector (Scenario.tracking Scenario.pending_order)
                (Ok Examples.broken_snapshot)) in
  let run := OurbitExchange._update_balances (H:=Reference.builtins) s in
  exists e,
    run.1 = Raises (Raised e)
    /\ _account_available_balances run.2 = <[KStr "BTC" := Q2Qc (1 # 1)]> Scenario.held
    /\ _account_balances run.2
       = <[KStr "BTC" := (Q2Qc (1 # 1) + Q2Qc (5 # 10))%Qc]> Scenario.held.
Proof.
  intros s run.
  destruct (update_balances_stops_at_unreadable_entry (H:=Reference.builtins)
              Examples.broken_snapshot
              (PList [Scenario.BTC_entry "asset" "free" "locked";
                      PDict [("asset", PStr "ETH")];
                      PDict [("asset", PStr "USDT"); ("free", PStr "7");
                             ("locked", PStr "0")]])
              (PDict [("asset", PStr "ETH")])
              [Scenario.BTC_entry "asset" "free" "locked"]
              [PDict [("asset", PStr "USDT"); ("free", PStr "7"); ("locked", PStr "0")]]
              [Scenario.BTC_reading] s eq_refl eq_refl eq_refl eq_refl eq_refl)
    as [e He].
  { repeat constructor. }
  { reflexivity. }
  exists e. subst run. rewrite He. by split_and!.
Defined.

Lemma balance_dictionaries_hold_the_same_assets_witness :
  let s := Scenario.connector (Scenario.tracking Scenario.pending_order)
             (Ok Scenario.account_snapshot) in
  balances_agree
    (OurbitExchange._user_stream_event_listener (H:=Reference.builtins)
       [Scenario.position_event; Scenario.unknown_status_report] s).2
  /\ balances_agree (OurbitExchange._update_balances (H:=Reference.builtins) s).2.
Proof.
  intros s.
  exact (balance_dictionaries_hold_the_same_assets (H:=Reference.builtins)
           [Scenario.position_event; Scenario.unknown_status_report] s eq_refl).
Defined.

(** *** What a coroutine leaves alone *)

Section Frames.
Context (R : Exchange -> Exchange -> Prop) `{!Frame R}.

Lemma preserves_ret {A} (a : A) : preserves R (ret a).
Proof. intros s. apply frame_refl. Qed.

Lemma preserves_raise {A} (r : raised) : preserves R (raise (A:=A) r).
Proof. intros s. apply frame_refl. Qed.

Lemma preserves_eval {A} (r : res A) : preserves R (eval r).
Proof. intros s. rewrite eval_run. apply frame_refl. Qed.

Lemma preserves_get_state : preserves R get_state.
Proof. intros s. apply frame_refl. Qed.

Lemma preserves_modify (f : Exchange -> Exchange) :
  (forall s, R s (f s)) -> preserves R (modify f).
Proof. intros Hf s. apply Hf. Qed.

Lemma preserves_bind {A B} (m : M A) (f : A -> M B) :
  preserves R m -> (forall a, preserves R (f a)) -> preserves R (bind m f).
Proof.
  intros Hm Hf s. unfold bind. specialize (Hm s).
  destruct (m s) as [[a|r] s1]; [|done].
  eapply frame_trans; [exact Hm|]. apply Hf.
Qed.

Lemma preserves_await {A} (m : M A) : preserves R m -> preserves R (await m).
Proof.
  intros Hm s. unfold await. destruct (cancel_at s) as [[|k]|].
  - apply frame_cancel.
  - eapply frame_trans; [apply (frame_cancel (Some k))|]. apply Hm.
  - apply Hm.
Qed.

Lemma preserves_try_except {A} (body : M A) (handler : Exception -> M A) :
  preserves R body -> (forall e, preserves R (handler e)) ->
  preserves R (try_except body handler).
Proof.
  intros Hb Hh s. unfold try_except. specialize (Hb s).
  destruct (body s) as [[a|[|e]] s1]; [done..|].
  eapply frame_trans; [exact Hb|]. apply Hh.
Qed.

Lemma preserves_for_each {A} (l : list A) (body : A -> M unit) :
  (forall a, preserves R (body a)) -> preserves R (for_each l body).
Proof.
  intros Hb. induction l as [|a l IH]; [apply preserves_ret|].
  apply preserves_bind; [apply Hb | by intros _].
Qed.

End Frames.

Ltac preserves_step :=
  first
    [ apply preserves_ret; apply _
    | apply preserves_raise; apply _
    | apply preserves_eval; apply _
    | apply preserves_get_state; apply _
    | apply preserves_await; [apply _|]
    | apply preserves_for_each; [apply _|intros ?]
    | apply preserves_try_except; [apply _| |intros ?]
    | apply preserves_bind; [apply _| |intros ?]
    | match goal with
      | |- preserves _ (if ?c then _ else _) => destruct c
      | |- preserves _ (match ?x with _ => _ end) => destruct x
      end ].

#[local] Instance only_tracker_frame : Frame only_tracker.
Proof.
  split.
  - intros s. split_and!; try done. exists []. by rewrite app_nil_r.
  - intros s1 s2 s3 (Ha & Hb & Hc & cs & Ht) (Ha' & Hb' & Hc' & cs' & Ht').
    split_and!; try congruence. exists (cs ++ cs').
    by rewrite Ht', Ht, map_app, app_assoc.
  - intros c s. split_and!; try done. exists []. by rewrite app_nil_r.
Qed.

#[local] Instance only_balances_frame : Frame only_balances.
Proof.
  split.
  - by intros s.
  - intros s1 s2 s3 (? & ? & ?) (? & ? & ?). split_and!; congruence.
  - by intros c s.
Qed.

#[local] Instance no_request_frame : Frame no_request.
Proof.
  split.
  - intros s. exists []. by rewrite app_nil_r.
  - intros s1 s2 s3 (es & Ht & Hes) (es' & Ht' & Hes'). exists (es ++ es').
    split; [by rewrite Ht', Ht, app_assoc | by apply Forall_app].
  - intros c s. exists []. by rewrite app_nil_r.
Qed.

Lemma only_tracker_call (c : tracker_call) : preserves only_tracker (call_tracker c).
Proof.
  intros s. unfold call_tracker, bind, emit, modify. simpl.
  split_and!; try done. by exists [c].
Qed.

Lemma only_tracker_no_request (s s' : Exchange) : only_tracker s s' -> no_request s s'.
Proof.
  intros (_ & _ & _ & cs & Ht). exists (map Tracker cs). split; [done|].
  by apply Forall_forall; intros e (c & -> & _)%list_elem_of_fmap.
Qed.

Section EventFrames.
Context `{PyBuiltins}.

Lemma only_tracker_report_fill (event_message : pyval) (o : InFlightOrder) :
  preserves only_tracker (OurbitExchange.report_fill event_message o).
Proof.
  unfold OurbitExchange.report_fill.
  repeat first [apply only_tracker_call | preserves_step].
Qed.

Lemma only_tracker_report_status (event_message : pyval) (o : InFlightOrder) :
  preserves only_tracker (OurbitExchange.report_status event_message o).
Proof.
  unfold OurbitExchange.report_status.
  repeat first [apply only_tracker_call | preserves_step].
Qed.

Lemma only_balances_patch (balance_entry : pyval) :
  preserves only_balances (OurbitExchange.patch_balance balance_entry).
Proof.
  unfold OurbitExchange.patch_balance.
  repeat first [apply preserves_modify; intros ?; by unfold only_balances
               | preserves_step].
Qed.

(** X13.  The two kinds of push event keep to their own part of the
    connector, however the processing ends.  An [executionReport] leaves
    both balance dictionaries as they are and does nothing but call the
    tracker; an [outboundAccountPosition] leaves every order as it is and
    makes no call at all. *)
Theorem event_kinds_do_not_interfere (event_message : pyval) (s : Exchange) :
  let run := OurbitExchange.process_event event_message s in
  (py_get event_message "e" PNone = Ok (PStr "executionReport") ->
   _account_available_balances run.2 = _account_available_balances s
   /\ _account_balances run.2 = _account_balances s
   /\ exists calls, trace run.2 = trace s ++ map Tracker calls)
  /\ (py_get event_message "e" PNone = Ok (PStr "outboundAccountPosition") ->
      _order_tracker run.2 = _order_tracker s
      /\ trace run.2 = trace s).
Proof.
  intros run. subst run. split.
  - intros He.
    assert (only_tracker s (OurbitExchange.process_event event_message s).2)
      as (Ha & Hb & _ & Ht); [|done].
    unfold OurbitExchange.process_event. unfold bind at 1. rewrite eval_run, He.
    change (py_eq_str (PStr "executionReport") "executionReport") with true. cbv iota.
    match goal with |- only_tracker s (?m s).2 =>
      assert (preserves only_tracker m) as Hp; [|apply Hp] end.
    repeat first [apply only_tracker_report_fill | apply only_tracker_report_status
                 | preserves_step].
  - intros He.
    assert (only_balances s (OurbitExchange.process_event event_message s).2)
      as (Ha & _ & Ht); [|done].
    unfold OurbitExchange.process_event. unfold bind at 1. rewrite eval_run, He.
    change (py_eq_str (PStr "outboundAccountPosition") "executionReport") with false.
    change (py_eq_str (PStr "outboundAccountPosition") "outboundAccountPosition") with true.
    cbv iota.
    match goal with |- only_balances s (?m s).2 =>
      assert (preserves only_balances m) as Hp; [|apply Hp] end.
    repeat first [apply only_balances_patch | preserves_step].
Qed.

Lemma no_request_process_event (event_message : pyval) :
  preserves no_request (OurbitExchange.process_event event_message).
Proof.
  unfold OurbitExchange.process_event.
  apply preserves_bind; [apply _ | apply preserves_eval; apply _|]. intros e.
  destruct (py_eq_str e "executionReport").
  - intros s. apply only_tracker_no_request. revert s.
    change (preserves only_tracker
      (let* execution_type := eval (py_get event_message "X" PNone) in
       let* client_order_id := eval (py_get event_message "C" PNone) in
       let* s := get_state in
       let* tracked_order :=
         eval (TrackerModel.all_fillable_orders_get (_order_tracker s) client_order_id) in
       match tracked_order with
       | Some tracked_order =>
           if py_in_strs execution_type ["PARTIALLY_FILLED"; "FILLED"]
           then OurbitExchange.report_fill event_message tracked_order
           else ret tt
       | None => ret tt
       end ;;;
       let* s := get_state in
       let* tracked_order :=
         eval (TrackerModel.all_updatable_orders_get (_order_tracker s) client_order_id) in
       match tracked_order with
       | Some tracked_order => OurbitExchange.report_status event_message tracked_order
       | None => ret tt
       end)).
    repeat first [apply only_tracker_report_fill | apply only_tracker_report_status
                 | preserves_step].
  - destruct (py_eq_str e "outboundAccountPosition"); [|apply preserves_ret; apply _].
    repeat first [ preserves_step
                 | intros s; destruct (only_balances_patch a s) as (_ & _ & Ht);
                   exists []; by rewrite app_nil_r ].
Qed.

(** X14.  The listener never talks to the venue: whatever the queue holds
    and whenever the task is cancelled, what it records is tracker calls,
    error logs and sleeps, and no request. *)
Theorem listener_sends_no_request (queue : list pyval) (s : Exchange) :
  exists es,
    trace (OurbitExchange._user_stream_event_listener queue s).2 = trace s ++ es
    /\ Forall (fun e => is_request e = false) es.
Proof.
  change (no_request s (OurbitExchange._user_stream_event_listener queue s).2).
  revert s. change (preserves no_request (OurbitExchange._user_stream_event_listener queue)).
  induction queue as [|event_message queue IH].
  - cbn [OurbitExchange._user_stream_event_listener]. repeat preserves_step.
  - cbn [OurbitExchange._user_stream_event_listener].
    apply preserves_bind; [apply _ | repeat preserves_step|]. intros _.
    apply preserves_bind; [apply _ | |by intros _].
    apply preserves_try_except; [apply _ | apply no_request_process_event |]. intros e.
    apply preserves_bind; [apply _ | |].
    + intros s0. exists [LogError "Unexpected error in user stream listener loop."].
      split; [done|]. by repeat constructor.
    + intros _. apply preserves_await; [apply _|]. intros s0.
      exists [Sleep (Q2Qc 5)]. split; [done|]. by repeat constructor.
Qed.

End EventFrames.

(** *** Push events the listener skips, and plain status reports *)

Section EventProperties.
Context `{PyBuiltins}.

(** X15.  An event that is neither an execution report nor an account
    position is skipped without a trace, and an event that is no object
    fails on its first lookup; in both cases the connector is left as it
    was. *)
Theorem events_of_other_types_are_skipped (event_message : pyval) (s : Exchange) :
  (forall e,
     py_get event_message "e" PNone = Ok e ->
     py_eq_str e "executionReport" = false ->
     py_eq_str e "outboundAccountPosition" = false ->
     OurbitExchange.process_event event_message s = (Returns tt, s))
  /\ ((forall d, event_message <> PDict d) ->
      OurbitExchange.process_event event_message s
      = (Raises (Raised (AttributeError
                           ("'" ++ type_name event_message
                            ++ "' object has no attribute 'get'"))), s)).
Proof.
  split.
  - intros e He Hx Hb. unfold OurbitExchange.process_event, bind.
    by rewrite eval_run, He, Hx, Hb.
  - intros Hnd. unfold OurbitExchange.process_event, bind. rewrite eval_run.
    destruct event_message; try done. by destruct (Hnd entries).
Qed.

(** X16.  An execution report for an order that neither view of the
    tracker holds is dropped: nothing is called and nothing fails,
    whatever else the report carries.  A report without a client order id
    "C" is such a report. *)
Theorem execution_report_for_untracked_order_is_dropped (d : list (string * pyval))
    (s : Exchange) :
  assoc "e" d = Some (PStr "executionReport") ->
  let client_order_id := default PNone (assoc "C" d) in
  TrackerModel.all_fillable_orders_get (_order_tracker s) client_order_id = Ok None ->
  TrackerModel.all_updatable_orders_get (_order_tracker s) client_order_id = Ok None ->
  OurbitExchange.process_event (PDict d) s = (Returns tt, s).
Proof.
  intros He cid Hf Hu. unfold OurbitExchange.process_event.
  unfold bind at 1. rewrite eval_run, (get_dict _ _ _ _ He).
  change (py_eq_str (PStr "executionReport") "executionReport") with true. cbv iota.
  unfold bind at 1. rewrite eval_run. cbn [py_get].
  unfold bind at 1. rewrite eval_run. cbn [py_get].
  change (match assoc "C" d with Some x => x | None => PNone end) with cid.
  unfold bind at 1, get_state.
  unfold bind at 1. rewrite eval_run, Hf.
  unfold bind at 1. cbn [ret].
  unfold bind at 1, get_state.
  unfold bind at 1. by rewrite eval_run, Hu.
Qed.

Lemma report_status_mapped (d : list (string * pyval)) (s : Exchange) (o : InFlightOrder)
    (status : pyval) (st : OrderState.t) (vE vi : pyval) (ms : Z) :
  assoc "X" d = Some status ->
  ORDER_STATE_getitem status = Ok st ->
  assoc "E" d = Some vE -> py_int vE = Ok ms ->
  assoc "i" d = Some vi ->
  OurbitExchange.report_status (PDict d) o s
  = (Returns tt, called s (Call_process_order_update (reported_update o ms (py_str vi) st))).
Proof.
  intros HX Hst HE Hms Hi.
  pose proof (ORDER_STATE_never_pending_create _ _ Hst) as Hnot.
  unfold OurbitExchange.report_status.
  unfold bind at 1. rewrite eval_run, (getitem_dict _ _ _ HX).
  unfold bind at 1. rewrite eval_run, Hst.
  assert (OrderState.eqb st OrderState.PENDING_CREATE = false) as ->
    by (by destruct st).
  unfold bind at 1. rewrite eval_run, (getitem_dict _ _ _ HE).
  unfold bind at 1. rewrite eval_run, Hms.
  unfold bind at 1. rewrite eval_run, (getitem_dict _ _ _ Hi).
  by rewrite call_tracker_run.
Qed.

(** X17.  A report that is not a fill, for an updatable order, makes
    exactly one call: the order update to the state its status stands for
    (NEW is OPEN, CANCELED and EXPIRED are CANCELED, PENDING_CANCEL is
    PENDING_CANCEL, REJECTED is FAILED; there is no other such status),
    stamped with the report's time "E" divided by 1000, milliseconds taken
    to seconds, and carrying [str] of the report's exchange order id.  No
    status of the venue is skipped. *)
Theorem status_report_is_passed_to_tracker (d : list (string * pyval)) (s : Exchange)
    (status cid : string) (st : OrderState.t) (o : InFlightOrder) (vE vi : pyval) (ms : Z) :
  assoc "e" d = Some (PStr "executionReport") ->
  assoc "X" d = Some (PStr status) ->
  table_lookup status CONSTANTS.ORDER_STATE = Some st ->
  status <> "PARTIALLY_FILLED" ->
  status <> "FILLED" ->
  assoc "C" d = Some (PStr cid) ->
  cid ∈ updatable (_order_tracker s) ->
  orders (_order_tracker s) !! cid = Some o ->
  assoc "E" d = Some vE -> py_int vE = Ok ms ->
  assoc "i" d = Some vi ->
  OurbitExchange.process_event (PDict d) s
  = (Returns tt,
     called s (Call_process_order_update
                 {| ou_trading_pair := trading_pair o;
                    update_timestamp := Q2Qc (ms # 1000);
                    new_state := st;
                    ou_client_order_id := client_order_id o;
                    ou_exchange_order_id := Some (py_str vi) |}))
  /\ (status, st) ∈ [("NEW", OrderState.OPEN);
                     ("CANCELED", OrderState.CANCELED);
                     ("PENDING_CANCEL", OrderState.PENDING_CANCEL);
                     ("REJECTED", OrderState.FAILED);
                     ("EXPIRED", OrderState.CANCELED)].
Proof.
  intros He HX Hst Hnp Hnf HC Hupd Ho HE Hms Hi.
  split.
  2:{ pose proof (ORDER_STATE_entries _ _ Hst) as Hin.
      apply list_elem_of_In in Hin. apply list_elem_of_In. simpl in *.
      destruct Hin as [Hin|[Hin|[Hin|Hin]]]; [tauto | | | tauto].
      - by injection Hin as <- _.
      - by injection Hin as <- _. }
  assert (py_in_strs (PStr status) ["PARTIALLY_FILLED"; "FILLED"] = false) as Hnofill.
  { simpl. apply String.eqb_neq in Hnp, Hnf. by rewrite Hnp, Hnf. }
  unfold OurbitExchange.process_event.
  unfold bind at 1. rewrite eval_run, (get_dict _ _ _ _ He).
  change (py_eq_str (PStr "executionReport") "executionReport") with true. cbv iota.
  unfold bind at 1. rewrite eval_run, (get_dict _ _ _ _ HX).
  unfold bind at 1. rewrite eval_run, (get_dict _ _ _ _ HC).
  unfold bind at 1, get_state.
  unfold bind at 1. rewrite eval_run. unfold TrackerModel.all_fillable_orders_get.
  rewrite view_get_str, Hnofill.
  assert ((match (if decide (cid ∈ fillable (_order_tracker s))
                  then orders (_order_tracker s) !! cid else None) with
           | Some _ => ret tt
           | None => ret tt
           end) s = (Returns tt, s)) as Hskip by (by repeat case_match).
  unfold bind at 1. rewrite Hskip.
  unfold bind at 1, get_state.
  unfold bind at 1. rewrite eval_run. unfold TrackerModel.all_updatable_orders_get.
  rewrite view_get_str, decide_True, Ho by done.
  apply (report_status_mapped d s o (PStr status) st vE vi ms); try done.
  unfold ORDER_STATE_getitem. simpl to_key. cbv iota. by rewrite Hst.
Qed.

(** X18.  A fill report for a fillable order that is past PENDING_CREATE
    is recorded without an acknowledgment: the listener passes the trade
    update and, when the order is updatable, the status update of the
    report, and no update to OPEN. *)
Theorem fill_report_for_acknowledged_order (d : list (string * pyval)) (s : Exchange)
    (cid : string) (o : InFlightOrder) (filled : bool)
    (vE vi vn vN vt vl vL : pyval) (ms : Z) (fee_amount base price : Qc) :
  cancel_at s = None ->
  assoc "e" d = Some (PStr "executionReport") ->
  assoc "X" d = Some (PStr (if filled then "FILLED" else "PARTIALLY_FILLED")) ->
  assoc "C" d = Some (PStr cid) ->
  cid ∈ fillable (_order_tracker s) ->
  orders (_order_tracker s) !! cid = Some o ->
  current_state o <> OrderState.PENDING_CREATE ->
  assoc "E" d = Some vE -> py_int vE = Ok ms ->
  assoc "i" d = Some vi ->
  assoc "n" d = Some vn -> OurbitExchange.Decimal_str vn = Ok fee_amount ->
  assoc "N" d = Some vN ->
  assoc "t" d = Some vt ->
  assoc "l" d = Some vl -> OurbitExchange.Decimal_str vl = Ok base ->
  assoc "L" d = Some vL -> OurbitExchange.Decimal_str vL = Ok price ->
  let fill := reported_fill (trade_fee_schema s) o ms (py_str vi) (py_str vt)
                fee_amount vN base price in
  let status := reported_update o ms (py_str vi)
                  (if filled then OrderState.FILLED else OrderState.PARTIALLY_FILLED) in
  let run := OurbitExchange.process_event (PDict d) s in
  run.1 = Returns tt
  /\ trace run.2
     = trace s ++ Tracker (Call_process_trade_update fill)
         :: (if decide (cid ∈ updatable (_order_tracker s))
             then [Tracker (Call_process_order_update status)] else [])
  /\ forall ou, Tracker (Call__process_order_update ou) ∉ trace s ->
                Tracker (Call__process_order_update ou) ∉ trace run.2.
Proof.
  intros Hc He HX HC Hfillable Ho Hstate HE Hms Hi Hn Hfee HN Ht Hl Hbase HL Hprice
    fill status run.
  set (calls1 := [Call_process_trade_update fill]).
  assert (OurbitExchange.report_fill (PDict d) o s = (Returns tt, foldl called s calls1))
    as Hfill.
  { rewrite (report_fill_run d s o filled vE vi vn vN vt vl vL ms fee_amount base price)
      by done.
    assert (OrderState.eqb (current_state o) OrderState.PENDING_CREATE = false) as ->
      by (by destruct (current_state o)).
    by rewrite andb_false_r. }
  destruct (called_all_views calls1 s) as [_ Hupd].
  destruct (called_all_identity calls1 s cid o Ho) as (o1 & Ho1 & Hid1 & Hpair1 & _).
  assert (reported_update o1 ms (py_str vi)
            (if filled then OrderState.FILLED else OrderState.PARTIALLY_FILLED) = status)
    as Hstatus by (unfold status, reported_update; by rewrite Hid1, Hpair1).
  assert (run = (Returns tt,
                 foldl called s
                   (calls1 ++ if decide (cid ∈ updatable (_order_tracker s))
                              then [Call_process_order_update status] else []))) as ->.
  { subst run. unfold OurbitExchange.process_event.
    unfold bind at 1. rewrite eval_run, (get_dict _ _ _ _ He).
    change (py_eq_str (PStr "executionReport") "executionReport") with true. cbv iota.
    unfold bind at 1. rewrite eval_run, (get_dict _ _ _ _ HX).
    unfold bind at 1. rewrite eval_run, (get_dict _ _ _ _ HC).
    unfold bind at 1, get_state.
    unfold bind at 1. rewrite eval_run. unfold TrackerModel.all_fillable_orders_get.
    rewrite view_get_str, decide_True, Ho by done.
    assert (py_in_strs (PStr (if filled then "FILLED" else "PARTIALLY_FILLED"))
              ["PARTIALLY_FILLED"; "FILLED"] = true) as -> by by destruct filled.
    unfold bind at 1. rewrite Hfill.
    unfold bind at 1, get_state.
    unfold bind at 1. rewrite eval_run. unfold TrackerModel.all_updatable_orders_get.
    rewrite view_get_str, Hupd, foldl_app.
    destruct (decide (cid ∈ updatable (_order_tracker s))) as [Hin|Hout].
    - rewrite Ho1.
      rewrite (report_status_run d _ o1 filled vE vi ms) by done.
      by rewrite Hstatus.
    - reflexivity. }
  cbn [fst snd]. rewrite called_all_trace.
  assert (map Tracker (calls1 ++ (if decide (cid ∈ updatable (_order_tracker s))
                                  then [Call_process_order_update status] else []))
          = Tracker (Call_process_trade_update fill)
              :: (if decide (cid ∈ updatable (_order_tracker s))
                  then [Tracker (Call_process_order_update status)] else [])) as ->
    by (by case_decide).
  split_and!; [done..|].
  intros ou Hnot Hin. apply elem_of_app in Hin as [Hin|Hin]; [done|].
  apply elem_of_cons in Hin as [Hin|Hin]; [done|].
  case_decide; [|by apply elem_of_nil in Hin].
  by apply list_elem_of_singleton in Hin.
Qed.

End EventProperties.

Lemma execution_report_for_untracked_order_is_dropped_witness :
  let s := Scenario.connector (Scenario.tracking Scenario.pending_order)
             Scenario.unreachable in
  OurbitExchange.process_event (H:=Reference.builtins)
    (Examples.status_report "OURBIT_9" "HALTED") s
  = (Returns tt, s).
Proof.
  intros s.
  assert ("OURBIT_9" ∉ ({["OURBIT_1"]} : gset string)) as Hout
    by (intros Hin; apply elem_of_singleton in Hin; discriminate).
  apply (execution_report_for_untracked_order_is_dropped (H:=Reference.builtins)
           [("e", PStr "executionReport"); ("E", PInt 1700000001800);
            ("C", PStr "OURBIT_9"); ("i", PInt 4242); ("X", PStr "HALTED")] s eq_refl).
  - change (TrackerModel.view_get (fillable (_order_tracker s)) (_order_tracker s)
              (PStr "OURBIT_9") = Ok None).
    rewrite view_get_str. by rewrite decide_False.
  - change (TrackerModel.view_get (updatable (_order_tracker s)) (_order_tracker s)
              (PStr "OURBIT_9") = Ok None).
    rewrite view_get_str. by rewrite decide_False.
Defined.

Lemma status_report_is_passed_to_tracker_witness :
  let s := Scenario.connector (Scenario.tracking Examples.open_order)
             Scenario.unreachable in
  OurbitExchange.process_event (H:=Reference.builtins)
    (Examples.status_report "OURBIT_1" "EXPIRED") s
  = (Returns tt,
     called s (Call_process_order_update
                 {| ou_trading_pair := "BTC-USDT";
                    update_timestamp := Q2Qc (1700000001800 # 1000);
                    new_state := OrderState.CANCELED;
                    ou_client_order_id := "OURBIT_1";
                    ou_exchange_order_id := Some "4242" |})).
Proof.
  intros s.
  assert ("OURBIT_1" ∈ ({["OURBIT_1"]} : gset string)) as Hin
    by (apply elem_of_singleton; reflexivity).
  refine (proj1 (status_report_is_passed_to_tracker (H:=Reference.builtins)
           [("e", PStr "executionReport"); ("E", PInt 1700000001800);
            ("C", PStr "OURBIT_1"); ("i", PInt 4242); ("X", PStr "EXPIRED")] s
           "EXPIRED" "OURBIT_1" OrderState.CANCELED Examples.open_order
           (PInt 1700000001800) (PInt 4242) 1700000001800
           eq_refl eq_refl eq_refl ltac:(discriminate) ltac:(discriminate) eq_refl Hin
           eq_refl eq_refl eq_refl eq_refl)).
Defined.

Lemma fill_report_for_acknowledged_order_witness :
  let s := Scenario.connector (Scenario.tracking Examples.open_order)
             Scenario.unreachable in
  let run := OurbitExchange.process_event (H:=Reference.builtins)
               (Scenario.fill_report "FILLED") s in
  run.1 = Returns tt
  /\ trace run.2
     = [Tracker (Call_process_trade_update
                   (reported_fill Reference.DEFAULT_FEES Examples.open_order 1700000001800
                      "4242" "77" (Q2Qc (1 # 100)) (PStr "USDT") (Q2Qc (5 # 10))
                      (Q2Qc (30000 # 1))));
        Tracker (Call_process_order_update
                   (reported_update Examples.open_order 1700000001800 "4242"
                      OrderState.FILLED))].
Proof.
  intros s run.
  assert ("OURBIT_1" ∈ ({["OURBIT_1"]} : gset string)) as Hin
    by (apply elem_of_singleton; reflexivity).
  destruct (fill_report_for_acknowledged_order (H:=Reference.builtins)
              [("e", PStr "executionReport"); ("E", PInt 1700000001800);
               ("C", PStr "OURBIT_1"); ("i", PInt 4242); ("X", PStr "FILLED");
               ("t", PInt 77); ("l", PStr "0.5"); ("L", PStr "30000");
               ("n", PStr "0.01"); ("N", PStr "USDT")]
              s "OURBIT_1" Examples.open_order true
              (PInt 1700000001800) (PInt 4242) (PStr "0.01") (PStr "USDT") (PInt 77)
              (PStr "0.5") (PStr "30000") 1700000001800
              (Q2Qc (1 # 100)) (Q2Qc (5 # 10)) (Q2Qc (30000 # 1))
              eq_refl eq_refl eq_refl eq_refl Hin eq_refl ltac:(discriminate)
              eq_refl eq_refl eq_refl eq_refl eq_refl eq_refl eq_refl eq_refl eq_refl
              eq_refl eq_refl)
    as (Hret & Htrace & _).
  split; [exact Hret|]. subst run. unfold Scenario.fill_report. rewrite Htrace.
  cbn [trace Scenario.connector app]. by rewrite decide_True.
Defined.

(** *** Trading rules and the last traded price *)

Section MarketDataProperties.
Context `{PyBuiltins}.

Lemma select_rules_objects (pairs : list string) (items : list pyval) :
  Forall is_object items ->
  OurbitExchange.select_rules (Some pairs) items = Ok (List.filter (listed pairs) items).
Proof.
  induction 1 as [|item items [d ->] _ IH]; [done|].
  cbn [OurbitExchange.select_rules List.filter]. unfold listed at 1.
  cbn [py_get res_bind]. rewrite IH. cbn [res_bind]. by case_match.
Qed.

Lemma parsed_rules_cons (rule : pyval) (rules : list pyval) :
  parsed_rules (rule :: rules)
  = match OurbitExchange.parse_trading_rule rule with
    | Ok r => r :: parsed_rules rules
    | Err _ => parsed_rules rules
    end.
Proof.
  unfold parsed_rules. simpl. by destruct (OurbitExchange.parse_trading_rule rule).
Qed.

Lemma rule_errors_cons (d : list (string * pyval)) (rules : list pyval) :
  rule_errors (PDict d :: rules)
  = match OurbitExchange.parse_trading_rule (PDict d) with
    | Ok _ => rule_errors rules
    | Err e =>
        OurbitExchange.rule_error_message (default PNone (assoc "symbol" d)) e
          :: rule_errors rules
    end.
Proof.
  unfold rule_errors. simpl. destruct (OurbitExchange.parse_trading_rule (PDict d)); [done|].
  by destruct (assoc "symbol" d).
Qed.

Lemma format_rules_run (rules : list pyval) (s : Exchange) :
  Forall is_object rules ->
  OurbitExchange.format_rules rules s
  = (Returns (parsed_rules rules), set_trace (trace s ++ map LogError (rule_errors rules)) s).
Proof.
  intros Hobj. revert s. induction Hobj as [|rule rules [d ->] _ IH]; intros s.
  - cbn. rewrite app_nil_r. by destruct s.
  - cbn [OurbitExchange.format_rules]. unfold bind at 1, try_except.
    unfold bind at 1. rewrite eval_run.
    rewrite parsed_rules_cons, rule_errors_cons.
    destruct (OurbitExchange.parse_trading_rule (PDict d)) as [r|e].
    + cbn [ret]. unfold bind at 1. rewrite IH. reflexivity.
    + unfold bind at 1. rewrite eval_run. cbn [py_get].
      unfold bind at 1, emit, modify. cbn [ret].
      unfold bind at 1. rewrite IH. cbn [trace set_trace app map].
      rewrite <- app_assoc. cbn [app]. by destruct (assoc "symbol" d).
Qed.

(** X19.  With trading pairs configured and an exchange info whose
    "symbols" are objects, [_format_trading_rules] never fails: of the
    rules that name a configured pair, those that parse are returned in
    order, and each of the others is skipped with one error record; rules
    of other pairs are not looked at.  Nothing else changes. *)
Theorem format_trading_rules_skips_bad_rules (pairs : list string)
    (exchange_info_dict symbols : pyval) (items : list pyval) (s : Exchange) :
  py_get exchange_info_dict "symbols" (PList []) = Ok symbols ->
  py_iter symbols = Ok items ->
  Forall is_object items ->
  let rules := List.filter (listed pairs) items in
  OurbitExchange._format_trading_rules (Some pairs) exchange_info_dict s
  = (Returns (parsed_rules rules), set_trace (trace s ++ map LogError (rule_errors rules)) s)
  /\ length (parsed_rules rules) + length (rule_errors rules) = length rules.
Proof.
  intros Hsym Hit Hobj rules. split.
  - unfold OurbitExchange._format_trading_rules.
    unfold bind at 1. rewrite eval_run, Hsym.
    unfold bind at 1. rewrite eval_run, Hit.
    unfold bind at 1. rewrite eval_run, select_rules_objects by done.
    apply format_rules_run. apply Forall_forall. intros rule Hin.
    apply list_elem_of_In, List.filter_In in Hin as [Hin _].
    by apply (proj1 (Forall_forall _ _) Hobj), list_elem_of_In.
  - assert (Forall is_object rules) as Hrules.
    { apply Forall_forall. intros rule Hin.
      apply list_elem_of_In, List.filter_In in Hin as [Hin _].
      by apply (proj1 (Forall_forall _ _) Hobj), list_elem_of_In. }
    clear -Hrules. induction Hrules as [|rule rules' [d ->] _ IH]; [done|].
    rewrite parsed_rules_cons, rule_errors_cons.
    destruct (OurbitExchange.parse_trading_rule (PDict d)); cbn [length]; lia.
Qed.

(** X20.  Without configured trading pairs ([trading_pairs] is [None], the
    constructor's default) [_format_trading_rules] returns no rule for an
    exchange info without symbols and raises [TypeError] as soon as there
    is one; the connector is left as it was. *)
Theorem format_trading_rules_without_trading_pairs (exchange_info_dict symbols : pyval)
    (items : list pyval) (s : Exchange) :
  py_get exchange_info_dict "symbols" (PList []) = Ok symbols ->
  py_iter symbols = Ok items ->
  let run := OurbitExchange._format_trading_rules None exchange_info_dict s in
  (items = [] -> run = (Returns [], s))
  /\ (forall d rest, items = PDict d :: rest ->
        exists e, run = (Raises (Raised e), s) /\ exc_class e = "TypeError").
Proof.
  intros Hsym Hit run. subst run. split.
  - intros ->. unfold OurbitExchange._format_trading_rules.
    unfold bind at 1. rewrite eval_run, Hsym.
    unfold bind at 1. rewrite eval_run, Hit.
    by unfold bind; rewrite eval_run.
  - intros d rest ->. eexists. unfold OurbitExchange._format_trading_rules.
    unfold bind at 1. rewrite eval_run, Hsym.
    unfold bind at 1. rewrite eval_run, Hit.
    unfold bind. rewrite eval_run. by cbn.
Qed.

Section LastPrice.
Context {F : PyFloat}.

Lemma last_price_in_skips (symbol : string) (pre rest : list pyval) :
  Forall (ticker_of_other symbol) pre ->
  OurbitExchange.last_price_in symbol (pre ++ rest)
  = OurbitExchange.last_price_in symbol rest.
Proof.
  induction 1 as [|ticker pre (ticker_symbol & Hsym & Hne) _ IH]; [done|].
  cbn [app OurbitExchange.last_price_in]. rewrite Hsym. cbn [res_bind].
  by rewrite Hne.
Qed.

(** X21.  [_get_last_traded_price] asks for the ticker of the pair's
    symbol without authentication.  From a list response it returns the
    "lastPrice" of the first ticker of that symbol, whatever follows it,
    and 0.0, not an error, when no ticker of the list is of that symbol;
    from any other response it returns the response's own "lastPrice".
    The connector changes by the recorded request only. *)
Theorem last_traded_price_of_response (trading_pair : string) (s : Exchange) :
  cancel_at s = None ->
  _domain s = CONSTANTS.DEFAULT_DOMAIN ->
  let symbol := str_remove "-" trading_pair in
  let reply := rest_assistant s (trace s) (ticker_request trading_pair) in
  let run := OurbitExchange._get_last_traded_price trading_pair s in
  (forall pre ticker post,
     reply = Ok (PList (pre ++ ticker :: post)) ->
     Forall (ticker_of_other symbol) pre ->
     py_get ticker "symbol" PNone = Ok (PStr symbol) ->
     run = (outcome_of (let? lastPrice := py_getitem ticker "lastPrice" in
                        py_float lastPrice),
            sent (ticker_request trading_pair) s))
  /\ (forall tickers,
        reply = Ok (PList tickers) ->
        Forall (ticker_of_other symbol) tickers ->
        run = (Returns (Q2Qc 0), sent (ticker_request trading_pair) s))
  /\ (forall resp_json,
        reply = Ok resp_json ->
        (forall tickers, resp_json <> PList tickers) ->
        run = (outcome_of (let? lastPrice := py_getitem resp_json "lastPrice" in
                           py_float lastPrice),
               sent (ticker_request trading_pair) s))
  /\ (forall e, reply = Err e ->
        run = (Raises (Raised e), sent (ticker_request trading_pair) s)).
Proof.
  intros Hc Hd symbol reply run.
  assert (run = (let* resp_json :=
                   (fun _ => (outcome_of reply, sent (ticker_request trading_pair) s)) in
                 match resp_json with
                 | PList tickers => eval (OurbitExchange.last_price_in symbol tickers)
                 | _ =>
                     let* lastPrice := eval (py_getitem resp_json "lastPrice") in
                     eval (py_float lastPrice)
                 end) s) as ->.
  { subst run. unfold OurbitExchange._get_last_traded_price.
    unfold bind at 1. by rewrite _api_request_sends by done. }
  split_and!.
  - intros pre ticker post Hreply Hpre Hsym. unfold bind. rewrite Hreply. cbn [outcome_of].
    rewrite eval_run, last_price_in_skips by done.
    cbn [OurbitExchange.last_price_in]. rewrite Hsym. cbn [res_bind py_eq_str].
    by rewrite String.eqb_refl.
  - intros tickers Hreply Hall. unfold bind. rewrite Hreply. cbn [outcome_of].
    rewrite eval_run. rewrite <- (app_nil_r tickers), last_price_in_skips by done.
    reflexivity.
  - intros resp_json Hreply Hnl. unfold bind at 1. rewrite Hreply. cbn [outcome_of].
    destruct resp_json; try (unfold bind; rewrite eval_run;
      match goal with |- context [py_getitem ?v ?k] =>
        destruct (py_getitem v k); [by rewrite eval_run | done] end).
    by destruct (Hnl items).
  - intros e Hreply. unfold bind. by rewrite Hreply.
Qed.

End LastPrice.

End MarketDataProperties.

Lemma format_trading_rules_skips_bad_rules_witness :
  let s := Scenario.connector (Scenario.tracking Scenario.pending_order)
             Scenario.unreachable in
  let run := OurbitExchange._format_trading_rules (H:=Reference.builtins)
               (Some ["BTCUSDT"; "ETHUSDT"]) Examples.exchange_info s in
  (exists rule, run.1 = Returns [rule] /\ tr_trading_pair rule = PStr "BTCUSDT")
  /\ trace run.2
     = [LogError "Error parsing the trading pair rule ETHUSDT. Skipping. Error: [<class 'decimal.ConversionSyntax'>]"].
Proof.
  intros s run.
  destruct (format_trading_rules_skips_bad_rules (H:=Reference.builtins)
              ["BTCUSDT"; "ETHUSDT"] Examples.exchange_info
              (PList [Examples.BTCUSDT_rule; Examples.DOGEUSDT_rule; Examples.ETHUSDT_rule])
              [Examples.BTCUSDT_rule; Examples.DOGEUSDT_rule; Examples.ETHUSDT_rule] s
              eq_refl eq_refl) as [Hrun _].
  { repeat constructor; by eexists. }
  subst run. rewrite Hrun. split.
  - eexists. split; reflexivity.
  - reflexivity.
Defined.

Lemma format_trading_rules_without_trading_pairs_witness :
  let s := Scenario.connector (Scenario.tracking Scenario.pending_order)
             Scenario.unreachable in
  exists e,
    OurbitExchange._format_trading_rules (H:=Reference.builtins) None
      Examples.exchange_info s
    = (Raises (Raised e), s)
    /\ exc_class e = "TypeError".
Proof.
  intros s.
  exact (proj2 (format_trading_rules_without_trading_pairs (H:=Reference.builtins)
                  Examples.exchange_info
                  (PList [Examples.BTCUSDT_rule; Examples.DOGEUSDT_rule;
                          Examples.ETHUSDT_rule])
                  [Examples.BTCUSDT_rule; Examples.DOGEUSDT_rule; Examples.ETHUSDT_rule] s
                  eq_refl eq_refl)
           _ _ eq_refl).
Defined.

Lemma last_traded_price_of_response_witness :
  let listed := Scenario.connector (Scenario.tracking Scenario.pending_order)
                  (Ok (PList [Examples.ticker "ETHUSDT" "2000";
                              Examples.ticker "BTCUSDT" "30000";
                              Examples.ticker "BTCUSDT" "1"])) in
  let missing := Scenario.connector (Scenario.tracking Scenario.pending_order)
                   (Ok (PList [Examples.ticker "ETHUSDT" "2000"])) in
  (OurbitExchange._get_last_traded_price (F:=Examples.floats)
     "BTC-USDT" listed).1
  = Returns (Q2Qc (30000 # 1))
  /\ (OurbitExchange._get_last_traded_price (F:=Examples.floats)
        "BTC-USDT" missing).1
     = Returns (Q2Qc 0).
Proof.
  intros listed missing. split.
  - rewrite (proj1 (last_traded_price_of_response (F:=Examples.floats) "BTC-USDT" listed eq_refl eq_refl)
               [Examples.ticker "ETHUSDT" "2000"] (Examples.ticker "BTCUSDT" "30000")
               [Examples.ticker "BTCUSDT" "1"] eq_refl
               ltac:(repeat constructor; by eexists) eq_refl).
    reflexivity.
  - rewrite (proj1 (proj2 (last_traded_price_of_response (F:=Examples.floats) "BTC-USDT" missing eq_refl eq_refl))
               [Examples.ticker "ETHUSDT" "2000"] eq_refl
               ltac:(repeat constructor; by eexists)).
    reflexivity.
Defined.

(** *** Frames that do not decode, and messages that are no events *)

(** X22.  Only a [bytes] frame can fail to decode, and the error the
    caller then sees is that of reading the frame as plain UTF-8 JSON: the
    error of the gzip attempt is never reported. *)
Theorem decompress_reports_the_plain_text_error `{Codecs} (message : ws_message)
    (e : Exception) :
  decompress_ws_message message = Err e ->
  exists b, message = Bytes b /\ res_bind (utf8_decode b) json_loads = Err e.
Proof.
  destruct message as [b|v]; [|done]. cbn [decompress_ws_message].
  intros He. exists b. split; [done|].
  by destruct (res_bind (gzip_read b) _).
Qed.

Section FailingMessages.
Context `{PyBuiltins}.

(** X23.  Messages that are no objects are not events: with no
    cancellation pending the listener consumes a queue of them to its end,
    and each costs one error record and one five-second sleep; nothing
    else changes. *)
Theorem listener_sleeps_once_per_malformed_message (queue : list pyval) (s : Exchange) :
  cancel_at s = None ->
  Forall (fun event_message => forall d, event_message <> PDict d) queue ->
  OurbitExchange._user_stream_event_listener queue s
  = (Returns tt, Nat.iter (length queue) after_listener_error s).
Proof.
  intros Hc Hq. revert s Hc.
  induction Hq as [|event_message queue Hev _ IH]; intros s Hc.
  - cbn [OurbitExchange._user_stream_event_listener]. by rewrite await_uncancelled.
  - cbn [OurbitExchange._user_stream_event_listener length].
    unfold bind at 1. rewrite await_uncancelled by done. cbn [ret].
    unfold bind at 1, try_except.
    assert (exists e, OurbitExchange.process_event event_message s = (Raises (Raised e), s))
      as [e ->].
    { unfold OurbitExchange.process_event, bind. rewrite eval_run.
      destruct event_message; try by eexists. by destruct (Hev entries). }
    rewrite listener_handler_run by done.
    rewrite IH by done. by rewrite Nat.iter_succ_r.
Qed.

End FailingMessages.

Lemma decompress_reports_the_plain_text_error_witness :
  exists b,
    Bytes [xff] = Bytes b
    /\ res_bind (Reference.decode b) Reference.loads
       = Err (mkException "UnicodeDecodeError" "'utf-8' codec can't decode byte").
Proof.
  exact (decompress_reports_the_plain_text_error (H:=Reference.codecs) (Bytes [xff]) _
           eq_refl).
Defined.

Lemma listener_sleeps_once_per_malformed_message_witness :
  let s := Scenario.connector (Scenario.tracking Scenario.pending_order)
             Scenario.unreachable in
  let run := OurbitExchange._user_stream_event_listener (H:=Reference.builtins)
               [PStr "pong"; PNone] s in
  run.1 = Returns tt
  /\ clock run.2 = (clock s + Q2Qc 5 + Q2Qc 5)%Qc
  /\ _order_tracker run.2 = _order_tracker s.
Proof.
  intros s run. subst run.
  rewrite (listener_sleeps_once_per_malformed_message (H:=Reference.builtins)
             [PStr "pong"; PNone] s eq_refl).
  - by split_and!.
  - by repeat constructor.
Defined.
